(** * lonet: a virtual TCP-like network over the loopback interface

    A model of the Python package [xnet/lonet] of go123, with the parts of
    [xerr] it relies on, and the properties of its specification.

    - Python objects are attribute dictionaries kept in a store, so that
      an attribute read or written under a name is looked up by that name,
      as the interpreter does; objects are shared through their place in
      the store.
    - Methods are functions in a state-and-exception monad over the store;
      [with errctx], [try]/[except] and [defer] are its combinators.
    - One thread runs at a time.  Locks are therefore not modelled; what
      the other threads offer to the [select]s of [accept] is an argument
      of its model, and so is what the peer sends back to a dialer.
    - The registry file is the content of its two tables, one row per
      primary key; a loopback socket is the bytes it will still deliver.
    - Byte strings are [string]s, integers are [Z].

    The first part is the model, in the order of the source; the second
    part states and proves the properties. *)

From Stdlib Require Import ZArith String Ascii List Lia Bool.
From Stdlib Require Import DecimalString DecimalZ DecimalPos.
From stdpp Require Import base gmap strings list.

Set Warnings "-register-all".

Open Scope Z_scope.
Open Scope string_scope.

(** ** Exceptions *)

(** The exceptions that the modelled code raises.  The [Err...] constants
    are the module-level objects built by [neterror]; they are compared by
    identity in the source, hence one constructor each. *)
Inductive exc : Type :=
  | AttributeError (cls attr : string)
  | IndexError (msg : string)
  | TypeError (msg : string)
  | UnboundLocalError (name : string)
  | ValueError (msg : string)
  | RuntimeError (msg : string)
  | IntegrityError (message : string)
  | PanicError (msg : string)
  | gaierror (msg : string)
  | ErrNetDown
  | ErrHostDown
  | ErrSockDown
  | ErrAddrAlreadyUsed
  | ErrAddrNoListen
  | ErrConnRefused
  | ErrNoHost
  | ErrHostDup
  | protocolError (msg : string)
  | Error (err : string) (cause_exc : option exc)
  | RegistryError (err : exc) (registry op : string) (argv : list string).

(** What running a piece of code gives: a value, a raised exception, or no
    result at all ([Stuck]: the code waits for ever on a channel, or a loop
    of the model ran past its variant). *)
Inductive outcome (A : Type) : Type :=
  | Ok (a : A)
  | Raise (e : exc)
  | Stuck (why : string).
Arguments Ok {A} a.
Arguments Raise {A} e.
Arguments Stuck {A} why.

(** ** State and exception monad *)

Module Run.

Definition M (S A : Type) : Type := S -> outcome A * S.

Definition ret {S A} (a : A) : M S A := fun s => (Ok a, s).

Definition bind {S A B} (m : M S A) (k : A -> M S B) : M S B :=
  fun s =>
    match m s with
    | (Ok a, s') => k a s'
    | (Raise e, s') => (Raise e, s')
    | (Stuck y, s') => (Stuck y, s')
    end.

Definition raise {S A} (e : exc) : M S A := fun s => (Raise e, s).

Definition stuck {S A} (why : string) : M S A := fun s => (Stuck why, s).

Definition get {S} : M S S := fun s => (Ok s, s).

Definition put {S} (s : S) : M S unit := fun _ => (Ok tt, s).

(** A computation that does not touch the state. *)
Definition lift {S A} (r : outcome A) : M S A := fun s => (r, s).

(** [try: m except Exception as e: h e] *)
Definition try_except {S A} (m : M S A) (h : exc -> M S A) : M S A :=
  fun s =>
    match m s with
    | (Raise e, s') => h e s'
    | r => r
    end.

(** [with xerr.context(errprefix): m]; [context.__exit__] raises
    [Error(errprefix, exc_val, exc_tb)] when the block raised. *)
Definition errctx {S A} (errprefix : string) (m : M S A) : M S A :=
  try_except m (fun e => raise (Error errprefix (Some e))).

(** [defer(d)] at the head of a function whose remaining body is [m]: [d]
    runs when the function is left, whether [m] returned or raised; an
    exception of [d] is the one that leaves the function. *)
Definition defer {S A} (d : M S unit) (m : M S A) : M S A :=
  fun s =>
    match m s with
    | (Stuck y, s') => (Stuck y, s')
    | (r, s') =>
        match d s' with
        | (Ok _, s'') => (r, s'')
        | (Raise e, s'') => (Raise e, s'')
        | (Stuck y, s'') => (Stuck y, s'')
        end
    end.

End Run.
Import Run.

Notation "'let*' x ':=' m 'in' k" := (bind m (fun x => k))
  (at level 10, x pattern, m at level 100, k at level 200).
Notation "m ';;;' k" := (bind m (fun _ => k))
  (at level 100, k at level 200, right associativity).

(** ** xerr *)

Module xerr.

(** [well_defined]: [Error] and [protocolError] are registered as classes
    ([register_wde_class]), the [neterror] objects as objects. *)
Definition well_defined (err : exc) : bool :=
  match err with
  | Error _ _ | protocolError _ => true
  | ErrNetDown | ErrHostDown | ErrSockDown | ErrAddrAlreadyUsed
  | ErrAddrNoListen | ErrConnRefused | ErrNoHost | ErrHostDup => true
  | _ => false
  end.

(** [cause]: the deepest cause that is not [None]. *)
Fixpoint cause (err : exc) : exc :=
  match err with
  | Error _ (Some e) => cause e
  | _ => err
  end.

(** [str(e)] of an exception that is not an [Error]; [None] where the
    text is not modelled. *)
Definition leaf_str (e : exc) : option string :=
  match e with
  | ErrNetDown => Some "[Errno 77] network is down"
  | ErrHostDown => Some "[Errno 77] host is down"
  | ErrSockDown => Some "[Errno 77] socket is down"
  | ErrAddrAlreadyUsed => Some "[Errno 98] address already in use"
  | ErrAddrNoListen => Some "[Errno 99] cannot listen on requested address"
  | ErrConnRefused => Some "[Errno 111] connection refused"
  | ErrNoHost => Some "no such host"
  | ErrHostDup => Some "host already registered"
  | protocolError msg => Some ("protocol error: " +:+ msg)
  | ValueError msg | RuntimeError msg | IndexError msg | TypeError msg
  | gaierror msg | IntegrityError msg | PanicError msg => Some msg
  | _ => None
  end.

(** [Error.__str__]: the messages of the chain of [Error]s and the text of
    the cause that ends it, joined with [": "].  The traceback that is
    added for a cause that is not well defined is left out. *)
Fixpoint Error_str (e : exc) : option string :=
  match e with
  | Error err None => Some err
  | Error err (Some c) =>
      match Error_str c with
      | Some s => Some (err +:+ ": " +:+ s)
      | None => None
      end
  | _ => leaf_str e
  end.

End xerr.

(** ** Byte strings *)

Definition nl : ascii := "010"%char.

(** [s.split(sep)] for a one-byte separator. *)
Fixpoint str_split (sep : ascii) (s : string) : list string :=
  match s with
  | EmptyString => [EmptyString]
  | String c s' =>
      if Ascii.eqb c sep then EmptyString :: str_split sep s'
      else match str_split sep s' with
           | p :: ps => String c p :: ps
           | [] => [String c EmptyString]
           end
  end.

(** [c in s] for a byte [c]. *)
Fixpoint has_char (c : ascii) (s : string) : bool :=
  match s with
  | EmptyString => false
  | String d s' => Ascii.eqb d c || has_char c s'
  end.

(** ["%d" % z] *)
Definition fmt_d (z : Z) : string := NilZero.string_of_int (Z.to_int z).

Definition is_space (c : ascii) : bool :=
  let n := nat_of_ascii c in
  (n =? 32)%nat || ((9 <=? n)%nat && (n <=? 13)%nat).

Definition digit_of (c : ascii) : option N :=
  let n := N_of_ascii c in
  if ((48 <=? n) && (n <=? 57))%N then Some (n - 48)%N else None.

Fixpoint lstrip (s : string) : string :=
  match s with
  | String c s' => if is_space c then lstrip s' else s
  | EmptyString => EmptyString
  end.

(** Reads decimal digits up to the end of the number; what may follow is
    white space only. *)
Fixpoint all_space (s : string) : bool :=
  match s with
  | EmptyString => true
  | String c s' => is_space c && all_space s'
  end.

Fixpoint digits (acc : N) (seen : bool) (s : string) : option N :=
  match s with
  | EmptyString => if seen then Some acc else None
  | String c s' =>
      match digit_of c with
      | Some d => digits (10 * acc + d)%N true s'
      | None => if seen && all_space s then Some acc else None
      end
  end.

(** [int(s)] on a byte string, base 10: optional white space around an
    optional sign and at least one decimal digit; [None] stands for the
    [ValueError] that [int] raises. *)
Definition py_int (s : string) : option Z :=
  match lstrip s with
  | String "+" r => option_map Z.of_N (digits 0 false r)
  | String "-" r => option_map (fun n => - Z.of_N n) (digits 0 false r)
  | r => option_map Z.of_N (digits 0 false r)
  end.

(** ** Addr *)

Record Addr : Type := mkAddr { net : string; host : string; port : Z }.

(** [addrstr4]: ["%s:%d" % (host, port)] *)
Definition addrstr4 (host : string) (port : Z) : string :=
  host +:+ ":" +:+ fmt_d port.

Definition Addr_str (a : Addr) : string := addrstr4 (host a) (port a).

(** [Addr.__eq__] between two addresses. *)
Definition Addr_eq (a b : Addr) : bool :=
  String.eqb (net a) (net b) && String.eqb (host a) (host b)
  && Z.eqb (port a) (port b).

Definition invalid_addr (addr : string) : exc :=
  ValueError (addr +:+ " is not valid virtnet address").

(** [Addr.parse]: any exception raised in the [try] block is replaced by
    the [ValueError] of the [except] clause.  The function touches no
    state, so it is run on the unit state. *)
Definition Addr_parse (net addr : string) : outcome Addr :=
  fst (try_except
    (let addrv := str_split ":" addr in
     if negb (length addrv =? 2)%nat then raise (ValueError EmptyString)
     else
       match py_int (nth 1 addrv EmptyString) with
       | Some p => ret (mkAddr net (nth 0 addrv EmptyString) p)
       | None => raise (ValueError "invalid literal for int() with base 10")
       end)
    (fun _ => raise (invalid_addr addr)) tt).

(** ** Reading a line from a stream *)

(** The bytes that a socket will still deliver before end of file.
    [sk.recv(1)] takes the first of them, and returns the empty string at
    end of file. *)
Abbreviation stream := string (only parsing).

Definition recv1 : M stream string :=
  fun sk =>
    match sk with
    | String b sk' => (Ok (String b EmptyString), sk')
    | EmptyString => (Ok EmptyString, EmptyString)
    end.

(** The loop of [skreadline]; [fuel] bounds the iterations, each of which
    makes [line] one byte longer while [len(line) < maxlen]. *)
Fixpoint skreadline_loop (fuel : nat) (maxlen : Z) (line : string)
  : M stream string :=
  if (Z.of_nat (String.length line) <? maxlen)%Z then
    match fuel with
    | O => stuck "skreadline"
    | S fuel' =>
        let* b := recv1 in
        if (String.length b =? 0)%nat then raise (Error "unexpected EOF" None)
        else
          let line := line +:+ b in
          if String.eqb b (String nl EmptyString) then ret line
          else skreadline_loop fuel' maxlen line
    end
  else ret line.

Definition skreadline (maxlen : Z) : M stream string :=
  skreadline_loop (Z.to_nat maxlen) maxlen EmptyString.

(** ** Quoting *)

Definition dq : ascii := "034"%char.
Definition bs : ascii := "092"%char.
Definition tab : ascii := "009"%char.
Definition cr : ascii := "013"%char.

Definition hexdigit (n : N) : ascii :=
  if (n <? 10)%N then ascii_of_N (48 + n) else ascii_of_N (87 + n).

(** Modelled from the spec: the quoter [qq] of [golang.gcompat], which the
    sources import but do not contain.  It wraps the text in double quotes
    and escapes the double quote, the backslash, and the bytes below 0x20,
    0x7f and those above with the short escapes of C where there is one
    and a two-digit hexadecimal escape otherwise.  The single quote stays
    as it is, as the test of [qq] wants. *)
Definition qq_byte (c : ascii) : string :=
  let n := N_of_ascii c in
  if Ascii.eqb c dq then String bs (String dq EmptyString)
  else if Ascii.eqb c bs then String bs (String bs EmptyString)
  else if Ascii.eqb c nl then String bs "n"
  else if Ascii.eqb c tab then String bs "t"
  else if Ascii.eqb c cr then String bs "r"
  else if ((n <? 32) || (127 <=? n))%N then
    String bs (String "x" (String (hexdigit (n / 16)) (String (hexdigit (n mod 16)) EmptyString)))
  else String c EmptyString.

(** Modelled from the spec: the escaped text between the quotes. *)
Fixpoint qq_body (s : string) : string :=
  match s with
  | EmptyString => EmptyString
  | String c s' => qq_byte c +:+ qq_body s'
  end.

(** Modelled from the spec: [qq(s)], the escaped text in double quotes. *)
Definition qq (s : string) : string :=
  String dq (qq_body s +:+ String dq EmptyString).

(** ** Unquoting: the [string_escape] codec *)

Definition hexval (c : ascii) : option N :=
  let n := N_of_ascii c in
  if ((48 <=? n) && (n <=? 57))%N then Some (n - 48)%N
  else if ((97 <=? n) && (n <=? 102))%N then Some (n - 87)%N
  else if ((65 <=? n) && (n <=? 70))%N then Some (n - 55)%N
  else None.

Definition octval (c : ascii) : option N :=
  let n := N_of_ascii c in
  if ((48 <=? n) && (n <=? 55))%N then Some (n - 48)%N else None.

(** What one escape letter stands for ([None]: not a one-letter escape). *)
Definition short_escape (c : ascii) : option ascii :=
  if Ascii.eqb c bs then Some bs
  else if Ascii.eqb c "'" then Some "'"%char
  else if Ascii.eqb c dq then Some dq
  else if Ascii.eqb c "b" then Some "008"%char
  else if Ascii.eqb c "f" then Some "012"%char
  else if Ascii.eqb c "t" then Some tab
  else if Ascii.eqb c "n" then Some nl
  else if Ascii.eqb c "r" then Some cr
  else if Ascii.eqb c "v" then Some "011"%char
  else if Ascii.eqb c "a" then Some "007"%char
  else None.

(** [s.decode('string_escape')]; [None] stands for the [ValueError] of a
    trailing backslash or of a hexadecimal escape without two digits.
    [pending] holds the octal escape being read: its value and how many
    more digits it may take. *)
Fixpoint string_escape_decode_from (pending : option (N * nat)) (s : string)
  : option string :=
  let flush (rest : option string) : option string :=
    match pending with
    | Some (v, _) => option_map (String (ascii_of_N (v mod 256))) rest
    | None => rest
    end in
  match s with
  | EmptyString => flush (Some EmptyString)
  | String c s1 =>
      match pending, octval c with
      | Some (v, S more), Some d =>
          string_escape_decode_from (Some (8 * v + d, more)%N) s1
      | _, _ =>
          flush
            (if Ascii.eqb c bs then
               match s1 with
               | EmptyString => None
               | String e s2 =>
                   match short_escape e, octval e with
                   | Some x, _ =>
                       option_map (String x) (string_escape_decode_from None s2)
                   | None, Some d =>
                       string_escape_decode_from (Some (d, 2%nat)) s2
                   | None, None =>
                       if Ascii.eqb e nl then string_escape_decode_from None s2
                       else if Ascii.eqb e "x" then
                         match s2 with
                         | String h1 (String h2 s3) =>
                             match hexval h1, hexval h2 with
                             | Some a, Some b =>
                                 option_map (String (ascii_of_N (16 * a + b)))
                                   (string_escape_decode_from None s3)
                             | _, _ => None
                             end
                         | _ => None
                         end
                       else
                         option_map (fun r => String bs (String e r))
                           (string_escape_decode_from None s2)
                   end
               end
             else option_map (String c) (string_escape_decode_from None s1))
      end
  end.

Definition string_escape_decode (s : string) : outcome string :=
  match string_escape_decode_from None s with
  | Some r => Ok r
  | None => Raise (ValueError "invalid string_escape")
  end.

(** ** Regular expressions

    The fragment of Python's [re] that the handshake patterns use, matched
    as [re] matches: by backtracking, the alternatives tried in order and
    the first success kept. *)

Module re.

Inductive pattern : Type :=
  | Lit (s : string)                (* the bytes of [s] *)
  | NoneOf (cs : list ascii)        (* [[^...]]; [.] is [[^\n]] *)
  | LazyStar (cs : list ascii)      (* [[^...]*?] *)
  | GreedyPlus (cs : list ascii)    (* [[^...]+] *)
  | Seq (p q : pattern)
  | Group (name : string) (p : pattern).

Definition none_of (cs : list ascii) (c : ascii) : bool :=
  negb (existsb (Ascii.eqb c) cs).

Fixpoint strip_prefix (lit s : string) : option string :=
  match lit, s with
  | EmptyString, _ => Some s
  | String a lit', String b s' =>
      if Ascii.eqb a b then strip_prefix lit' s' else None
  | String _ _, EmptyString => None
  end.

Definition groupdict : Type := list (string * string).

(** [run p s g k]: match [p] at the head of [s], then go on with [k] on
    what is left; [g] collects the groups closed so far. *)
Fixpoint run (p : pattern) (s : string) (g : groupdict)
  (k : string -> groupdict -> option groupdict) {struct p} : option groupdict :=
  match p with
  | Lit lit =>
      match strip_prefix lit s with
      | Some s' => k s' g
      | None => None
      end
  | NoneOf cs =>
      match s with
      | String c s' => if none_of cs c then k s' g else None
      | EmptyString => None
      end
  | LazyStar cs =>
      (fix more (s : string) : option groupdict :=
         match k s g with
         | Some r => Some r
         | None =>
             match s with
             | String c s' => if none_of cs c then more s' else None
             | EmptyString => None
             end
         end) s
  | GreedyPlus cs =>
      (fix more (s : string) : option groupdict :=
         match s with
         | String c s' =>
             if none_of cs c then
               match more s' with
               | Some r => Some r
               | None => k s' g
               end
             else None
         | EmptyString => None
         end) s
  | Seq p1 p2 => run p1 s g (fun s' g' => run p2 s' g' k)
  | Group name p1 =>
      run p1 s g
        (fun s' g' =>
           k s' ((name, substring 0 (String.length s - String.length s') s) :: g'))
  end.

(** [p.match(s)]: anchored at the start of [s], free at its end. *)
Definition match_ (p : pattern) (s : string) : option groupdict :=
  run p s [] (fun _ g => Some g).

(** [m.group(name)] for a group that took part in the match. *)
Fixpoint group (m : groupdict) (name : string) : string :=
  match m with
  | [] => EmptyString
  | (n, v) :: m' => if String.eqb n name then v else group m' name
  end.

Definition dot : list ascii := [nl].

(** [\s]: space, tab, newline, carriage return, form feed, vertical tab. *)
Definition whitespace : list ascii :=
  [" "%char; tab; nl; cr; "012"%char; "011"%char].

End re.

(** ** The lonet handshake lines *)

(** Quoted group of the patterns: ["(?P<name>.*?[^\\])"]. *)
Definition quoted_group (name : string) : re.pattern :=
  re.Seq (re.Lit (String dq EmptyString))
    (re.Seq (re.Group name (re.Seq (re.LazyStar re.dot) (re.NoneOf [bs])))
       (re.Lit (String dq EmptyString))).

Definition eol : string := String nl EmptyString.

(** [> lonet "(?P<network>.*?[^\\])" dial "(?P<src>.*?[^\\])" "(?P<dst>.*?[^\\])"\n] *)
Definition _lodial_re : re.pattern :=
  re.Seq (re.Lit "> lonet ")
    (re.Seq (quoted_group "network")
       (re.Seq (re.Lit " dial ")
          (re.Seq (quoted_group "src")
             (re.Seq (re.Lit " ")
                (re.Seq (quoted_group "dst") (re.Lit eol)))))).

(** [< lonet "(?P<network>.*?[^\\])" (?P<reply>[^\s]+) "(?P<arg>.*?[^\\])"\n] *)
Definition _loreply_re : re.pattern :=
  re.Seq (re.Lit "< lonet ")
    (re.Seq (quoted_group "network")
       (re.Seq (re.Lit " ")
          (re.Seq (re.Group "reply" (re.GreedyPlus re.whitespace))
             (re.Seq (re.Lit " ") (re.Seq (quoted_group "arg") (re.Lit eol)))))).

(** The line that [__loconnect] sends. *)
Definition dial_line (network src dst : string) : string :=
  "> lonet " +:+ qq network +:+ " dial " +:+ qq src +:+ " " +:+ qq dst +:+ eol.

(** The line that [reply] of [__loaccept] sends. *)
Definition reply_line (network reply : string) : string :=
  "< lonet " +:+ qq network +:+ " " +:+ reply +:+ eol.

Definition connected_reply (network addr : string) : string :=
  reply_line network ("connected " +:+ qq addr).

Definition E_reply (network e : string) : string :=
  reply_line network ("E " +:+ qq e).

Definition obind {A B} (r : outcome A) (k : A -> outcome B) : outcome B :=
  match r with
  | Ok a => k a
  | Raise e => Raise e
  | Stuck y => Stuck y
  end.

(** How [__loaccept] reads the dial request: the match and the three
    decoded groups, or the protocol error of [eproto]. *)
Definition loaccept_parse (line : string) : outcome (string * string * string) :=
  match re.match_ _lodial_re line with
  | None => Raise (protocolError ("invalid dial request: " +:+ qq line))
  | Some m =>
      obind (string_escape_decode (re.group m "network")) (fun network =>
      obind (string_escape_decode (re.group m "src")) (fun src =>
      obind (string_escape_decode (re.group m "dst")) (fun dst =>
      Ok (network, src, dst))))
  end.

(** How [__loconnect] reads the reply: network, verb and argument. *)
Definition loconnect_parse (line : string) : outcome (string * string * string) :=
  match re.match_ _loreply_re line with
  | None => Raise (protocolError ("invalid dial reply: " +:+ qq line))
  | Some m =>
      obind (string_escape_decode (re.group m "network")) (fun network =>
      let reply := re.group m "reply" in
      obind (string_escape_decode (re.group m "arg")) (fun arg =>
      Ok (network, reply, arg)))
  end.

(** ** Python objects *)

(** An object is referred to by its place in the store. *)
Abbreviation loc := nat (only parsing).

(** The values held by attributes and lists.  A channel that is only ever
    closed ([_down]) is its closed flag; a [threading.Event] and a
    [sync.Once] are their flag; locks, threads and database connections
    are opaque. *)
Inductive pyval : Type :=
  | VNone
  | VBool (b : bool)
  | VInt (z : Z)
  | VStr (s : string)
  | VRef (l : loc)
  | VList (vs : list pyval)
  | VAddr (a : Addr)
  | VChan (closed : bool)
  | VOpaque (what : string).

(** An object: its class and its [__dict__].  A [dict] with string keys is
    an object of class ["dict"] whose attributes are its items. *)
Record pyobj : Type := mkObj { cls : string; attrs : gmap string pyval }.

(** The registry file: the tables [hosts] and [meta], each with a text
    primary key. *)
Record database : Type :=
  mkDB { hosts : gmap string string; meta : gmap string string }.

(** The store, the registry file that the connections of the pool are
    open on, and what went to [log.error]. *)
Record world : Type :=
  mkWorld { heap : list pyobj; file : database; errlog : list exc }.

Definition set_heap (hp : list pyobj) (w : world) : world :=
  mkWorld hp (file w) (errlog w).

Definition set_file (d : database) (w : world) : world :=
  mkWorld (heap w) d (errlog w).

(** Attributes defined by the class statement rather than on the instance. *)
Definition class_attr (cls name : string) : option pyval :=
  if String.eqb cls "SQLiteRegistry" && String.eqb name "schema_ver"
  then Some (VStr "lonet.1") else None.

(** [o.name] *)
Definition getattr (o : loc) (name : string) : M world pyval :=
  fun w =>
    match heap w !! o with
    | Some ob =>
        match attrs ob !! name with
        | Some v => (Ok v, w)
        | None =>
            match class_attr (cls ob) name with
            | Some v => (Ok v, w)
            | None => (Raise (AttributeError (cls ob) name), w)
            end
        end
    | None => (Stuck "no such object", w)
    end.

(** [o.name = v] *)
Definition setattr (o : loc) (name : string) (v : pyval) : M world unit :=
  fun w =>
    match heap w !! o with
    | Some ob =>
        (Ok tt, set_heap (<[o := mkObj (cls ob) (<[name := v]> (attrs ob))]> (heap w)) w)
    | None => (Stuck "no such object", w)
    end.

(** A new object of class [c] with the attributes [items]. *)
Definition new_obj (c : string) (items : list (string * pyval)) : M world loc :=
  fun w =>
    (Ok (length (heap w)),
     set_heap (heap w ++ [mkObj c (list_to_map items)]) w).

Definition as_ref (v : pyval) : M world loc :=
  match v with
  | VRef l => ret l
  | VNone => raise (TypeError "None where an object is expected")
  | _ => raise (TypeError "object expected")
  end.

Definition as_int (v : pyval) : M world Z :=
  match v with VInt z => ret z | _ => raise (TypeError "int expected") end.

Definition as_bool (v : pyval) : M world bool :=
  match v with VBool b => ret b | _ => raise (TypeError "bool expected") end.

Definition as_str (v : pyval) : M world string :=
  match v with VStr s => ret s | _ => raise (TypeError "str expected") end.

Definition as_list (v : pyval) : M world (list pyval) :=
  match v with VList l => ret l | _ => raise (TypeError "list expected") end.

Definition getattr_ref (o : loc) (name : string) : M world loc :=
  let* v := getattr o name in as_ref v.
Definition getattr_int (o : loc) (name : string) : M world Z :=
  let* v := getattr o name in as_int v.
Definition getattr_bool (o : loc) (name : string) : M world bool :=
  let* v := getattr o name in as_bool v.
Definition getattr_str (o : loc) (name : string) : M world string :=
  let* v := getattr o name in as_str v.
Definition getattr_list (o : loc) (name : string) : M world (list pyval) :=
  let* v := getattr o name in as_list v.

(** [v is None] *)
Definition is_None (v : pyval) : bool :=
  match v with VNone => true | _ => false end.

(** [len(l)] *)
Definition len (l : list pyval) : Z := Z.of_nat (length l).

(** The place that the index [i] of a list of length [n] denotes: indices
    below zero count from the end. *)
Definition py_index (n : nat) (i : Z) : option nat :=
  if ((0 <=? i) && (i <? Z.of_nat n))%Z then Some (Z.to_nat i)
  else if ((i <? 0) && (- Z.of_nat n <=? i))%Z then Some (Z.to_nat (Z.of_nat n + i))
  else None.

(** [l[i]] *)
Definition getitem (l : list pyval) (i : Z) : M world pyval :=
  match py_index (length l) i with
  | Some k =>
      match l !! k with
      | Some v => ret v
      | None => raise (IndexError "list index out of range")
      end
  | None => raise (IndexError "list index out of range")
  end.

(** [o.name[i] = v] *)
Definition setitem (o : loc) (name : string) (i : Z) (v : pyval) : M world unit :=
  let* l := getattr_list o name in
  match py_index (length l) i with
  | Some k => setattr o name (VList (<[k := v]> l))
  | None => raise (IndexError "list assignment index out of range")
  end.

(** [o.name.append(v)] *)
Definition list_append (o : loc) (name : string) (v : pyval) : M world unit :=
  let* l := getattr_list o name in
  setattr o name (VList (l ++ [v])).

(** [for x in l: f x] *)
Fixpoint for_each {S A} (l : list A) (f : A -> M S unit) : M S unit :=
  match l with
  | [] => ret tt
  | x :: l' => f x ;;; for_each l' f
  end.

(** [panic(msg)] *)
Definition panic {A} (msg : string) : M world A := raise (PanicError msg).

(** [set_once(o.event)]: sets the event and tells whether it was this call
    that set it. *)
Definition set_once (o : loc) (event : string) : M world bool :=
  let* is_set := getattr_bool o event in
  if is_set then ret false
  else setattr o event (VBool true) ;;; ret true.

(** [o.once.do(f)] of [sync.Once]: [f] runs on the first call only, and the
    once counts as done even when [f] raises. *)
Definition once_do (o : loc) (once : string) (f : M world unit) : M world unit :=
  let* done := getattr_bool o once in
  if done then ret tt
  else setattr o once (VBool true) ;;; f.

(** [o.ch.close()] of a channel. *)
Definition chan_close (o : loc) (ch : string) : M world unit :=
  let* v := getattr o ch in
  match v with
  | VChan false => setattr o ch (VChan true)
  | VChan true => panic "close of closed channel"
  | _ => raise (TypeError "chan expected")
  end.

(** [ready(o.ch)] for a channel nothing is ever sent on: a receive is
    ready once the channel is closed. *)
Definition ready (o : loc) (ch : string) : M world bool :=
  let* v := getattr o ch in
  match v with
  | VChan closed => ret closed
  | _ => raise (TypeError "chan expected")
  end.

(** ** Registry *)

(** The four SQL statements of the registry, on the file.  A primary key
    admits one row per key, so a [SELECT] by key gives at most one row. *)
Definition select_meta_value (name : string) : M world (list string) :=
  fun w =>
    (Ok (match meta (file w) !! name with Some v => [v] | None => [] end), w).

Definition select_hosts_osladdr (hostname : string) : M world (list string) :=
  fun w =>
    (Ok (match hosts (file w) !! hostname with Some v => [v] | None => [] end), w).

Definition insert_or_replace_meta (name value : string) : M world unit :=
  fun w =>
    (Ok tt, set_file (mkDB (hosts (file w)) (<[name := value]> (meta (file w)))) w).

Definition insert_hosts (hostname osladdr : string) : M world unit :=
  fun w =>
    match hosts (file w) !! hostname with
    | Some _ => (Raise (IntegrityError "UNIQUE constraint failed: hosts.hostname"), w)
    | None =>
        (Ok tt, set_file (mkDB (<[hostname := osladdr]> (hosts (file w))) (meta (file w))) w)
    end.

Module DBPool.

Definition new : M world loc :=
  new_obj "DBPool"
    [("_factory", VOpaque "factory"); ("_lock", VOpaque "Lock"); ("_connv", VList [])].

Definition get (pool : loc) : M world pyval :=
  let* factory := getattr pool "_factory" in
  if is_None factory then raise (RuntimeError "sqlite: pool: get on closed pool")
  else
    let* connv := getattr_list pool "_connv" in
    if (0 <? len connv)%Z then
      setattr pool "_connv" (VList (removelast connv)) ;;;
      ret (List.last connv VNone)
    else ret (VOpaque "sqlite3.Connection").

Definition put (pool : loc) (conn : pyval) : M world unit :=
  let* factory := getattr pool "_factory" in
  if negb (is_None factory) then list_append pool "_connv" conn
  else ret tt.

Definition close (pool : loc) : M world unit :=
  setattr pool "_factory" VNone ;;;
  setattr pool "_connv" (VList []).

(** [with pool.xget() as conn: body conn] *)
Definition with_xget {A} (pool : loc) (body : pyval -> M world A) : M world A :=
  let* conn := get pool in
  defer (put pool conn) (body conn).

End DBPool.

(** [@_regerr] around the method [fname] called with [argv]. *)
Definition _regerr {A} (self : loc) (fname : string) (argv : list string)
  (f : M world A) : M world A :=
  try_except f
    (fun err =>
       let err := if negb (xerr.well_defined err) then Error "BUG" (Some err) else err in
       let* uri := getattr_str self "uri" in
       raise (RegistryError err uri fname argv)).

Module SQLiteRegistry.

Definition _config (r : loc) (conn : pyval) (name : string) : M world string :=
  errctx ("config: get " +:+ qq name)
    (let* rowv := select_meta_value name in
     match rowv with
     | [] => ret EmptyString
     | [value] => ret value
     | _ => raise (Error "registry broken: duplicate config entries" None)
     end).

Definition _set_config (r : loc) (conn : pyval) (name value : string) : M world unit :=
  errctx ("config: set " +:+ qq name +:+ " = " +:+ qq value)
    (insert_or_replace_meta name value).

Definition _setup (r : loc) (network : string) : M world unit :=
  errctx ("setup " +:+ qq network)
    (let* pool := getattr_ref r "_dbpool" in
     DBPool.with_xget pool (fun conn =>
       let* ver := _config r conn "schemaver" in
       let* ver :=
         if String.eqb ver EmptyString then
           let* ver := getattr_str r "schema_ver" in
           _set_config r conn "schemaver" ver ;;;
           ret ver
         else ret ver in
       let* schema_ver := getattr_str r "schema_ver" in
       (if negb (String.eqb ver schema_ver) then
          let* want := getattr_str r "_schema_ver" in
          raise (Error ("schema version mismatch: want " +:+ qq want
                        +:+ "; have " +:+ qq ver) None)
        else ret tt) ;;;
       let* dbnetwork := _config r conn "network" in
       let* dbnetwork :=
         if String.eqb dbnetwork EmptyString then
           _set_config r conn "network" network ;;;
           ret network
         else ret dbnetwork in
       if negb (String.eqb dbnetwork network) then
         raise (Error ("network name mismatch: want " +:+ qq network
                       +:+ "; have " +:+ qq dbnetwork) None)
       else ret tt)).

(** [SQLiteRegistry(dburi, network)] *)
Definition new (dburi network : string) : M world loc :=
  let* r := new_obj "SQLiteRegistry" [] in
  _regerr r "__init__" [dburi; network]
    (setattr r "uri" (VStr dburi) ;;;
     let* pool := DBPool.new in
     setattr r "_dbpool" (VRef pool) ;;;
     _setup r network) ;;;
  ret r.

Definition close (r : loc) : M world unit :=
  let* pool := getattr_ref r "_dbpool" in
  DBPool.close pool.

Definition announce (r : loc) (hostname osladdr : string) : M world unit :=
  _regerr r "announce" [hostname; osladdr]
    (let* pool := getattr_ref r "_dbpool" in
     DBPool.with_xget pool (fun conn =>
       try_except (insert_hosts hostname osladdr)
         (fun e =>
            match e with
            | IntegrityError message =>
                if String.prefix "UNIQUE constraint failed" message
                then raise ErrHostDup else raise e
            | _ => raise e
            end))).

(** [r.query(hostname)]: the address, or [None]. *)
Definition query (r : loc) (hostname : string) : M world (option string) :=
  _regerr r "query" [hostname]
    (let* pool := getattr_ref r "_dbpool" in
     DBPool.with_xget pool (fun conn =>
       let* rowv := select_hosts_osladdr hostname in
       match rowv with
       | [] => ret None
       | [osladdr] => ret (Some osladdr)
       | _ => raise (Error "registry broken: duplicate host entries" None)
       end)).

End SQLiteRegistry.

(** ** virtnet: constructors and accessors *)

(** A loopback socket of the operating system: whether it was closed, the
    address it is bound to, and the bytes it will still receive. *)
Definition netsk_new (sockname : Addr) (rx : stream) : M world loc :=
  new_obj "net.socket"
    [("closed", VBool false); ("sockname", VAddr sockname); ("rx", VStr rx)].

Definition netsk_close (sk : loc) : M world unit :=
  setattr sk "closed" (VBool true).

Definition VirtSubNetwork_init (n : loc) (network : string) (registry : loc)
  : M world unit :=
  setattr n "_network" (VStr network) ;;;
  setattr n "_registry" (VRef registry) ;;;
  setattr n "_hostmu" (VOpaque "Lock") ;;;
  (let* hostmap := new_obj "dict" [] in setattr n "_hostmap" (VRef hostmap)) ;;;
  setattr n "_nopenhosts" (VInt 0) ;;;
  setattr n "_autoclose" (VBool false) ;;;
  setattr n "_down" (VChan false) ;;;
  setattr n "_down_once" (VBool false).

(** [_SubNetwork(network, registry)]; the operating system binds the
    listener to the port [osport] of 127.0.0.1. *)
Definition _SubNetwork_new (osport : Z) (network : string) (registry : loc)
  : M world loc :=
  let* n := new_obj "_SubNetwork" [] in
  VirtSubNetwork_init n network registry ;;;
  let* oslistener := netsk_new (mkAddr EmptyString "127.0.0.1" osport) EmptyString in
  setattr n "_oslistener" (VRef oslistener) ;;;
  setattr n "_tserve" (VOpaque "Thread") ;;;
  ret n.

(** [Host(subnet, name)] *)
Definition Host_new (subnet : loc) (name : string) : M world loc :=
  new_obj "Host"
    [("_subnet", VRef subnet); ("_name", VStr name); ("_sockmu", VOpaque "Lock");
     ("_socketv", VList []); ("_down", VChan false); ("_down_once", VBool false);
     ("_close_once", VBool false)].

(** [socket(host, port)] *)
Definition socket_new (host : loc) (port : Z) : M world loc :=
  new_obj "socket"
    [("_host", VRef host); ("_port", VInt port); ("_conn", VNone); ("_listener", VNone)].

(** [conn(sk, peerAddr, netsk)].  (A [conn] hands the attributes it does
    not have to its [_netsk]; the code modelled here reads none of
    those.) *)
Definition conn_new (sk : loc) (peerAddr : Addr) (netsk : loc) : M world loc :=
  new_obj "conn"
    [("_socket", VRef sk); ("_peerAddr", VAddr peerAddr); ("_netsk", VRef netsk);
     ("_down", VChan false); ("_down_once", VBool false); ("_close_once", VBool false)].

(** [listener(sk)] *)
Definition listener_new (sk : loc) : M world loc :=
  new_obj "listener"
    [("_socket", VRef sk); ("_dialq", VOpaque "chan"); ("_down", VChan false);
     ("_down_once", VBool false); ("_close_once", VBool false)].

Definition VirtSubNetwork_network (n : loc) : M world string :=
  getattr_str n "_network".

Definition Host_network (h : loc) : M world string :=
  let* n := getattr_ref h "_subnet" in VirtSubNetwork_network n.

Definition Host_name (h : loc) : M world string := getattr_str h "_name".

Definition socket__empty (sk : loc) : M world bool :=
  let* c := getattr sk "_conn" in
  let* l := getattr sk "_listener" in
  ret (is_None c && is_None l).

Definition socket_addr (sk : loc) : M world Addr :=
  let* h := getattr_ref sk "_host" in
  let* network := Host_network h in
  let* name := Host_name h in
  let* port := getattr_int sk "_port" in
  ret (mkAddr network name port).

Definition listener_addr (l : loc) : M world Addr :=
  let* sk := getattr_ref l "_socket" in socket_addr sk.

Definition Host__parseAddr (h : loc) (addr : string) : M world Addr :=
  let* network := Host_network h in
  let* a := lift (Addr_parse network addr) in
  if String.eqb (host a) EmptyString then
    let* name := getattr_str h "_name" in
    ret (mkAddr (net a) name (port a))
  else ret a.

Definition Host__excDown {A} (h : loc) : M world A :=
  let* n := getattr_ref h "_subnet" in
  let* d := ready n "_down" in
  if d then raise ErrNetDown else raise ErrHostDown.

Definition listener__excDown {A} (l : loc) : M world A :=
  let* sk := getattr_ref l "_socket" in
  let* h := getattr_ref sk "_host" in
  let* n := getattr_ref h "_subnet" in
  let* nd := ready n "_down" in
  if nd then raise ErrNetDown
  else
    let* hd := ready h "_down" in
    if hd then raise ErrHostDown else raise ErrSockDown.

(** ** virtnet: the port table *)

(** First loop of [_allocFreeSocket]: from [port] on, the first slot
    within the table that is [None], or the length of the table. *)
Fixpoint scan_free (fuel : nat) (h : loc) (port : Z) : M world Z :=
  let* socketv := getattr_list h "_socketv" in
  if (port <? len socketv)%Z then
    match fuel with
    | O => stuck "_allocFreeSocket"
    | S fuel' =>
        let* v := getitem socketv port in
        if is_None v then ret port
        else scan_free fuel' h (port + 1)
    end
  else ret port.

(** [while port >= len(h._socketv): h._socketv.append(None)] *)
Fixpoint grow (fuel : nat) (h : loc) (port : Z) : M world unit :=
  let* socketv := getattr_list h "_socketv" in
  if (port >=? len socketv)%Z then
    match fuel with
    | O => stuck "_socketv.append"
    | S fuel' => list_append h "_socketv" VNone ;;; grow fuel' h port
    end
  else ret tt.

(** The loop above, with the number of its iterations taken from its
    variant [port + 1 - len(h._socketv)]. *)
Definition grow_to (h : loc) (port : Z) : M world unit :=
  let* socketv := getattr_list h "_socketv" in
  grow (Z.to_nat (port + 1 - len socketv)) h port.

Definition Host__allocFreeSocket (h : loc) : M world loc :=
  let* socketv := getattr_list h "_socketv" in
  let* port := scan_free (length socketv) h 1 in
  grow_to h port ;;;
  let* sk := socket_new h port in
  setitem h "_socketv" port (VRef sk) ;;;
  ret sk.

(** ** virtnet: shutdown and close *)

Definition conn__shutdown (c : loc) : M world unit :=
  let* first := set_once c "_down_once" in
  if negb first then ret tt
  else
    chan_close c "_down" ;;;
    let* netsk := getattr_ref c "_netsk" in
    netsk_close netsk.

Definition conn_close (c : loc) : M world unit :=
  conn__shutdown c ;;;
  let* first := set_once c "_close_once" in
  if first then
    let* sk := getattr_ref c "_socket" in
    let* h := getattr_ref sk "_host" in
    setattr sk "_conn" VNone ;;;
    let* empty := socket__empty sk in
    if empty then
      let* port := getattr_int sk "_port" in
      setitem h "_socketv" port VNone
    else ret tt
  else ret tt.

Definition listener__shutdown (l : loc) : M world unit :=
  let* first := set_once l "_down_once" in
  if first then chan_close l "_down" else ret tt.

Definition listener_close (l : loc) : M world unit :=
  listener__shutdown l ;;;
  let* first := set_once l "_close_once" in
  if negb first then ret tt
  else
    let* sk := getattr_ref l "_socket" in
    let* h := getattr_ref sk "_host" in
    setattr sk "_listener" VNone ;;;
    let* empty := socket__empty sk in
    if empty then
      let* port := getattr_int sk "port" in
      setitem h "_socketv" port VNone
    else ret tt.

Definition Host__shutdown (h : loc) : M world unit :=
  let* first := set_once h "_down_once" in
  if negb first then ret tt
  else
    chan_close h "_down" ;;;
    let* socketv := getattr_list h "_socketv" in
    for_each socketv (fun sk =>
      if is_None sk then ret tt
      else
        let* sk := as_ref sk in
        let* c := getattr sk "_conn" in
        (if negb (is_None c) then let* c := as_ref c in conn__shutdown c else ret tt) ;;;
        let* l := getattr sk "_listener" in
        if negb (is_None l) then let* l := as_ref l in listener__shutdown l else ret tt).

(** [_SubNetwork._vnet_close]: closes the listener of the operating system
    and joins the serve thread. *)
Definition _SubNetwork__vnet_close (n : loc) : M world unit :=
  let* oslistener := getattr_ref n "_oslistener" in
  netsk_close oslistener ;;;
  let* _ := getattr n "_tserve" in
  ret tt.

(** The values of a [dict]. *)
Definition dict_values (d : loc) : M world (list pyval) :=
  fun w =>
    match heap w !! d with
    | Some ob => (Ok (snd <$> map_to_list (attrs ob)), w)
    | None => (Stuck "no such object", w)
    end.

Definition log_error (e : exc) : M world unit :=
  fun w => (Ok tt, mkWorld (heap w) (file w) (errlog w ++ [e])).

Definition VirtSubNetwork___shutdown (n : loc) (exc : option exc) (withHosts : bool)
  : M world unit :=
  let* first := set_once n "_down_once" in
  if negb first then ret tt
  else
    chan_close n "_down" ;;;
    (if withHosts then
       let* hostmap := getattr_ref n "_hostmap" in
       let* hostv := dict_values hostmap in
       for_each hostv (fun host => let* host := as_ref host in Host__shutdown host)
     else ret tt) ;;;
    (match exc with Some e => log_error e | None => ret tt end) ;;;
    _SubNetwork__vnet_close n ;;;
    let* registry := getattr_ref n "_registry" in
    SQLiteRegistry.close registry.

Definition VirtSubNetwork__shutdown (n : loc) (exc : option exc) : M world unit :=
  VirtSubNetwork___shutdown n exc true.

Definition VirtSubNetwork___close (n : loc) (withHosts : bool) : M world unit :=
  let* network := getattr_str n "_network" in
  errctx ("virtnet " +:+ qq network +:+ ": close")
    (VirtSubNetwork___shutdown n None withHosts).

Definition VirtSubNetwork_close (n : loc) : M world unit :=
  VirtSubNetwork___close n true.

Definition VirtSubNetwork__closeWithoutHosts (n : loc) : M world unit :=
  VirtSubNetwork___close n false.

Definition VirtSubNetwork__vnet_down (n : loc) (exc : exc) : M world unit :=
  let* network := getattr_str n "_network" in
  errctx ("virtnet " +:+ qq network +:+ ": shutdown")
    (VirtSubNetwork__shutdown n (Some exc)).

(** [_SubNetwork._vnet_newhost] *)
Definition _SubNetwork__vnet_newhost (n : loc) (hostname : string) (registry : loc)
  : M world unit :=
  let* oslistener := getattr_ref n "_oslistener" in
  let* v := getattr oslistener "sockname" in
  match v with
  | VAddr a => SQLiteRegistry.announce registry hostname (addrstr4 (host a) (port a))
  | _ => raise (TypeError "sockname")
  end.

(** [item in d], [d.get(item)] and [d[item] = v] on a [dict]. *)
Definition dict_contains (d : loc) (item : string) : M world bool :=
  fun w =>
    match heap w !! d with
    | Some ob => (Ok (bool_decide (is_Some (attrs ob !! item))), w)
    | None => (Stuck "no such object", w)
    end.

Definition dict_get (d : loc) (item : string) : M world pyval :=
  fun w =>
    match heap w !! d with
    | Some ob => (Ok (default VNone (attrs ob !! item)), w)
    | None => (Stuck "no such object", w)
    end.

Definition dict_setitem (d : loc) (item : string) (v : pyval) : M world unit :=
  setattr d item v.

Definition VirtSubNetwork_new_host (n : loc) (name : string) : M world loc :=
  let* network := getattr_str n "_network" in
  errctx ("virtnet " +:+ qq network +:+ ": new host " +:+ qq name)
    (let* registry := getattr_ref n "_registry" in
     _SubNetwork__vnet_newhost n name registry ;;;
     let* hostmap := getattr_ref n "_hostmap" in
     let* known := dict_contains hostmap name in
     if known then
       (* the message has no conversion for the two arguments of [%] *)
       raise (TypeError "not all arguments converted during string formatting")
     else
       let* host := Host_new n name in
       dict_setitem hostmap name (VRef host) ;;;
       let* nopenhosts := getattr_int n "_nopenhosts" in
       setattr n "_nopenhosts" (VInt (nopenhosts + 1)) ;;;
       ret host).

Definition VirtSubNetwork_host (n : loc) (name : string) : M world pyval :=
  let* hostmap := getattr_ref n "_hostmap" in
  dict_get hostmap name.

Definition Host_close (h : loc) : M world unit :=
  let autoclose : M world unit :=
    once_do h "_close_once"
      (let* n := getattr_ref h "_subnet" in
       let* nopenHosts := getattr_int n "_nopenHosts" in
       setattr n "_nopenHosts" (VInt (nopenHosts - 1)) ;;;
       let* nopenHosts := getattr_int n "_nopenHosts" in
       (if (nopenHosts <? 0)%Z then panic "SubNetwork._nopenHosts < 0" else ret tt) ;;;
       let* autoclose := getattr_bool n "_autoclose" in
       if autoclose then
         let* nopenHosts := getattr_int n "_nopenHosts" in
         if (nopenHosts =? 0)%Z then VirtSubNetwork__closeWithoutHosts n else ret tt
       else ret tt) in
  defer autoclose
    (let* network := Host_network h in
     let* name := getattr_str h "_name" in
     errctx ("virtnet " +:+ qq network +:+ ": host " +:+ qq name +:+ ": close")
       (Host__shutdown h)).

Definition VirtSubNetwork_autoclose (n : loc) : M world unit :=
  let* nopenHosts := getattr_int n "_nopenHosts" in
  (if (nopenHosts =? 0)%Z then panic "BUG: no opened hosts" else ret tt) ;;;
  setattr n "_autoclose" (VBool true).

(** ** virtnet: listen, accept and dial *)

Definition Host_listen (h : loc) (laddr : string) : M world loc :=
  let laddr := if String.eqb laddr EmptyString then ":0" else laddr in
  let* network := Host_network h in
  errctx ("listen " +:+ network +:+ " " +:+ laddr)
    (let* a := Host__parseAddr h laddr in
     let* name := getattr_str h "_name" in
     if negb (String.eqb (host a) name) then raise ErrAddrNoListen
     else
       let* down := ready h "_down" in
       (if down then Host__excDown h else ret tt) ;;;
       let* sk :=
         if (port a =? 0)%Z then Host__allocFreeSocket h
         else
           grow_to h (port a) ;;;
           let* socketv := getattr_list h "_socketv" in
           let* v := getitem socketv (port a) in
           if negb (is_None v) then raise ErrAddrAlreadyUsed
           else
             let* sk := socket_new h (port a) in
             setitem h "_socketv" (port a) (VRef sk) ;;;
             ret sk in
       let* l := listener_new sk in
       setattr sk "_listener" (VRef l) ;;;
       ret l).

(** What the dialer sends on [ack]: [None], or an error. *)
Inductive ack_value : Type :=
  | AckNone
  | AckErr (e : exc).

(** Which case the second [select] of [accept] takes, and what [ack]
    carries then or later. *)
Inductive ack_event : Type :=
  | AckDown (later : ack_value)
  | AckRecv (v : ack_value).

(** Which case the first [select] of [accept] takes: [l._down], or a dial
    request from [from_] over the loopback socket [netsk]. *)
Inductive accept_event : Type :=
  | AcceptDown
  | AcceptDial (from_ : Addr) (netsk : loc) (ack : ack_event).

(** The loop of [accept], run against the events that the other threads
    offer to its [select]s, in order.  A [down] case can only be taken
    when the channel is closed; with nothing on offer [accept] waits.
    [purgesk], which the source starts with [go], is run in place. *)
Fixpoint listener_accept_loop (evs : list accept_event) (l h : loc) : M world loc :=
  match evs with
  | [] => stuck "accept: select"
  | AcceptDown :: _ =>
      let* down := ready l "_down" in
      if down then listener__excDown l else stuck "accept: select"
  | AcceptDial from_ netsk ack :: evs' =>
      let* sk := Host__allocFreeSocket h in
      let* _ := socket_addr sk in
      match ack with
      | AckDown later =>
          let* down := ready l "_down" in
          if down then
            (match later with
             | AckNone => netsk_close netsk
             | AckErr _ => ret tt
             end) ;;;
            (let* port := getattr_int sk "_port" in
             setitem h "_socketv" port VNone) ;;;
            listener__excDown l
          else stuck "accept: select"
      | AckRecv (AckErr _) =>
          (let* port := getattr_int sk "_port" in
           setitem h "_socketv" port VNone) ;;;
          listener_accept_loop evs' l h
      | AckRecv AckNone =>
          let* c := conn_new sk from_ netsk in
          setattr sk "conn" (VRef c) ;;;
          ret c
      end
  end.

Definition listener_accept (evs : list accept_event) (l : loc) : M world loc :=
  let* sk := getattr_ref l "_socket" in
  let* h := getattr_ref sk "_host" in
  let* network := Host_network h in
  let* addr := listener_addr l in
  errctx ("accept " +:+ network +:+ " " +:+ Addr_str addr)
    (listener_accept_loop evs l h).

(** [_SubNetwork.__loconnect] on the bytes that [osconn] receives; the
    request line goes out to the peer. *)
Definition _SubNetwork___loconnect (network : string) (src dst : Addr)
  : M stream Addr :=
  let* line := skreadline 1024 in
  match re.match_ _loreply_re line with
  | None => raise (protocolError ("invalid dial reply: " +:+ qq line))
  | Some m =>
      let* network' := lift (string_escape_decode (re.group m "network")) in
      let reply := re.group m "reply" in
      let* arg := lift (string_escape_decode (re.group m "arg")) in
      if String.eqb reply "E" then
        if String.eqb arg "connection refused" then raise ErrConnRefused
        else raise (Error arg None)
      else if negb (String.eqb reply "connected") then
        raise (protocolError ("invalid reply verb: " +:+ qq reply))
      else if negb (String.eqb network' network) then
        raise (protocolError ("connected, but network mismatch: " +:+ qq network'))
      else
        let* acceptAddr :=
          try_except (lift (Addr_parse network' arg))
            (fun _ => raise (UnboundLocalError "acceptAddr")) in
        if negb (String.eqb (host acceptAddr) (host dst)) then
          raise (protocolError
                   ("connected, but accept address is for different host: "
                    +:+ qq (host acceptAddr)))
        else ret acceptAddr
  end.

(** [_SubNetwork._vnet_dial] with [_loconnect]; [rx] is what the peer
    sends back over the new loopback connection. *)
Definition _SubNetwork__vnet_dial (rx : stream) (n : loc) (src dst : Addr)
  (dstosladdr : string) : M world (loc * Addr) :=
  let* a :=
    try_except (lift (Addr_parse EmptyString dstosladdr))
      (fun _ => raise (ValueError (dstosladdr +:+ " is not valid TCP address"))) in
  let* network := getattr_str n "_network" in
  let* osconn := netsk_new (mkAddr EmptyString "127.0.0.1" 0) rx in
  match _SubNetwork___loconnect network src dst rx with
  | (Ok addrAccept, rest) =>
      setattr osconn "rx" (VStr rest) ;;; ret (osconn, addrAccept)
  | (Raise err, rest) =>
      setattr osconn "rx" (VStr rest) ;;;
      netsk_close osconn ;;;
      match err with
      | ErrConnRefused => raise err
      | _ => raise (Error ("loconnect " +:+ addrstr4 (host a) (port a)) (Some err))
      end
  | (Stuck y, _) => stuck y
  end.

(** The [except] clause of [dial]: the reserved slot is released and the
    error wrapped; [dst] is the destination as far as it was parsed. *)
Definition Host_dial_failed {A} (h sk : loc) (dst : string) (err : exc) : M world A :=
  (let* port := getattr_int sk "_port" in
   setitem h "_socketv" port VNone) ;;;
  let* network := Host_network h in
  let* src := socket_addr sk in
  raise (Error ("dial " +:+ network +:+ " " +:+ Addr_str src +:+ "->" +:+ dst)
           (Some err)).

Definition Host_dial (rx : stream) (h : loc) (addr : string) : M world loc :=
  let* sk := Host__allocFreeSocket h in
  let* dst := try_except (Host__parseAddr h addr) (Host_dial_failed h sk addr) in
  try_except
    (let* n := getattr_ref h "_subnet" in
     let* registry := getattr_ref n "_registry" in
     let* dstdata := SQLiteRegistry.query registry (host dst) in
     match dstdata with
     | None => raise ErrNoHost
     | Some dstdata =>
         let* src := socket_addr sk in
         let* r := _SubNetwork__vnet_dial rx n src dst dstdata in
         let* c := conn_new sk (snd r) (fst r) in
         setattr sk "_conn" (VRef c) ;;;
         ret c
     end)
    (Host_dial_failed h sk (Addr_str dst)).

(** [lonet.join(network)]; [mkdtemp] is the name that [tempfile.mkdtemp]
    picks when [network] is empty.  Of the file system only the registry
    file of the network is modelled. *)
Module lonet.

Definition join (osport : Z) (tmpdir mkdtemp network : string) : M world loc :=
  errctx ("lonet: join " +:+ qq network)
    (let lonet := tmpdir +:+ "/lonet" in
     let netdir :=
       if negb (String.eqb network EmptyString) then lonet +:+ "/" +:+ network
       else lonet +:+ "/" +:+ mkdtemp in
     let network := if negb (String.eqb network EmptyString) then network else mkdtemp in
     let* registry := SQLiteRegistry.new (netdir +:+ "/registry.db") network in
     _SubNetwork_new osport ("lonet" +:+ network) registry).

End lonet.

(** ** Observations on the store *)

(** The attribute [name] in the [__dict__] of [o], if both exist. *)
Definition attr_of (w : world) (o : loc) (name : string) : option pyval :=
  match heap w !! o with
  | Some ob => attrs ob !! name
  | None => None
  end.

Definition cls_of (w : world) (o : loc) : option string :=
  cls <$> heap w !! o.

(** The world in which [o.name] is [v] and all else is as in [w]. *)
Definition with_attr (o : loc) (name : string) (v : pyval) (w : world) : world :=
  match heap w !! o with
  | Some ob => set_heap (<[o := mkObj (cls ob) (<[name := v]> (attrs ob))]> (heap w)) w
  | None => w
  end.

(** The world in which a new object is added to [w]. *)
Definition with_obj (c : string) (items : list (string * pyval)) (w : world) : world :=
  set_heap (heap w ++ [mkObj c (list_to_map items)]) w.

(** ** An open registry *)

(** The pool [pool] has its factory and a list of free connections. *)
Definition pool_open (w : world) (pool : loc) : Prop :=
  exists (factory : pyval) (connv : list pyval),
    attr_of w pool "_factory" = Some factory /\ is_None factory = false
    /\ attr_of w pool "_connv" = Some (VList connv).

(** [r] is a registry on the file [uri] whose pool is open. *)
Definition registry_open (w : world) (r : loc) (uri : string) : Prop :=
  exists pool : loc,
    attr_of w r "uri" = Some (VStr uri)
    /\ attr_of w r "_dbpool" = Some (VRef pool)
    /\ pool_open w pool.

(** [w'] differs from [w] in the free connections of pools at most. *)
Definition pool_step (w w' : world) : Prop :=
  file w' = file w
  /\ (forall o name, name <> "_connv" -> attr_of w' o name = attr_of w o name)
  /\ (forall o l, attr_of w o "_connv" = Some (VList l) ->
        exists l', attr_of w' o "_connv" = Some (VList l')).

(** ** The invariant of the port table *)

(** The socket [sk] in slot [p]: its port is [p] and it carries a
    connection or a listener. *)
Definition socket_ok (w : world) (p : nat) (sk : loc) : bool :=
  match attr_of w sk "_port", attr_of w sk "_conn", attr_of w sk "_listener" with
  | Some (VInt port), Some c, Some l =>
      (port =? Z.of_nat p)%Z && (negb (is_None c) || negb (is_None l))
  | _, _, _ => false
  end.

(** Slot [p] holding [v]: vacant, or at a positive index and holding a
    socket that is in order. *)
Definition slot_ok (w : world) (p : nat) (v : pyval) : bool :=
  match v with
  | VNone => true
  | VRef sk => (0 <? p)%nat && socket_ok w p sk
  | _ => false
  end.

Definition table_ok (w : world) (h : loc) : bool :=
  match attr_of w h "_socketv" with
  | Some (VList socketv) =>
      forallb (fun pv => slot_ok w (fst pv) (snd pv)) (imap pair socketv)
  | _ => false
  end.

(** Slot [p] of a table is vacant when it holds [None] or lies beyond the
    end of the table, and occupied otherwise. *)
Definition vacant (socketv : list pyval) (p : nat) : Prop :=
  socketv !! p = None \/ socketv !! p = Some VNone.

Definition occupied (socketv : list pyval) (p : nat) : Prop :=
  exists v, socketv !! p = Some v /\ v <> VNone.

(** ** Worlds to run the code in *)

(** Nothing in the store, and an empty registry file. *)
Definition empty_world : world := mkWorld [] (mkDB ∅ ∅) [].

(** A registry file left by a writer of another schema version. *)
Definition old_schema_world : world :=
  mkWorld [] (mkDB ∅ (<["schemaver" := "lonet.0"]> ∅)) [].

(** The subnetwork of the network ["lonetX"] with one host ["a"]; the
    subnetwork is object 2 and the host object 5. *)
Definition one_host : M world (loc * loc) :=
  let* n := lonet.join 4000 "/tmp" "X" EmptyString in
  let* ha := VirtSubNetwork_new_host n "a" in
  ret (n, ha).

Definition one_host_world : world := snd (one_host empty_world).

(** The same with a listener on [a:1].  The socket is object 6 and the
    listener object 7. *)
Definition listening_world : world := snd (Host_listen 5%nat EmptyString one_host_world).

(** The same after a dial that was refused: slot 2 was reserved and
    released, so the highest slot of the table is free. *)
Definition refused_world : world :=
  snd (Host_dial (E_reply "lonetX" "connection refused") 5%nat ":0" listening_world).

(** A registry opened on an empty file: the registry is object 0 and its
    pool object 1. *)
Definition registry_world : world :=
  snd (SQLiteRegistry.new "/tmp/lonet/X/registry.db" "X" empty_world).

(** A dial from [b:1] reaches the listener of [listening_world], and the
    dialer acknowledges with [None]. *)
Definition accept_one : M world loc :=
  let* netsk := netsk_new (mkAddr EmptyString "127.0.0.1" 4000) EmptyString in
  listener_accept [AcceptDial (mkAddr "lonetX" "b" 1) netsk (AckRecv AckNone)] 7%nat.

(** A network name that ends in a backslash, as [lonet.join] makes it
    from the directory name [x\]. *)
Definition bsnet : string := "lonetx" +:+ String bs EmptyString.

(** What [lonet_test.py] does in [__test_virtnet_basic], with the two
    threads run in turn, and what it looks at: the two refused dials, the
    addresses of the two listeners, and the local and remote addresses of
    the four connections. *)
Definition refused : stream := E_reply "lonetX" "connection refused".

Definition addrs_of (c : loc) : M world (Addr * Addr) :=
  let* sk := getattr_ref c "_socket" in
  let* local := socket_addr sk in
  let* peer := getattr c "_peerAddr" in
  match peer with
  | VAddr remote => ret (local, remote)
  | _ => raise (TypeError "Addr expected")
  end.

Definition test_virtnet_basic : M world (list (option exc) * list Addr * list (Addr * Addr)) :=
  let* subnet := lonet.join 4000 "/tmp" "X" EmptyString in
  let* ha := VirtSubNetwork_new_host subnet "a" in
  let* hb := VirtSubNetwork_new_host subnet "b" in
  let* e1 := try_except (Host_dial refused ha ":0" ;;; ret None) (fun e => ret (Some e)) in
  let* l1 := Host_listen ha EmptyString in
  let* a1 := listener_addr l1 in
  let* e2 := try_except (Host_dial refused ha ":0" ;;; ret None) (fun e => ret (Some e)) in
  let* c1c := Host_dial (connected_reply "lonetX" "a:2") hb "a:1" in
  let* netsk1 := getattr_ref c1c "_netsk" in
  let* c1s := listener_accept [AcceptDial (mkAddr "lonetX" "b" 1) netsk1 (AckRecv AckNone)] l1 in
  let* c2c := Host_dial (connected_reply "lonetX" "a:3") hb "a:1" in
  let* netsk2 := getattr_ref c2c "_netsk" in
  let* c2s := listener_accept [AcceptDial (mkAddr "lonetX" "b" 2) netsk2 (AckRecv AckNone)] l1 in
  let* l2 := Host_listen ha ":0" in
  let* a2 := listener_addr l2 in
  let* x1c := addrs_of c1c in
  let* x1s := addrs_of c1s in
  let* x2c := addrs_of c2c in
  let* x2s := addrs_of c2s in
  VirtSubNetwork_close subnet ;;;
  ret ([e1; e2], [a1; a2], [x1c; x1s; x2c; x2s]).

(** ** Statements about the handshake *)

Fixpoint last_char (s : string) : option ascii :=
  match s with
  | EmptyString => None
  | String c EmptyString => Some c
  | String _ s' => last_char s'
  end.

Definition first_char (s : string) : option ascii :=
  match s with String c _ => Some c | EmptyString => None end.

(** A text that is not empty and does not end in a backslash. *)
Definition plain (s : string) : Prop := s <> EmptyString /\ last_char s <> Some bs.

(** A quoted text that the pattern of a quoted group reads to its end:
    it holds no newline, a double quote in it only follows a backslash,
    and its last byte is not a backslash. *)
Fixpoint closes_at_end (q : string) : bool :=
  match q with
  | EmptyString => false
  | String c t =>
      negb (Ascii.eqb c nl) &&
      match t with
      | EmptyString => negb (Ascii.eqb c bs)
      | String c' _ => (negb (Ascii.eqb c' dq) || Ascii.eqb c bs) && closes_at_end t
      end
  end.

(** ** Statements about addresses *)

(** Formatting [a] and parsing the text back on the network of [a] gives
    an address equal to [a]. *)
Definition roundtrips (a : Addr) : Prop :=
  exists b, Addr_parse (net a) (Addr_str a) = Ok b /\ Addr_eq a b = true.

(** [text] is one part without a colon, one colon, and an integer as
    [int] reads it. *)
Definition addr_form (text : string) : Prop :=
  exists (h p : string) (z : Z),
    text = h +:+ String ":" p /\ has_char ":" h = false
    /\ has_char ":" p = false /\ py_int p = Some z.

(** ** lonet: the accepting side of the handshake *)

(** A loopback connection as one end sees it: the bytes still to be
    received, the bytes sent so far, the error that a send raises when
    the connection is broken, whether this end closed it, and what was
    sent on the [ack] channel of the request it carries. *)
Record wire : Type :=
  mkWire { wire_rx : stream; wire_tx : string; wire_tx_error : option exc;
           wire_closed : bool; wire_acked : option ack_value }.

(** [skreadline(osconn, maxlen)] *)
Definition wire_readline (maxlen : Z) : M wire string :=
  fun c =>
    let r := skreadline maxlen (wire_rx c) in
    (fst r, mkWire (snd r) (wire_tx c) (wire_tx_error c) (wire_closed c) (wire_acked c)).

(** [osconn.sendall(data)] *)
Definition sendall (data : string) : M wire unit :=
  fun c =>
    match wire_tx_error c with
    | Some e => (Raise e, c)
    | None =>
        (Ok tt, mkWire (wire_rx c) (wire_tx c +:+ data) None (wire_closed c) (wire_acked c))
    end.

(** [osconn.close()] *)
Definition wire_close : M wire unit :=
  fun c => (Ok tt, mkWire (wire_rx c) (wire_tx c) (wire_tx_error c) true (wire_acked c)).

(** [accept.ack.send(v)] *)
Definition ack_send (v : ack_value) : M wire unit :=
  fun c => (Ok tt, mkWire (wire_rx c) (wire_tx c) (wire_tx_error c) (wire_closed c) (Some v)).

(** [str(e)], where its text is modelled: [Error.__str__] adds a traceback
    to the text of a chain whose cause is not well defined, and that text
    is left out. *)
Definition str_of (e : exc) : option string :=
  match e with
  | Error _ (Some _) =>
      if xerr.well_defined (xerr.cause e) then xerr.Error_str e else None
  | _ => xerr.Error_str e
  end.

Definition exc_str {S} (e : exc) : M S string :=
  match str_of e with
  | Some s => ret s
  | None => stuck "str of an exception"
  end.

(** [reply] of [__loaccept] *)
Definition loaccept_reply (network reply : string) : M wire unit :=
  sendall (reply_line network reply).

(** What [ereply] quotes: [str(err)], but for [ErrConnRefused], whose text
    would be ["[Errno 111] connection refused"]. *)
Definition ereply_text (err : exc) : option string :=
  match err with
  | ErrConnRefused => Some "connection refused"
  | _ => str_of err
  end.

(** [ereply] of [__loaccept] *)
Definition loaccept_ereply {A} (network : string) (err : exc) : M wire A :=
  let* e :=
    match ereply_text err with
    | Some s => ret s
    | None => stuck "str of an exception"
    end in
  loaccept_reply network ("E " +:+ qq e) ;;;
  raise (if negb (xerr.well_defined err) then Error "BUG" (Some err) else err).

(** [eproto] of [__loaccept] *)
Definition loaccept_eproto {A} (network ereason detail : string) : M wire A :=
  (let* e := exc_str (protocolError ereason) in
   loaccept_reply network ("E " +:+ qq e)) ;;;
  raise (protocolError (ereason +:+ ": " +:+ detail)).

(** [_SubNetwork.__loaccept] on the subnetwork named [network].  What
    [_vnet_accept] returns for a source and a destination, the address of
    its [Accept] or an exception, comes from the listener's thread and is
    an argument. *)
Definition _SubNetwork___loaccept (network : string)
  (vnet_accept : Addr -> Addr -> outcome Addr) : M wire unit :=
  let* line := wire_readline 1024 in
  match re.match_ _lodial_re line with
  | None => loaccept_eproto network "invalid dial request" (qq line)
  | Some m =>
      let* network' := lift (string_escape_decode (re.group m "network")) in
      let* src := lift (string_escape_decode (re.group m "src")) in
      let* dst := lift (string_escape_decode (re.group m "dst")) in
      if negb (String.eqb network' network) then
        loaccept_eproto network "network mismatch" (qq network')
      else
        let* asrc :=
          try_except (lift (Addr_parse network' src))
            (fun _ => loaccept_eproto network "src address invalid" (qq src)) in
        let* adst :=
          try_except (lift (Addr_parse network' dst))
            (fun _ => loaccept_eproto network "dst address invalid" (qq dst)) in
        errctx (dst +:+ " <- " +:+ src)
          (let* accept :=
             try_except (lift (vnet_accept asrc adst)) (loaccept_ereply network) in
           try_except (loaccept_reply network ("connected " +:+ qq (Addr_str accept)))
             (fun e => ack_send (AckErr e) ;;; raise e) ;;;
           ack_send AckNone)
  end.

(** [_SubNetwork._loaccept]: the connection is closed when the handshake
    raised. *)
Definition _SubNetwork__loaccept (network : string)
  (vnet_accept : Addr -> Addr -> outcome Addr) : M wire unit :=
  errctx "loaccept"
    (try_except (_SubNetwork___loaccept network vnet_accept)
       (fun e => wire_close ;;; raise e)).

(** A connection that just opened, with [rx] on its way in. *)
Definition fresh_wire (rx : stream) : wire := mkWire rx EmptyString None false None.

(** A virtual network that accepts every request on port [p] of the host
    that was dialed, and one that refuses every request with [err]. *)
Definition accept_on (p : Z) : Addr -> Addr -> outcome Addr :=
  fun _ dst => Ok (mkAddr (net dst) (host dst) p).

Definition refuse_with (err : exc) : Addr -> Addr -> outcome Addr :=
  fun _ _ => Raise err.

(** ** Registry: what opening does to the file *)

(** What [_config] gives for [name]: the value stored, or the empty text. *)
Definition stored (d : database) (name : string) : string :=
  default EmptyString (meta d !! name).

(** The file after [_setup] looked [name] up and, finding nothing, stored
    [value]. *)
Definition stamped (name value : string) (d : database) : database :=
  if String.eqb (stored d name) EmptyString
  then mkDB (hosts d) (<[name := value]> (meta d))
  else d.

(** Every attribute of an object of [w] is the same in [w']. *)
Definition old_attrs_kept (w w' : world) : Prop :=
  forall (o : loc) (name : string),
    (o < length (heap w))%nat -> attr_of w' o name = attr_of w o name.

(** ** virtnet: closed forms of the store *)

(** The table [socketv] with [None] added up to slot [p]. *)
Definition grown (socketv : list pyval) (p : nat) : list pyval :=
  (socketv ++ replicate (p + 1 - length socketv) VNone)%list.

(** The world in which the table of [h], which was [socketv], holds in
    slot [p] a new socket made for [port]. *)
Definition with_socket (h : loc) (socketv : list pyval) (p : nat) (port : Z)
  (w : world) : world :=
  with_attr h "_socketv" (VList (<[p := VRef (length (heap w))]> (grown socketv p)))
    (with_obj "socket"
       [("_host", VRef h); ("_port", VInt port); ("_conn", VNone); ("_listener", VNone)]
       (with_attr h "_socketv" (VList (grown socketv p)) w)).

(** Every attribute of an object of [w], but [o0.name0], is the same in
    [w']. *)
Definition kept_but (o0 : loc) (name0 : string) (w w' : world) : Prop :=
  forall (o : loc) (name : string),
    (o < length (heap w))%nat -> o <> o0 \/ name <> name0 ->
    attr_of w' o name = attr_of w o name.

(** [h] is the host [name] of the subnetwork [n] of the network
    [network]. *)
Definition host_of (w : world) (h n : loc) (network name : string) : Prop :=
  attr_of w h "_subnet" = Some (VRef n)
  /\ attr_of w n "_network" = Some (VStr network)
  /\ attr_of w h "_name" = Some (VStr name).

(** * Properties *)

(** ** Byte strings *)

Lemma str_app_cons (c : ascii) (s t : string) :
  String c s +:+ t = String c (s +:+ t).
Proof. reflexivity. Qed.

Lemma str_app_nil_l (s : string) : EmptyString +:+ s = s.
Proof. reflexivity. Qed.

Lemma str_app_nil_r (s : string) : s +:+ EmptyString = s.
Proof. induction s as [|c s IH]; [reflexivity | now rewrite str_app_cons, IH]. Qed.

Lemma str_app_assoc (a b c : string) : (a +:+ b) +:+ c = a +:+ (b +:+ c).
Proof.
  induction a as [|x a IH]; [reflexivity | now rewrite !str_app_cons, IH].
Qed.

Lemma str_length_app (a b : string) :
  String.length (a +:+ b) = (String.length a + String.length b)%nat.
Proof.
  induction a as [|x a IH]; [reflexivity | rewrite str_app_cons; simpl; now rewrite IH].
Qed.

Section Split.

Variable sep : ascii.

Lemma split_nonempty (s : string) : str_split sep s <> [].
Proof.
  induction s as [|c s IH]; simpl; [discriminate|].
  destruct (Ascii.eqb c sep); [discriminate|].
  destruct (str_split sep s); [contradiction | discriminate].
Qed.

Lemma split_no_sep (s : string) :
  has_char sep s = false -> str_split sep s = [s].
Proof.
  induction s as [|c s IH]; simpl; [reflexivity|].
  intros [Hc Hs]%orb_false_iff. now rewrite Hc, IH.
Qed.

Lemma split_app (a b : string) :
  has_char sep a = false ->
  str_split sep (a +:+ String sep b) = a :: str_split sep b.
Proof.
  induction a as [|c a IH]; intros H.
  - simpl. now rewrite Ascii.eqb_refl.
  - simpl in H. apply orb_false_iff in H as [Hc Ha].
    rewrite str_app_cons. simpl. now rewrite Hc, IH.
Qed.

Lemma split_one (s : string) : forall b,
  str_split sep s = [b] -> s = b /\ has_char sep b = false.
Proof.
  induction s as [|c s IH]; intros b; simpl.
  - now intros [= <-].
  - destruct (Ascii.eqb c sep) eqn:Hc.
    + intros [= _ H]. now apply split_nonempty in H.
    + destruct (str_split sep s) as [|p ps] eqn:E; [now apply split_nonempty in E|].
      intros [= <- ->]. destruct (IH p eq_refl) as [-> Hp]. simpl. now rewrite Hc, Hp.
Qed.

Lemma split_two (s : string) : forall a b,
  str_split sep s = [a; b] ->
  s = a +:+ String sep b /\ has_char sep a = false /\ has_char sep b = false.
Proof.
  induction s as [|c s IH]; intros a b; simpl; [discriminate|].
  destruct (Ascii.eqb_spec c sep) as [->|Hc].
  - intros [= <- H]. apply split_one in H as [-> Hb]. auto.
  - destruct (str_split sep s) as [|p ps] eqn:E; [now apply split_nonempty in E|].
    intros [= <- ->]. destruct (IH p b eq_refl) as (-> & Hp & Hb).
    rewrite str_app_cons. simpl. rewrite Hp, Hb.
    apply Ascii.eqb_neq in Hc. now rewrite Hc.
Qed.

End Split.

(** ** Decimal numbers: [int] reads what [%d] writes *)

Section Decimal.

Ltac eval_digit :=
  match goal with
  | |- context [digit_of ?c] =>
      let v := eval vm_compute in (digit_of c) in
      change (digit_of c) with v; cbv iota beta
  end.

Lemma digits_uint_acc (u : Decimal.uint) : forall p,
  digits (N.pos p) true (NilEmpty.string_of_uint u)
  = Some (N.pos (Pos.of_uint_acc u p)).
Proof.
  induction u; intros p; cbn [NilEmpty.string_of_uint digits Pos.of_uint_acc];
    try reflexivity; eval_digit;
    match goal with
    | |- digits ?n _ _ = Some (N.pos (Pos.of_uint_acc _ ?k)) =>
        replace n with (N.pos k) by lia
    end; apply IHu.
Qed.

Lemma digits_uint (u : Decimal.uint) :
  digits 0 true (NilEmpty.string_of_uint u) = Some (Pos.of_uint u).
Proof.
  induction u; cbn [NilEmpty.string_of_uint digits Pos.of_uint];
    try reflexivity; eval_digit; try exact IHu;
    match goal with |- digits ?n _ _ = Some (N.pos (Pos.of_uint_acc _ ?k)) =>
      change n with (N.pos k) end; apply digits_uint_acc.
Qed.

Lemma digits_uint_unseen (u : Decimal.uint) :
  u <> Decimal.Nil ->
  digits 0 false (NilEmpty.string_of_uint u) = Some (Pos.of_uint u).
Proof.
  intros Hu. rewrite <- digits_uint.
  destruct u; try contradiction; reflexivity.
Qed.

Lemma uint_no_colon (u : Decimal.uint) :
  has_char ":" (NilEmpty.string_of_uint u) = false.
Proof. induction u; simpl; auto. Qed.

Lemma to_uint_nonnil (p : positive) : Pos.to_uint p <> Decimal.Nil.
Proof.
  intros H. pose proof (DecimalPos.Unsigned.of_to p) as E.
  rewrite H in E. discriminate.
Qed.

Lemma py_int_uint (u : Decimal.uint) :
  u <> Decimal.Nil ->
  py_int (NilEmpty.string_of_uint u) = Some (Z.of_N (Pos.of_uint u)).
Proof.
  intros Hu. pose proof (digits_uint_unseen u Hu) as H.
  destruct u; try contradiction;
    cbn [NilEmpty.string_of_uint] in *; unfold py_int;
    cbn [lstrip];
    match goal with |- context [is_space ?c] =>
      let v := eval vm_compute in (is_space c) in change (is_space c) with v end;
    cbv iota; now rewrite H.
Qed.

Lemma py_int_fmt_d (z : Z) : py_int (fmt_d z) = Some z.
Proof.
  unfold fmt_d. destruct z as [|p|p]; cbn [Z.to_int NilZero.string_of_int].
  - reflexivity.
  - pose proof (to_uint_nonnil p) as Hn.
    unfold NilZero.string_of_uint. destruct (Pos.to_uint p) eqn:E; try contradiction;
      rewrite <- E in *; rewrite py_int_uint by assumption;
      now rewrite DecimalPos.Unsigned.of_to.
  - pose proof (to_uint_nonnil p) as Hn.
    assert (H : digits 0 false (NilZero.string_of_uint (Pos.to_uint p)) = Some (N.pos p)).
    { unfold NilZero.string_of_uint. destruct (Pos.to_uint p) eqn:E; try contradiction;
        rewrite <- E in *; rewrite digits_uint_unseen by assumption;
        now rewrite DecimalPos.Unsigned.of_to. }
    unfold py_int. cbn [lstrip].
    change (is_space "-") with false. cbv iota. now rewrite H.
Qed.

Lemma fmt_d_no_colon (z : Z) : has_char ":" (fmt_d z) = false.
Proof.
  unfold fmt_d. destruct z as [|p|p]; cbn [Z.to_int NilZero.string_of_int];
    try reflexivity; unfold NilZero.string_of_uint.
  - destruct (Pos.to_uint p) eqn:E; try reflexivity; rewrite <- E; apply uint_no_colon.
  - cbn [has_char]. change (Ascii.eqb "-" ":") with false. cbn [orb].
    destruct (Pos.to_uint p) eqn:E; try reflexivity; rewrite <- E; apply uint_no_colon.
Qed.

End Decimal.

(** ** Addresses *)

Lemma Addr_eq_refl (a : Addr) : Addr_eq a a = true.
Proof.
  unfold Addr_eq. now rewrite !String.eqb_refl, Z.eqb_refl.
Qed.

Lemma Addr_parse_fmt (n h : string) (p : Z) :
  has_char ":" h = false ->
  Addr_parse n (addrstr4 h p) = Ok (mkAddr n h p).
Proof.
  intros Hh. unfold Addr_parse, addrstr4, try_except.
  change (h +:+ ":" +:+ fmt_d p) with (h +:+ String ":" (fmt_d p)).
  rewrite split_app by assumption.
  rewrite split_no_sep by apply fmt_d_no_colon.
  cbn [length Nat.eqb negb nth]. now rewrite py_int_fmt_d.
Qed.

Lemma Addr_parse_cases (n text : string) :
  (exists h p z, str_split ":" text = [h; p] /\ py_int p = Some z
                 /\ Addr_parse n text = Ok (mkAddr n h z))
  \/ ((forall h p z, str_split ":" text = [h; p] -> py_int p <> Some z)
      /\ Addr_parse n text = Raise (invalid_addr text)).
Proof.
  unfold Addr_parse, try_except.
  destruct (str_split ":" text) as [|h [|p [|q l]]] eqn:E;
    cbn [length Nat.eqb negb nth]; try (right; split; [discriminate | reflexivity]).
  destruct (py_int p) as [z|] eqn:Ep.
  - left. exists h, p, z. auto.
  - right. split; [|reflexivity]. intros h' p' z' [= <- <-]. congruence.
Qed.

(** C7, as amended: an address whose host has no colon is read back
    from its text as an equal address; and [Addr.parse] raises its
    invalid-address error exactly when the text is not one part without
    colon, a colon, and an integer, and returns an address otherwise. *)
Theorem Addr_parse_spec :
  (forall a, has_char ":" (host a) = false -> roundtrips a) /\
  (forall n text,
     (Addr_parse n text = Raise (invalid_addr text) <-> ~ addr_form text) /\
     (addr_form text -> exists b, Addr_parse n text = Ok b)).
Proof.
  split.
  - intros [n h p] Hh. exists (mkAddr n h p). split; [|apply Addr_eq_refl].
    now apply Addr_parse_fmt.
  - intros n text.
    assert (Hform : forall h p z, str_split ":" text = [h; p] -> py_int p = Some z ->
                                  addr_form text).
    { intros h p z Hs Hp. apply split_two in Hs as (-> & Hh & Hp').
      exists h, p, z. auto. }
    assert (Hsplit : addr_form text -> exists h p z,
                       str_split ":" text = [h; p] /\ py_int p = Some z).
    { intros (h & p & z & -> & Hh & Hp & Hz). exists h, p, z. split; [|assumption].
      now rewrite split_app, split_no_sep. }
    destruct (Addr_parse_cases n text) as [(h & p & z & Hs & Hp & ->)|[Hno ->]].
    + split; [split; [discriminate|]|eauto].
      intros Hn. exfalso. eauto.
    + split; [split; [|reflexivity]|].
      * intros _ (h & p & z & Hs & Hp)%Hsplit. exact (Hno h p z Hs Hp).
      * intros (h & p & z & Hs & Hp)%Hsplit. destruct (Hno h p z Hs Hp).
Qed.

Lemma Addr_parse_spec_witness : roundtrips (mkAddr "lonetX" "a" (-1)).
Proof. apply (proj1 Addr_parse_spec). reflexivity. Defined.

(** C7 as stated fails: the text of an address whose host holds a colon
    has three parts, and [Addr.parse] rejects it. *)
Lemma Addr_roundtrip_fails_on_colon : ~ roundtrips (mkAddr "lonetX" "a:b" 1).
Proof. intros (b & H & _). vm_compute in H. discriminate. Qed.

(** ** skreadline *)

Section Readline.

Variable maxlen : Z.

(** One turn of the loop, on the stream as it stands. *)
Lemma skreadline_loop_eq (fuel : nat) (line : string) (sk : stream) :
  skreadline_loop fuel maxlen line sk =
  if (Z.of_nat (String.length line) <? maxlen)%Z then
    match fuel with
    | O => (Stuck "skreadline", sk)
    | S fuel' =>
        match sk with
        | EmptyString => (Raise (Error "unexpected EOF" None), EmptyString)
        | String b sk' =>
            if Ascii.eqb b nl then (Ok (line +:+ eol), sk')
            else skreadline_loop fuel' maxlen (line +:+ String b EmptyString) sk'
        end
    end
  else (Ok line, sk).
Proof.
  destruct fuel as [|fuel]; simpl; destruct (_ <? _)%Z; try reflexivity.
  unfold bind. destruct sk as [|b sk]; simpl; [reflexivity|].
  destruct (Ascii.eqb_spec b nl) as [->|Hb].
  - reflexivity.
  - replace (String.eqb (String b EmptyString) (String nl EmptyString)) with false; [reflexivity|].
    symmetry. apply String.eqb_neq. congruence.
Qed.

Ltac loop_goes_on Hlen :=
  replace (Z.of_nat (String.length _) <? maxlen)%Z with true
    by (symmetry; apply Z.ltb_lt; simpl in Hlen; lia).

Lemma loop_newline (pre : string) : forall fuel line rest,
  has_char nl pre = false ->
  Z.of_nat (String.length line + String.length pre) < maxlen ->
  (String.length pre < fuel)%nat ->
  skreadline_loop fuel maxlen line (pre +:+ String nl rest)
  = (Ok (line +:+ pre +:+ eol), rest).
Proof.
  induction pre as [|c pre IH]; intros fuel line rest Hnl Hlen Hfuel;
    rewrite skreadline_loop_eq; loop_goes_on Hlen;
    (destruct fuel as [|fuel]; [simpl in Hfuel; lia|]).
  - now rewrite str_app_nil_l, Ascii.eqb_refl.
  - simpl in Hnl. apply orb_false_iff in Hnl as [Hc Hnl].
    rewrite str_app_cons, Hc, IH; try assumption.
    + now rewrite str_app_assoc.
    + rewrite str_length_app. simpl in *. lia.
    + simpl in Hfuel. lia.
Qed.

Lemma loop_full (pre : string) : forall fuel line rest,
  has_char nl pre = false ->
  Z.of_nat (String.length line + String.length pre) = maxlen ->
  (String.length pre <= fuel)%nat ->
  skreadline_loop fuel maxlen line (pre +:+ rest) = (Ok (line +:+ pre), rest).
Proof.
  induction pre as [|c pre IH]; intros fuel line rest Hnl Hlen Hfuel;
    rewrite skreadline_loop_eq.
  - replace (Z.of_nat (String.length line) <? maxlen)%Z with false
      by (symmetry; apply Z.ltb_ge; simpl in Hlen; lia).
    now rewrite str_app_nil_r.
  - loop_goes_on Hlen.
    destruct fuel as [|fuel]; [simpl in Hfuel; lia|].
    simpl in Hnl. apply orb_false_iff in Hnl as [Hc Hnl].
    rewrite str_app_cons, Hc, IH; try assumption.
    + now rewrite str_app_assoc.
    + rewrite str_length_app. simpl in *. lia.
    + simpl in Hfuel. lia.
Qed.

Lemma loop_eof (sk : stream) : forall fuel line,
  has_char nl sk = false ->
  Z.of_nat (String.length line + String.length sk) < maxlen ->
  (String.length sk < fuel)%nat ->
  skreadline_loop fuel maxlen line sk = (Raise (Error "unexpected EOF" None), EmptyString).
Proof.
  induction sk as [|c sk IH]; intros fuel line Hnl Hlen Hfuel;
    rewrite skreadline_loop_eq; loop_goes_on Hlen;
    (destruct fuel as [|fuel]; [simpl in Hfuel; lia|]).
  - reflexivity.
  - simpl in Hnl. apply orb_false_iff in Hnl as [Hc Hnl].
    rewrite Hc, IH; try assumption; [reflexivity | |simpl in Hfuel; lia].
    rewrite str_length_app. simpl in *. lia.
Qed.

Lemma loop_bound (fuel : nat) : forall line sk line' rest,
  Z.of_nat (String.length line) <= maxlen ->
  skreadline_loop fuel maxlen line sk = (Ok line', rest) ->
  Z.of_nat (String.length line') <= maxlen.
Proof.
  induction fuel as [|fuel IH]; intros line sk line' rest Hlen;
    rewrite skreadline_loop_eq;
    destruct (Z.ltb_spec (Z.of_nat (String.length line)) maxlen) as [Hlt|Hge];
    try (intros [= <- <-]; assumption); try discriminate.
  destruct sk as [|b sk]; [discriminate|].
  destruct (Ascii.eqb b nl).
  - intros [= <- <-]. rewrite str_length_app. simpl. lia.
  - apply IH. rewrite str_length_app. simpl. lia.
Qed.

Lemma loop_total (fuel : nat) : forall line sk,
  (Z.to_nat maxlen - String.length line <= fuel)%nat ->
  forall y st, skreadline_loop fuel maxlen line sk <> (Stuck y, st).
Proof.
  induction fuel as [|fuel IH]; intros line sk Hfuel y st;
    rewrite skreadline_loop_eq;
    destruct (Z.ltb_spec (Z.of_nat (String.length line)) maxlen) as [Hlt|Hge];
    try discriminate; try lia.
  destruct sk as [|b sk]; [discriminate|].
  destruct (Ascii.eqb b nl); [discriminate|].
  apply IH. rewrite str_length_app. simpl. lia.
Qed.

End Readline.

(** C9: [skreadline(sk, maxlen)] always comes back, and a line it returns
    has at most [maxlen] bytes.  It stops at the first newline and returns
    it with the line; after [maxlen] bytes without a newline it returns
    them without an error; and when the stream ends before a newline it
    raises ['unexpected EOF'], whatever it had read. *)
Theorem skreadline_spec (sk : stream) (maxlen : Z) (Hmax : 0 <= maxlen) :
  (forall y st, skreadline maxlen sk <> (Stuck y, st)) /\
  (forall line rest, skreadline maxlen sk = (Ok line, rest) ->
     Z.of_nat (String.length line) <= maxlen) /\
  (forall pre rest, sk = pre +:+ String nl rest -> has_char nl pre = false ->
     Z.of_nat (String.length pre) < maxlen ->
     skreadline maxlen sk = (Ok (pre +:+ eol), rest)) /\
  (forall pre rest, sk = pre +:+ rest -> has_char nl pre = false ->
     Z.of_nat (String.length pre) = maxlen ->
     skreadline maxlen sk = (Ok pre, rest)) /\
  (has_char nl sk = false -> Z.of_nat (String.length sk) < maxlen ->
     skreadline maxlen sk = (Raise (Error "unexpected EOF" None), EmptyString)).
Proof.
  unfold skreadline. repeat split.
  - apply loop_total. simpl. lia.
  - intros line rest. apply loop_bound. simpl. lia.
  - intros pre rest -> Hnl Hlen. rewrite loop_newline; auto; simpl; lia.
  - intros pre rest -> Hnl Hlen. rewrite loop_full; auto; simpl; lia.
  - intros Hnl Hlen. apply loop_eof; auto; simpl; lia.
Qed.

(** A line and what follows it, a stream longer than the bound, and a
    stream that ends early. *)
Lemma skreadline_spec_witness :
  skreadline 1024 ("ab" +:+ String nl "cd") = (Ok ("ab" +:+ eol), "cd")
  /\ skreadline 2 "abcd" = (Ok "ab", "cd")
  /\ skreadline 1024 "ab" = (Raise (Error "unexpected EOF" None), EmptyString).
Proof.
  split; [|split].
  - destruct (skreadline_spec ("ab" +:+ String nl "cd") 1024) as (_ & _ & H & _);
      [lia|]. apply (H "ab" "cd"); [reflexivity|reflexivity|simpl; lia].
  - destruct (skreadline_spec "abcd" 2) as (_ & _ & _ & H & _);
      [lia|]. apply (H "ab" "cd"); reflexivity.
  - destruct (skreadline_spec "ab" 1024) as (_ & _ & _ & _ & H);
      [lia|]. apply H; [reflexivity|simpl; lia].
Defined.

(** ** The handshake lines *)

(** C6: the patterns of the handshake want a byte other than a backslash
    before each closing quote, so a quoted argument that is empty, or
    whose text ends in a backslash, is not matched: the line of a network
    whose name ends in a backslash is a protocol error on the accepting
    side, and so is the reply on the dialing side, while the same lines
    with plain arguments are read back as they were written. *)
Theorem handshake_rejects_backslash_and_empty :
  loaccept_parse (dial_line "lonetX" "a:1" "b:1") = Ok ("lonetX", "a:1", "b:1")
  /\ loconnect_parse (connected_reply "lonetX" "b:2") = Ok ("lonetX", "connected", "b:2")
  /\ loaccept_parse (dial_line bsnet "a:1" "b:1")
     = Raise (protocolError ("invalid dial request: " +:+ qq (dial_line bsnet "a:1" "b:1")))
  /\ loconnect_parse (connected_reply bsnet "b:2")
     = Raise (protocolError ("invalid dial reply: " +:+ qq (connected_reply bsnet "b:2")))
  /\ loaccept_parse (dial_line "lonetX" EmptyString "b:1")
     = Raise (protocolError ("invalid dial request: " +:+ qq (dial_line "lonetX" EmptyString "b:1")))
  /\ loaccept_parse (dial_line "lonetX" "a:1" EmptyString)
     = Raise (protocolError ("invalid dial request: " +:+ qq (dial_line "lonetX" "a:1" EmptyString)))
  /\ loconnect_parse (E_reply "lonetX" EmptyString)
     = Raise (protocolError ("invalid dial reply: " +:+ qq (E_reply "lonetX" EmptyString))).
Proof. vm_compute. repeat split. Qed.

(** *** Quoting and unquoting *)

Section Quote.

Lemma decode_qq_byte (c : ascii) (rest : string) :
  string_escape_decode_from None (qq_byte c +:+ rest)
  = option_map (String c) (string_escape_decode_from None rest).
Proof.
  destruct c as [[] [] [] [] [] [] [] []]; reflexivity.
Qed.

Lemma qq_body_cons (c : ascii) (s : string) :
  qq_body (String c s) = qq_byte c +:+ qq_body s.
Proof. reflexivity. Qed.

Lemma decode_qq_body (s : string) :
  string_escape_decode (qq_body s) = Ok s.
Proof.
  unfold string_escape_decode.
  assert (H : string_escape_decode_from None (qq_body s) = Some s).
  { induction s as [|c s IH]; [reflexivity|].
    now rewrite qq_body_cons, decode_qq_byte, IH. }
  now rewrite H.
Qed.

(** What [qq_byte] writes never starts with a double quote. *)
Lemma qq_byte_first (c : ascii) (t : string) :
  first_char (qq_byte c +:+ t) <> Some dq.
Proof. destruct c as [[] [] [] [] [] [] [] []]; discriminate. Qed.

Lemma qq_body_first (s : string) : first_char (qq_body s) <> Some dq.
Proof.
  destruct s as [|c s]; [discriminate|]. rewrite qq_body_cons. apply qq_byte_first.
Qed.

Lemma closes_qq_byte_last (c : ascii) :
  c <> bs -> closes_at_end (qq_byte c) = true.
Proof.
  destruct c as [[] [] [] [] [] [] [] []]; intros H; try reflexivity.
  now destruct H.
Qed.

Lemma closes_qq_byte_more (c : ascii) (t : string) :
  first_char t <> Some dq -> closes_at_end t = true ->
  closes_at_end (qq_byte c +:+ t) = true.
Proof.
  intros Hf Ht. destruct t as [|x t]; [discriminate|].
  assert (Hx : Ascii.eqb x dq = false)
    by (apply Ascii.eqb_neq; intros ->; now apply Hf).
  destruct c as [[] [] [] [] [] [] [] []];
    (change (closes_at_end (String x t)) with
       (negb (Ascii.eqb x nl) &&
        match t with
        | EmptyString => negb (Ascii.eqb x bs)
        | String c' _ => (negb (Ascii.eqb c' dq) || Ascii.eqb x bs) && closes_at_end t
        end) in Ht);
    simpl; rewrite ?Hx; simpl; try exact Ht.
Qed.

Lemma qq_body_closes (s : string) : plain s -> closes_at_end (qq_body s) = true.
Proof.
  intros [Hne Hlast]. induction s as [|c s IH]; [contradiction|].
  rewrite qq_body_cons. destruct s as [|c' s].
  - cbn [qq_body]. rewrite str_app_nil_r. apply closes_qq_byte_last.
    intros ->. now apply Hlast.
  - apply closes_qq_byte_more; [apply qq_body_first|].
    apply IH; [discriminate | exact Hlast].
Qed.


End Quote.

(** *** Matching the lines *)

Section Match.

Import re.

Lemma strip_prefix_app (lit s : string) : strip_prefix lit (lit +:+ s) = Some s.
Proof.
  induction lit as [|c lit IH]; [now destruct s|].
  rewrite str_app_cons. cbn [strip_prefix]. now rewrite Ascii.eqb_refl.
Qed.

Lemma run_Lit (lit s : string) g k :
  run (Lit lit) (lit +:+ s) g k = k s g.
Proof. cbn [run]. now rewrite strip_prefix_app. Qed.

Lemma substring_prefix (a b : string) :
  substring 0 (String.length (a +:+ b) - String.length b) (a +:+ b) = a.
Proof.
  rewrite str_length_app. replace (String.length a + String.length b - String.length b)%nat
    with (String.length a) by lia.
  induction a as [|c a IH]; [now destruct b|].
  rewrite str_app_cons. cbn [String.length substring]. now rewrite IH.
Qed.

Lemma run_Seq (p1 p2 : pattern) s g k :
  run (Seq p1 p2) s g k = run p1 s g (fun s' g' => run p2 s' g' k).
Proof. reflexivity. Qed.

Lemma run_Group name (p : pattern) s g k :
  run (Group name p) s g k
  = run p s g (fun s' g' =>
      k s' ((name, substring 0 (String.length s - String.length s') s) :: g')).
Proof. reflexivity. Qed.

Lemma run_lazy_step (cs : list ascii) (p2 : pattern) c s g k :
  run (Seq (LazyStar cs) p2) (String c s) g k
  = match run p2 (String c s) g k with
    | Some r => Some r
    | None => if none_of cs c then run (Seq (LazyStar cs) p2) s g k else None
    end.
Proof. reflexivity. Qed.

Lemma run_greedy_step (cs : list ascii) c s g k :
  run (GreedyPlus cs) (String c s) g k
  = if none_of cs c then
      match run (GreedyPlus cs) s g k with
      | Some r => Some r
      | None => k s g
      end
    else None.
Proof. reflexivity. Qed.

Lemma run_NoneOf (cs : list ascii) c s g k :
  run (NoneOf cs) (String c s) g k = if none_of cs c then k s g else None.
Proof. reflexivity. Qed.

Lemma none_of_one (a c : ascii) : none_of [a] c = negb (Ascii.eqb c a).
Proof. unfold none_of. cbn [existsb]. now rewrite orb_false_r. Qed.

(** The lazy loop of a quoted group, started anywhere inside the quoted
    text [q], goes on to the end of [q]: before that no byte other than a
    backslash is followed by a double quote. *)
Lemma lazy_reaches_end (q : string) : forall (k : string -> groupdict -> option groupdict)
    (g : groupdict) (rest : string) (r : groupdict),
  closes_at_end q = true ->
  k (String dq rest) g = Some r ->
  (forall x t, Ascii.eqb x dq = false -> k (String x t) g = None) ->
  run (Seq (LazyStar dot) (NoneOf [bs])) (q +:+ String dq rest) g k = Some r.
Proof.
  induction q as [|c q IH]; intros k g rest r Hq Hk Hother; [discriminate|].
  cbn [closes_at_end] in Hq. apply andb_true_iff in Hq as [Hnl Hq].
  rewrite str_app_cons, run_lazy_step, run_NoneOf.
  unfold dot. rewrite !none_of_one, Hnl.
  destruct q as [|c' q].
  - rewrite Hq. change (EmptyString +:+ String dq rest) with (String dq rest). now rewrite Hk.
  - apply andb_true_iff in Hq as [Hpair Hq].
    rewrite str_app_cons.
    destruct (Ascii.eqb c bs) eqn:Hc; cbn [negb].
    + rewrite <- str_app_cons. now apply IH.
    + rewrite orb_false_r in Hpair. apply negb_true_iff in Hpair.
      rewrite (Hother c' _ Hpair). rewrite <- str_app_cons. now apply IH.
Qed.

Lemma run_quoted_group (name q rest : string) (g : groupdict)
    (k : string -> groupdict -> option groupdict) (r : groupdict) :
  closes_at_end q = true ->
  k rest ((name, q) :: g) = Some r ->
  run (quoted_group name) (String dq (q +:+ String dq rest)) g k = Some r.
Proof.
  intros Hq Hk. unfold quoted_group.
  rewrite run_Seq.
  change (String dq (q +:+ String dq rest))
    with (String dq EmptyString +:+ (q +:+ String dq rest)).
  rewrite run_Lit, run_Seq, run_Group.
  apply lazy_reaches_end; [assumption | |].
  - change (String dq rest) with (String dq EmptyString +:+ rest) at 1.
    rewrite run_Lit.
    change (String dq EmptyString +:+ rest) with (String dq rest).
    now rewrite substring_prefix.
  - intros x t Hx. cbn [run strip_prefix]. now rewrite Ascii.eqb_sym, Hx.
Qed.

Lemma greedy_word (cs : list ascii) (v : string) : forall (sp : ascii) (t : string)
    (g : groupdict) (k : string -> groupdict -> option groupdict) (r : groupdict),
  v <> EmptyString ->
  forallb (none_of cs) (list_ascii_of_string v) = true ->
  none_of cs sp = false ->
  k (String sp t) g = Some r ->
  run (GreedyPlus cs) (v +:+ String sp t) g k = Some r.
Proof.
  induction v as [|c v IH]; intros sp t g k r Hne Hv Hsp Hk; [contradiction|].
  cbn [list_ascii_of_string forallb] in Hv. apply andb_true_iff in Hv as [Hc Hv].
  rewrite str_app_cons, run_greedy_step, Hc.
  destruct v as [|c' v].
  - change (EmptyString +:+ String sp t) with (String sp t).
    rewrite run_greedy_step, Hsp. exact Hk.
  - rewrite (IH sp t g k r); auto; discriminate.
Qed.

Lemma run_verb (v rest : string) (g : groupdict)
    (k : string -> groupdict -> option groupdict) (r : groupdict) :
  v <> EmptyString ->
  forallb (none_of whitespace) (list_ascii_of_string v) = true ->
  k (String " " rest) (("reply", v) :: g) = Some r ->
  run (Group "reply" (GreedyPlus whitespace)) (v +:+ String " " rest) g k = Some r.
Proof.
  intros Hne Hv Hk. rewrite run_Group.
  apply greedy_word; [assumption | assumption | reflexivity |].
  now rewrite substring_prefix.
Qed.

Lemma qq_app (s rest : string) :
  qq s +:+ rest = String dq (qq_body s +:+ String dq rest).
Proof. unfold qq. now rewrite str_app_cons, str_app_assoc. Qed.

Lemma match_dial_line (network src dst : string) :
  plain network -> plain src -> plain dst ->
  match_ _lodial_re (dial_line network src dst)
  = Some [("dst", qq_body dst); ("src", qq_body src); ("network", qq_body network)].
Proof.
  intros Hn Hs Hd. unfold match_, _lodial_re, dial_line.
  rewrite run_Seq, run_Lit, qq_app.
  rewrite run_Seq. apply run_quoted_group; [now apply qq_body_closes|].
  rewrite run_Seq, run_Lit, qq_app.
  rewrite run_Seq. apply run_quoted_group; [now apply qq_body_closes|].
  rewrite run_Seq, run_Lit, qq_app.
  rewrite run_Seq. apply run_quoted_group; [now apply qq_body_closes|].
  change eol with (eol +:+ EmptyString). now rewrite run_Lit.
Qed.

Lemma match_reply_line (network verb arg : string) :
  plain network -> plain arg ->
  verb <> EmptyString -> forallb (none_of whitespace) (list_ascii_of_string verb) = true ->
  match_ _loreply_re (reply_line network (verb +:+ " " +:+ qq arg))
  = Some [("arg", qq_body arg); ("reply", verb); ("network", qq_body network)].
Proof.
  intros Hn Ha Hv Hw. unfold match_, _loreply_re, reply_line.
  rewrite run_Seq, run_Lit, qq_app.
  rewrite run_Seq. apply run_quoted_group; [now apply qq_body_closes|].
  rewrite run_Seq, run_Lit.
  rewrite !str_app_assoc. change (" " +:+ qq arg +:+ eol) with (String " " (qq arg +:+ eol)).
  rewrite run_Seq. apply run_verb; [assumption | assumption |].
  change (String " " (qq arg +:+ eol)) with (" " +:+ (qq arg +:+ eol)).
  rewrite run_Seq, run_Lit, qq_app.
  rewrite run_Seq. apply run_quoted_group; [now apply qq_body_closes|].
  change eol with (eol +:+ EmptyString). now rewrite run_Lit.
Qed.

End Match.

(** What does hold of the handshake: for arguments that are not empty
    and do not end in a backslash, the request and both replies are read
    back as they were written. *)
Theorem handshake_roundtrip (network src dst arg : string) :
  plain network -> plain src -> plain dst -> plain arg ->
  loaccept_parse (dial_line network src dst) = Ok (network, src, dst)
  /\ loconnect_parse (connected_reply network arg) = Ok (network, "connected", arg)
  /\ loconnect_parse (E_reply network arg) = Ok (network, "E", arg).
Proof.
  intros Hn Hs Hd Ha. repeat split.
  - unfold loaccept_parse. rewrite match_dial_line by assumption.
    cbn [re.group String.eqb Ascii.eqb Bool.eqb]. now rewrite !decode_qq_body.
  - unfold loconnect_parse, connected_reply.
    change ("connected " +:+ qq arg) with ("connected" +:+ " " +:+ qq arg).
    rewrite (match_reply_line network "connected" arg) by (auto; discriminate).
    cbn [re.group String.eqb Ascii.eqb Bool.eqb]. now rewrite !decode_qq_body.
  - unfold loconnect_parse, E_reply.
    change ("E " +:+ qq arg) with ("E" +:+ " " +:+ qq arg).
    rewrite (match_reply_line network "E" arg) by (auto; discriminate).
    cbn [re.group String.eqb Ascii.eqb Bool.eqb]. now rewrite !decode_qq_body.
Qed.

(** ** The store *)

Section Store.

Implicit Types (w : world) (o : loc) (name : string) (v : pyval).

Lemma attr_of_lt w o name v : attr_of w o name = Some v -> (o < length (heap w))%nat.
Proof.
  unfold attr_of. destruct (heap w !! o) eqn:E; [|discriminate].
  intros _. now apply lookup_lt_Some in E.
Qed.

Lemma getattr_run w o name v :
  attr_of w o name = Some v -> getattr o name w = (Ok v, w).
Proof.
  unfold attr_of, getattr. destruct (heap w !! o); [|discriminate]. now intros ->.
Qed.

Lemma setattr_run w o name v :
  (o < length (heap w))%nat -> setattr o name v w = (Ok tt, with_attr o name v w).
Proof.
  intros H. destruct (lookup_lt_is_Some_2 _ _ H) as [ob E].
  unfold setattr, with_attr. now rewrite E.
Qed.

Lemma new_obj_run w c items :
  new_obj c items w = (Ok (length (heap w)), with_obj c items w).
Proof. reflexivity. Qed.

Lemma heap_with_attr_length w o name v :
  length (heap (with_attr o name v w)) = length (heap w).
Proof.
  unfold with_attr. destruct (heap w !! o); [|reflexivity].
  simpl. apply length_insert.
Qed.

Lemma file_with_attr w o name v : file (with_attr o name v w) = file w.
Proof. unfold with_attr. now destruct (heap w !! o). Qed.

Lemma attr_of_with_attr_eq w o name v :
  (o < length (heap w))%nat -> attr_of (with_attr o name v w) o name = Some v.
Proof.
  intros H. destruct (lookup_lt_is_Some_2 _ _ H) as [ob E].
  unfold with_attr, attr_of. rewrite E. simpl.
  rewrite list_lookup_insert_eq by assumption. simpl. apply lookup_insert_eq.
Qed.

Lemma attr_of_with_attr_ne w o name v o' name' :
  o <> o' \/ name <> name' ->
  attr_of (with_attr o name v w) o' name' = attr_of w o' name'.
Proof.
  intros H. unfold with_attr, attr_of.
  destruct (heap w !! o) as [ob|] eqn:E; [|reflexivity]. simpl.
  destruct (decide (o = o')) as [<-|Ho].
  - rewrite list_lookup_insert_eq by (now apply lookup_lt_Some in E).
    rewrite E. simpl. apply lookup_insert_ne. now destruct H.
  - now rewrite list_lookup_insert_ne.
Qed.

Lemma with_attr_id w o name v :
  attr_of w o name = Some v -> with_attr o name v w = w.
Proof.
  unfold attr_of, with_attr. destruct (heap w !! o) as [[c a]|] eqn:E; [|reflexivity].
  simpl. intros H. rewrite (insert_id a name v H), (list_insert_id _ _ _ E).
  now destruct w.
Qed.

Lemma with_attr_twice w o name v v' :
  with_attr o name v' (with_attr o name v w) = with_attr o name v' w.
Proof.
  unfold with_attr. destruct (heap w !! o) as [ob|] eqn:E; [|now rewrite E].
  simpl. rewrite list_lookup_insert_eq by (now apply lookup_lt_Some in E).
  simpl. unfold set_heap. simpl.
  now rewrite list_insert_insert_eq, insert_insert_eq.
Qed.

Lemma heap_with_obj_length w c items :
  length (heap (with_obj c items w)) = S (length (heap w)).
Proof. unfold with_obj. simpl. rewrite length_app. simpl. lia. Qed.

Lemma attr_of_with_obj_new w c items name :
  attr_of (with_obj c items w) (length (heap w)) name
  = (list_to_map items : gmap string pyval) !! name.
Proof.
  unfold with_obj, attr_of. simpl.
  rewrite lookup_app_r by lia. now rewrite Nat.sub_diag.
Qed.

Lemma attr_of_with_obj_old w c items o name :
  (o < length (heap w))%nat ->
  attr_of (with_obj c items w) o name = attr_of w o name.
Proof.
  intros H. unfold with_obj, attr_of. simpl. now rewrite lookup_app_l.
Qed.

Lemma getattr_list_run w o name l :
  attr_of w o name = Some (VList l) -> getattr_list o name w = (Ok l, w).
Proof. intros H. unfold getattr_list, bind. now rewrite (getattr_run _ _ _ _ H). Qed.

Lemma getattr_ref_run w o name l :
  attr_of w o name = Some (VRef l) -> getattr_ref o name w = (Ok l, w).
Proof. intros H. unfold getattr_ref, bind. now rewrite (getattr_run _ _ _ _ H). Qed.

Lemma getattr_str_run w o name s :
  attr_of w o name = Some (VStr s) -> getattr_str o name w = (Ok s, w).
Proof. intros H. unfold getattr_str, bind. now rewrite (getattr_run _ _ _ _ H). Qed.

Lemma getattr_int_run w o name z :
  attr_of w o name = Some (VInt z) -> getattr_int o name w = (Ok z, w).
Proof. intros H. unfold getattr_int, bind. now rewrite (getattr_run _ _ _ _ H). Qed.

Lemma getattr_bool_run w o name b :
  attr_of w o name = Some (VBool b) -> getattr_bool o name w = (Ok b, w).
Proof. intros H. unfold getattr_bool, bind. now rewrite (getattr_run _ _ _ _ H). Qed.

Lemma py_index_nat (n k : nat) : (k < n)%nat -> py_index n (Z.of_nat k) = Some k.
Proof.
  intros H. unfold py_index.
  replace ((0 <=? Z.of_nat k)%Z && (Z.of_nat k <? Z.of_nat n)%Z) with true
    by (symmetry; apply andb_true_iff; split; [apply Z.leb_le|apply Z.ltb_lt]; lia).
  now rewrite Nat2Z.id.
Qed.

Lemma getitem_nat w (l : list pyval) (k : nat) v :
  l !! k = Some v -> getitem l (Z.of_nat k) w = (Ok v, w).
Proof.
  intros H. unfold getitem.
  rewrite py_index_nat by (now apply lookup_lt_Some in H). now rewrite H.
Qed.

Lemma setitem_nat w o name (l : list pyval) (k : nat) v :
  attr_of w o name = Some (VList l) -> (k < length l)%nat ->
  setitem o name (Z.of_nat k) v w
  = (Ok tt, with_attr o name (VList (<[k := v]> l)) w).
Proof.
  intros H Hk. unfold setitem, bind. rewrite (getattr_list_run _ _ _ _ H).
  rewrite py_index_nat by assumption.
  apply setattr_run. now apply attr_of_lt in H.
Qed.

End Store.


(** ** Registry *)

Section Registry.

Implicit Types (w : world).

Lemma pool_step_refl w : pool_step w w.
Proof. repeat split; eauto. Qed.

Lemma pool_step_with_attr w pool l l' :
  attr_of w pool "_connv" = Some (VList l) ->
  pool_step w (with_attr pool "_connv" (VList l') w).
Proof.
  intros Hl. pose proof (attr_of_lt _ _ _ _ Hl) as Hlt. repeat split.
  - apply file_with_attr.
  - intros o name Hn. apply attr_of_with_attr_ne. right. congruence.
  - intros o l0 Hl0. destruct (decide (o = pool)) as [->|Ho].
    + exists l'. now apply attr_of_with_attr_eq.
    + exists l0. rewrite attr_of_with_attr_ne; auto.
Qed.

Lemma pool_open_step w w' pool : pool_step w w' -> pool_open w pool -> pool_open w' pool.
Proof.
  intros (_ & Ha & Hc) (factory & connv & Hf & Hn & Hl).
  destruct (Hc _ _ Hl) as [l' Hl']. exists factory, l'.
  rewrite Ha by discriminate. auto.
Qed.

Lemma registry_open_step w w' r uri :
  pool_step w w' -> registry_open w r uri -> registry_open w' r uri.
Proof.
  intros Hs (pool & Hu & Hp & Ho). exists pool.
  destruct Hs as (Hfile & Ha & Hc). rewrite !Ha by discriminate.
  repeat split; auto. apply (pool_open_step w); [repeat split|]; auto.
Qed.

Lemma get_run w pool :
  pool_open w pool ->
  exists conn w', DBPool.get pool w = (Ok conn, w') /\ pool_step w w'.
Proof.
  intros (factory & connv & Hf & Hn & Hl).
  unfold DBPool.get, bind. rewrite (getattr_run _ _ _ _ Hf), Hn.
  rewrite (getattr_list_run _ _ _ _ Hl).
  destruct (0 <? len connv)%Z.
  - rewrite setattr_run by (now apply attr_of_lt in Hl).
    eexists _, _. split; [reflexivity|]. now apply (pool_step_with_attr _ _ connv).
  - eexists _, _. split; [reflexivity|]. apply pool_step_refl.
Qed.

Lemma put_run w pool conn :
  pool_open w pool ->
  exists w', DBPool.put pool conn w = (Ok tt, w') /\ pool_step w w'.
Proof.
  intros (factory & connv & Hf & Hn & Hl).
  unfold DBPool.put, bind. rewrite (getattr_run _ _ _ _ Hf), Hn. cbn [negb].
  unfold list_append, bind. rewrite (getattr_list_run _ _ _ _ Hl).
  rewrite setattr_run by (now apply attr_of_lt in Hl).
  eexists. split; [reflexivity|]. now apply (pool_step_with_attr _ _ connv).
Qed.

(** A block under [with pool.xget()] that touches the file only. *)
Lemma with_xget_run {A} w pool (body : pyval -> M world A) (res : outcome A) (d : database) :
  pool_open w pool ->
  (forall y, res <> Stuck y) ->
  (forall conn w1, file w1 = file w -> body conn w1 = (res, set_file d w1)) ->
  exists w', DBPool.with_xget pool body w = (res, w')
             /\ file w' = d
             /\ (forall o name, name <> "_connv" -> attr_of w' o name = attr_of w o name)
             /\ (forall r uri, registry_open w r uri -> registry_open w' r uri).
Proof.
  intros Hopen Hres Hbody.
  destruct (get_run w pool Hopen) as (conn & w1 & Hget & Hs1).
  unfold DBPool.with_xget, bind. rewrite Hget. unfold defer.
  rewrite (Hbody conn w1) by apply Hs1.
  assert (Hopen2 : pool_open (set_file d w1) pool)
    by (apply (pool_open_step w w1) in Hopen; assumption).
  destruct (put_run (set_file d w1) pool conn Hopen2) as (w2 & Hput & Hs2).
  rewrite Hput.
  exists w2. split; [now destruct res; try reflexivity; destruct (Hres why)|].
  split; [apply Hs2|]. split.
  - intros o name Hn. destruct Hs2 as (_ & Ha2 & _). destruct Hs1 as (_ & Ha1 & _).
    rewrite Ha2 by assumption. now apply Ha1.
  - intros r uri Hr. apply (registry_open_step (set_file d w1)); [assumption|].
    apply (registry_open_step w w1 r uri Hs1) in Hr. exact Hr.
Qed.

Lemma set_file_id w : set_file (file w) w = w.
Proof. now destruct w. Qed.

Lemma announce_new w r uri h x :
  registry_open w r uri -> hosts (file w) !! h = None ->
  exists w', SQLiteRegistry.announce r h x w = (Ok tt, w')
             /\ file w' = mkDB (<[h := x]> (hosts (file w))) (meta (file w))
             /\ registry_open w' r uri.
Proof.
  intros Hr Hh. pose proof Hr as (pool & Hu & Hp & Ho).
  destruct (with_xget_run w pool
              (fun _ => try_except (insert_hosts h x)
                 (fun e => match e with
                           | IntegrityError message =>
                               if String.prefix "UNIQUE constraint failed" message
                               then raise ErrHostDup else raise e
                           | _ => raise e
                           end))
              (Ok tt) (mkDB (<[h := x]> (hosts (file w))) (meta (file w))) Ho)
    as (w' & Hrun & Hfile & _ & Hreg).
  - discriminate.
  - intros _ w1 Hf. unfold try_except, insert_hosts. now rewrite Hf, Hh.
  - exists w'. split; [|auto].
    unfold SQLiteRegistry.announce, _regerr. unfold try_except at 1. unfold bind at 1.
    now rewrite (getattr_ref_run _ _ _ _ Hp), Hrun.
Qed.

Lemma announce_dup w r uri h x x0 :
  registry_open w r uri -> hosts (file w) !! h = Some x0 ->
  exists w', SQLiteRegistry.announce r h x w
             = (Raise (RegistryError ErrHostDup uri "announce" [h; x]), w')
             /\ file w' = file w
             /\ registry_open w' r uri.
Proof.
  intros Hr Hh. pose proof Hr as (pool & Hu & Hp & Ho).
  destruct (with_xget_run w pool
              (fun _ => try_except (insert_hosts h x)
                 (fun e => match e with
                           | IntegrityError message =>
                               if String.prefix "UNIQUE constraint failed" message
                               then raise ErrHostDup else raise e
                           | _ => raise e
                           end))
              (Raise ErrHostDup) (file w) Ho)
    as (w' & Hrun & Hfile & Hattr & Hreg).
  - discriminate.
  - intros _ w1 Hf. unfold try_except, insert_hosts. rewrite Hf, Hh.
    rewrite <- Hf. now rewrite set_file_id.
  - exists w'. split; [|auto].
    unfold SQLiteRegistry.announce, _regerr. unfold try_except at 1. unfold bind at 1.
    rewrite (getattr_ref_run _ _ _ _ Hp), Hrun. cbn [xerr.well_defined negb].
    unfold bind.
    rewrite (getattr_str_run w' r "uri" uri); [reflexivity|].
    rewrite Hattr by discriminate. exact Hu.
Qed.

Lemma query_run w r uri h :
  registry_open w r uri ->
  exists w', SQLiteRegistry.query r h w = (Ok (hosts (file w) !! h), w')
             /\ file w' = file w
             /\ registry_open w' r uri.
Proof.
  intros Hr. pose proof Hr as (pool & Hu & Hp & Ho).
  destruct (with_xget_run w pool
              (fun _ =>
                 let* rowv := select_hosts_osladdr h in
                 match rowv with
                 | [] => ret None
                 | [osladdr] => ret (Some osladdr)
                 | _ => raise (Error "registry broken: duplicate host entries" None)
                 end)
              (Ok (hosts (file w) !! h)) (file w) Ho)
    as (w' & Hrun & Hfile & _ & Hreg).
  - discriminate.
  - intros _ w1 Hf. unfold bind, select_hosts_osladdr. rewrite Hf.
    rewrite <- Hf at 3. rewrite set_file_id. now destruct (hosts (file w) !! h).
  - exists w'. split; [|auto].
    unfold SQLiteRegistry.query, _regerr. unfold try_except at 1. unfold bind at 1.
    now rewrite (getattr_ref_run _ _ _ _ Hp), Hrun.
Qed.

(** C3: on an open registry and for a host name not yet in the file,
    [announce(h, x)] succeeds and [query(h)] then returns [x]; a second
    [announce(h, y)] raises [RegistryError] around the error object
    [ErrHostDup] ("host already registered"), the file still holds [x],
    and [query(h)] returns [x] again. *)
Theorem registry_announce_query (w : world) (r : loc) (uri h x y : string) :
  registry_open w r uri ->
  hosts (file w) !! h = None ->
  exists w1 w2 w3 w4 : world,
    SQLiteRegistry.announce r h x w = (Ok tt, w1)
    /\ SQLiteRegistry.query r h w1 = (Ok (Some x), w2)
    /\ SQLiteRegistry.announce r h y w2
       = (Raise (RegistryError ErrHostDup uri "announce" [h; y]), w3)
    /\ hosts (file w3) !! h = Some x
    /\ SQLiteRegistry.query r h w3 = (Ok (Some x), w4).
Proof.
  intros Hr Hh.
  destruct (announce_new w r uri h x Hr Hh) as (w1 & Ha1 & Hf1 & Hr1).
  assert (Hx1 : hosts (file w1) !! h = Some x)
    by (rewrite Hf1; apply lookup_insert_eq).
  destruct (query_run w1 r uri h Hr1) as (w2 & Hq2 & Hf2 & Hr2).
  assert (Hx2 : hosts (file w2) !! h = Some x) by now rewrite Hf2.
  destruct (announce_dup w2 r uri h y x Hr2 Hx2) as (w3 & Ha3 & Hf3 & Hr3).
  assert (Hx3 : hosts (file w3) !! h = Some x) by now rewrite Hf3.
  destruct (query_run w3 r uri h Hr3) as (w4 & Hq4 & _ & _).
  exists w1, w2, w3, w4. rewrite Hx1 in Hq2. rewrite Hx3 in Hq4. auto.
Qed.

End Registry.

Lemma registry_announce_query_witness :
  exists w1 w2 w3 w4 : world,
    SQLiteRegistry.announce 0%nat "b" "beta:a" registry_world = (Ok tt, w1)
    /\ SQLiteRegistry.query 0%nat "b" w1 = (Ok (Some "beta:a"), w2)
    /\ SQLiteRegistry.announce 0%nat "b" "beta:b" w2
       = (Raise (RegistryError ErrHostDup "/tmp/lonet/X/registry.db" "announce"
                   ["b"; "beta:b"]), w3)
    /\ hosts (file w3) !! "b" = Some "beta:a"
    /\ SQLiteRegistry.query 0%nat "b" w3 = (Ok (Some "beta:a"), w4).
Proof.
  apply (registry_announce_query registry_world 0%nat "/tmp/lonet/X/registry.db"
           "b" "beta:a" "beta:b").
  - exists 1%nat. repeat split.
    exists (VOpaque "factory"), [VOpaque "sqlite3.Connection"]. repeat split.
  - reflexivity.
Defined.

(** C8: with a stored schema version other than ["lonet.1"] the open
    fails, but the error inside the [RegistryError] is the
    [AttributeError] of reading [r._schema_ver] while the message was
    being built, not a schema version mismatch with the two versions;
    the sibling check of the network name does raise its mismatch.  With
    no stored version the open succeeds and writes the current one. *)
Theorem schema_mismatch_raises_AttributeError :
  fst (SQLiteRegistry.new "/tmp/lonet/X/registry.db" "X" old_schema_world)
  = Raise (RegistryError
             (Error ("setup " +:+ qq "X")
                (Some (AttributeError "SQLiteRegistry" "_schema_ver")))
             "/tmp/lonet/X/registry.db" "__init__" ["/tmp/lonet/X/registry.db"; "X"])
  /\ fst (SQLiteRegistry.new "/tmp/lonet/Y/registry.db" "Y" registry_world)
     = Raise (RegistryError
                (Error ("setup " +:+ qq "Y")
                   (Some (Error ("network name mismatch: want " +:+ qq "Y"
                                 +:+ "; have " +:+ qq "X") None)))
                "/tmp/lonet/Y/registry.db" "__init__" ["/tmp/lonet/Y/registry.db"; "Y"])
  /\ (let r := SQLiteRegistry.new "/tmp/lonet/X/registry.db" "X" empty_world in
      meta (file empty_world) !! "schemaver" = None
      /\ fst r = Ok 0%nat
      /\ meta (file (snd r)) !! "schemaver" = Some "lonet.1").
Proof. vm_compute. repeat split. Qed.

(** ** The port table *)

Section Allocator.

Variable h : loc.

Lemma scan_free_spec (fuel : nat) : forall (w : world) (l : list pyval) (k : nat),
  attr_of w h "_socketv" = Some (VList l) ->
  (length l - k <= fuel)%nat ->
  exists p : nat,
    scan_free fuel h (Z.of_nat k) w = (Ok (Z.of_nat p), w)
    /\ (k <= p)%nat /\ vacant l p
    /\ (forall i, (k <= i < p)%nat -> occupied l i).
Proof.
  induction fuel as [|fuel IH]; intros w l k Hl Hfuel.
  - exists k. cbn [scan_free]. unfold bind. rewrite (getattr_list_run _ _ _ _ Hl).
    replace (Z.of_nat k <? len l)%Z with false
      by (symmetry; apply Z.ltb_ge; unfold len; lia).
    repeat split; [lia | | lia].
    left. apply lookup_ge_None. lia.
  - cbn [scan_free]. unfold bind. rewrite (getattr_list_run _ _ _ _ Hl).
    destruct (Z.ltb_spec (Z.of_nat k) (len l)) as [Hlt|Hge].
    + destruct (lookup_lt_is_Some_2 l k) as [v Hv]; [unfold len in Hlt; lia|].
      rewrite (getitem_nat _ _ _ _ Hv).
      destruct v; cbn [is_None];
        try (destruct (IH w l (S k) Hl) as (p & Hrun & Hp & Hvac & Hocc); [lia|];
             exists p; replace (Z.of_nat k + 1) with (Z.of_nat (S k)) by lia;
             repeat split; [assumption | lia | assumption |];
             intros i Hi; destruct (decide (i = k)) as [->|];
             [eexists; split; [eassumption | discriminate] | apply Hocc; lia]).
      exists k. repeat split; [lia | now right | lia].
    + exists k. repeat split; [lia | | lia].
      left. apply lookup_ge_None. unfold len in Hge. lia.
Qed.

Lemma grow_spec (port : Z) (fuel : nat) : forall (w : world) (l : list pyval),
  attr_of w h "_socketv" = Some (VList l) ->
  (Z.to_nat (port + 1 - len l) <= fuel)%nat ->
  grow fuel h port w
  = (Ok tt, with_attr h "_socketv"
              (VList (l ++ replicate (Z.to_nat (port + 1 - len l)) VNone)) w).
Proof.
  induction fuel as [|fuel IH]; intros w l Hl Hfuel;
    cbn [grow]; unfold bind; rewrite (getattr_list_run _ _ _ _ Hl);
    destruct (Z.geb_spec port (len l)) as [Hge|Hlt]; try lia.
  - replace (Z.to_nat (port + 1 - len l)) with 0%nat by lia.
    cbn [replicate]. rewrite app_nil_r. now rewrite with_attr_id.
  - unfold list_append, bind. rewrite (getattr_list_run _ _ _ _ Hl).
    pose proof (attr_of_lt _ _ _ _ Hl) as Hh.
    rewrite setattr_run by assumption.
    rewrite (IH _ (l ++ [VNone])%list).
    + rewrite with_attr_twice. do 3 f_equal.
      replace (Z.to_nat (port + 1 - len l))
        with (S (Z.to_nat (port + 1 - len (l ++ [VNone])%list)))
        by (unfold len; rewrite length_app; simpl; unfold len in Hge; lia).
      cbn [replicate]. now rewrite <- app_assoc.
    + now apply attr_of_with_attr_eq.
    + unfold len in *. rewrite length_app. simpl. lia.
  - replace (Z.to_nat (port + 1 - len l)) with 0%nat by lia.
    cbn [replicate]. rewrite app_nil_r. now rewrite with_attr_id.
Qed.

End Allocator.

(** C4: on any table, [_allocFreeSocket] returns a new socket and
    installs it at the smallest index [p >= 1] whose slot is vacant
    ([None], or beyond the end of the table): every slot from 1 up to [p]
    is occupied, the table grows with [None]s just far enough to hold
    [p], and no other slot changes.  So port 0 is never given, an
    occupied slot is never replaced, and a freed slot is given again
    before any larger one. *)
Theorem allocFreeSocket_spec (w : world) (h : loc) (socketv : list pyval) :
  attr_of w h "_socketv" = Some (VList socketv) ->
  exists (p : nat) (w' : world) (socketv' : list pyval),
    let sk := length (heap w) in
    Host__allocFreeSocket h w = (Ok sk, w')
    /\ (1 <= p)%nat /\ vacant socketv p
    /\ (forall i, (1 <= i < p)%nat -> occupied socketv i)
    /\ attr_of w' h "_socketv" = Some (VList socketv')
    /\ length socketv' = Nat.max (length socketv) (p + 1)
    /\ socketv' !! p = Some (VRef sk)
    /\ (forall i, i <> p -> (i < length socketv)%nat -> socketv' !! i = socketv !! i)
    /\ (forall i, i <> p -> (length socketv <= i < length socketv')%nat ->
          socketv' !! i = Some VNone)
    /\ heap w !! sk = None
    /\ attr_of w' sk "_host" = Some (VRef h)
    /\ attr_of w' sk "_port" = Some (VInt (Z.of_nat p))
    /\ attr_of w' sk "_conn" = Some VNone
    /\ attr_of w' sk "_listener" = Some VNone.
Proof.
  intros Hl. pose proof (attr_of_lt _ _ _ _ Hl) as Hh.
  destruct (scan_free_spec h (length socketv) w socketv 1 Hl) as (p & Hscan & Hp & Hvac & Hocc);
    [lia|].
  set (k := Z.to_nat (Z.of_nat p + 1 - len socketv)).
  set (grown := (socketv ++ replicate k VNone)%list).
  set (w1 := with_attr h "_socketv" (VList grown) w).
  set (w2 := with_obj "socket"
               [("_host", VRef h); ("_port", VInt (Z.of_nat p)); ("_conn", VNone);
                ("_listener", VNone)] w1).
  set (sk := length (heap w)).
  set (socketv' := <[p := VRef sk]> grown).
  assert (Hlen1 : length (heap w1) = length (heap w)) by apply heap_with_attr_length.
  assert (Hgrown : length grown = Nat.max (length socketv) (p + 1)).
  { unfold grown, k, len. rewrite length_app, length_replicate. lia. }
  assert (Hl2 : attr_of w2 h "_socketv" = Some (VList grown)).
  { unfold w2. rewrite attr_of_with_obj_old by lia. now apply attr_of_with_attr_eq. }
  exists p, (with_attr h "_socketv" (VList socketv') w2), socketv'.
  assert (Hsk : forall name,
    attr_of (with_attr h "_socketv" (VList socketv') w2) sk name
    = (list_to_map [("_host", VRef h); ("_port", VInt (Z.of_nat p)); ("_conn", VNone);
                    ("_listener", VNone)] : gmap string pyval) !! name).
  { intros name. rewrite attr_of_with_attr_ne by (left; unfold sk; lia).
    unfold w2, sk. rewrite <- Hlen1. apply attr_of_with_obj_new. }
  cbv zeta. repeat split.
  - unfold Host__allocFreeSocket, bind. rewrite (getattr_list_run _ _ _ _ Hl).
    change 1%Z with (Z.of_nat 1). rewrite Hscan.
    unfold grow_to, bind. rewrite (getattr_list_run _ _ _ _ Hl).
    rewrite (grow_spec h _ _ w socketv Hl) by lia.
    unfold socket_new. rewrite new_obj_run. fold k grown w1. rewrite Hlen1. fold w2.
    rewrite (setitem_nat w2 h "_socketv" grown p _ Hl2) by lia.
    reflexivity.
  - assumption.
  - assumption.
  - assumption.
  - apply attr_of_with_attr_eq. unfold w2. rewrite heap_with_obj_length. lia.
  - unfold socketv'. now rewrite length_insert.
  - unfold socketv'. apply list_lookup_insert_eq. lia.
  - intros i Hi Hlt. unfold socketv'. rewrite list_lookup_insert_ne by congruence.
    unfold grown. now apply lookup_app_l.
  - intros i Hi [Hge Hlt]. unfold socketv' in *. rewrite length_insert in Hlt.
    rewrite list_lookup_insert_ne by congruence.
    assert (Hk : length grown = (length socketv + k)%nat)
      by (unfold grown; now rewrite length_app, length_replicate).
    unfold grown. rewrite lookup_app_r by lia. apply lookup_replicate_2. lia.
  - apply lookup_ge_None. unfold sk. lia.
  - now rewrite Hsk.
  - now rewrite Hsk.
  - now rewrite Hsk.
  - now rewrite Hsk.
Qed.


Lemma allocFreeSocket_spec_witness :
  exists (p : nat) (w' : world) (socketv' : list pyval),
    Host__allocFreeSocket 5%nat refused_world = (Ok 10%nat, w')
    /\ (1 <= p)%nat
    /\ vacant [VNone; VRef 6%nat; VNone] p
    /\ (forall i, (1 <= i < p)%nat -> occupied [VNone; VRef 6%nat; VNone] i)
    /\ attr_of w' 5%nat "_socketv" = Some (VList socketv')
    /\ socketv' !! p = Some (VRef 10%nat).
Proof.
  destruct (allocFreeSocket_spec refused_world 5%nat [VNone; VRef 6%nat; VNone] eq_refl)
    as (p & w' & socketv' & H1 & H2 & H3 & H4 & H5 & _ & H7 & _).
  exists p, w', socketv'. repeat split; assumption.
Defined.

(** On the table of a new host the first socket gets port 1 and the next
    port 2; a slot that was released is given again. *)
Lemma allocFreeSocket_examples :
  let r1 := Host__allocFreeSocket 5%nat one_host_world in
  let r2 := Host__allocFreeSocket 5%nat (snd r1) in
  let r3 := Host__allocFreeSocket 5%nat refused_world in
  attr_of one_host_world 5%nat "_socketv" = Some (VList [])
  /\ attr_of (snd r1) 5%nat "_socketv" = Some (VList [VNone; VRef 6%nat])
  /\ attr_of (snd r1) 6%nat "_port" = Some (VInt 1)
  /\ attr_of (snd r2) 5%nat "_socketv" = Some (VList [VNone; VRef 6%nat; VRef 7%nat])
  /\ attr_of (snd r2) 7%nat "_port" = Some (VInt 2)
  /\ attr_of refused_world 5%nat "_socketv" = Some (VList [VNone; VRef 6%nat; VNone])
  /\ attr_of (snd r3) 5%nat "_socketv" = Some (VList [VNone; VRef 6%nat; VRef 10%nat])
  /\ attr_of (snd r3) 10%nat "_port" = Some (VInt 2).
Proof. vm_compute. repeat split. Qed.

(** ** Listening on a negative port *)

Section NegativePort.

Variables (w : world) (h n : loc) (network name : string) (socketv : list pyval).
Hypothesis Hsubnet : attr_of w h "_subnet" = Some (VRef n).
Hypothesis Hnetwork : attr_of w n "_network" = Some (VStr network).
Hypothesis Hname : attr_of w h "_name" = Some (VStr name).
Hypothesis Hdown : attr_of w h "_down" = Some (VChan false).
Hypothesis Hsocketv : attr_of w h "_socketv" = Some (VList socketv).

Lemma Host_network_run : Host_network h w = (Ok network, w).
Proof.
  unfold Host_network, VirtSubNetwork_network, bind.
  now rewrite (getattr_ref_run _ _ _ _ Hsubnet), (getattr_str_run _ _ _ _ Hnetwork).
Qed.

Lemma parseAddr_minus_one :
  Host__parseAddr h ":-1" w = (Ok (mkAddr network name (-1)), w).
Proof.
  unfold Host__parseAddr, bind. rewrite Host_network_run.
  change (lift (Addr_parse network ":-1") w) with (Ok (mkAddr network EmptyString (-1)), w).
  cbn [host String.eqb net port]. now rewrite (getattr_str_run _ _ _ _ Hname).
Qed.

Lemma grow_to_negative : grow_to h (-1) w = (Ok tt, w).
Proof.
  unfold grow_to, bind. rewrite (getattr_list_run _ _ _ _ Hsocketv).
  replace (Z.to_nat (-1 + 1 - len socketv)) with 0%nat by (unfold len; lia).
  cbn [grow]. unfold bind. rewrite (getattr_list_run _ _ _ _ Hsocketv).
  destruct (Z.geb_spec (-1) (len socketv)) as [Hge|_]; [unfold len in Hge; lia|].
  reflexivity.
Qed.

Lemma py_index_minus_one (k : nat) : py_index (S k) (-1) = Some k.
Proof.
  unfold py_index. cbn [Z.leb Z.compare andb].
  replace ((-1 <? 0)%Z && (- Z.of_nat (S k) <=? -1)%Z) with true
    by (symmetry; apply andb_true_iff; split; [reflexivity | apply Z.leb_le; lia]).
  f_equal. lia.
Qed.


Lemma forallb_false_at {A} (f : A -> bool) (l : list A) (i : nat) (x : A) :
  l !! i = Some x -> f x = false -> forallb f l = false.
Proof.
  revert i. induction l as [|y l IH]; intros [|i]; simpl; try discriminate.
  - now intros [= ->] ->.
  - intros Hi Hx. rewrite (IH i Hi Hx). apply andb_false_r.
Qed.

(** C10: [Addr.parse] reads ["a:-1"] as port -1, and [listen] on a host
    that is up takes the port -1 as the index of the highest slot of the
    table.  When that slot is occupied, [listen] fails with [address
    already in use]; when it is free, [listen] installs there a socket
    whose port is -1, not the index of the slot, and the invariant of the
    table no longer holds. *)
Theorem listen_negative_port (v : pyval) :
  last socketv = Some v ->
  Addr_parse network "a:-1" = Ok (mkAddr network "a" (-1))
  /\ (v <> VNone ->
      Host_listen h ":-1" w
      = (Raise (Error ("listen " +:+ network +:+ " :-1") (Some ErrAddrAlreadyUsed)), w))
  /\ (v = VNone ->
      exists w' : world,
        let sk := length (heap w) in
        let l := S sk in
        let top := (length socketv - 1)%nat in
        Host_listen h ":-1" w = (Ok l, w')
        /\ attr_of w' h "_socketv" = Some (VList (<[top := VRef sk]> socketv))
        /\ (<[top := VRef sk]> socketv) !! top = Some (VRef sk)
        /\ attr_of w' sk "_port" = Some (VInt (-1))
        /\ attr_of w' sk "_listener" = Some (VRef l)
        /\ table_ok w' h = false).
Proof.
  intros Hlast. split; [reflexivity|].
  pose proof (attr_of_lt _ _ _ _ Hsocketv) as Hh.
  assert (Hlen : exists k, length socketv = S k /\ socketv !! k = Some v).
  { rewrite last_lookup in Hlast. destruct socketv as [|x l]; [discriminate|].
    exists (length l). split; [reflexivity | exact Hlast]. }
  destruct Hlen as (k & Hk & Hv).
  assert (Hhead :
    Host_listen h ":-1" w =
    errctx ("listen " +:+ network +:+ " :-1")
      (let* sk :=
         (if negb (is_None v) then raise ErrAddrAlreadyUsed
          else
            let* sk := socket_new h (-1) in
            setitem h "_socketv" (-1) (VRef sk) ;;; ret sk) in
       let* l := listener_new sk in
       setattr sk "_listener" (VRef l) ;;; ret l) w).
  { unfold Host_listen. cbn [String.eqb Ascii.eqb Bool.eqb].
    unfold bind at 1. rewrite Host_network_run.
    unfold errctx, try_except, bind.
    rewrite parseAddr_minus_one, (getattr_str_run _ _ _ _ Hname).
    cbn [host port]. rewrite String.eqb_refl. cbn [negb].
    unfold ready, bind. rewrite (getattr_run _ _ _ _ Hdown).
    unfold ret at 1 2. cbn [Z.eqb].
    rewrite grow_to_negative, (getattr_list_run _ _ _ _ Hsocketv).
    unfold getitem. rewrite Hk, py_index_minus_one, Hv. reflexivity. }
  split.
  - intros Hnone. rewrite Hhead.
    destruct v; try contradiction; reflexivity.
  - intros ->. cbn [is_None negb] in Hhead.
    set (sk := length (heap w)).
    set (w1 := with_obj "socket"
                 [("_host", VRef h); ("_port", VInt (-1)); ("_conn", VNone);
                  ("_listener", VNone)] w).
    set (w2 := with_attr h "_socketv" (VList (<[k := VRef sk]> socketv)) w1).
    set (w3 := with_obj "listener"
                 [("_socket", VRef sk); ("_dialq", VOpaque "chan"); ("_down", VChan false);
                  ("_down_once", VBool false); ("_close_once", VBool false)] w2).
    set (w4 := with_attr sk "_listener" (VRef (S sk)) w3).
    assert (Hl1 : attr_of w1 h "_socketv" = Some (VList socketv))
      by (unfold w1; now rewrite attr_of_with_obj_old).
    assert (Hlen1 : length (heap w1) = S sk) by apply heap_with_obj_length.
    assert (Hlen2 : length (heap w2) = S sk)
      by (unfold w2; now rewrite heap_with_attr_length).
    assert (Hlen3 : length (heap w3) = S (S sk))
      by (unfold w3; now rewrite heap_with_obj_length, Hlen2).
    assert (Hrun : Host_listen h ":-1" w = (Ok (S sk), w4)).
    { rewrite Hhead. unfold errctx, try_except, bind, socket_new, listener_new.
      rewrite new_obj_run. fold sk w1.
      unfold setitem, bind. rewrite (getattr_list_run _ _ _ _ Hl1).
      rewrite Hk, py_index_minus_one.
      rewrite setattr_run by lia. fold w2.
      unfold ret. rewrite new_obj_run, Hlen2. fold w3.
      rewrite setattr_run by lia. reflexivity. }
    assert (Hsk : forall a, a <> "_listener" ->
      attr_of w4 sk a
      = (list_to_map [("_host", VRef h); ("_port", VInt (-1)); ("_conn", VNone);
                      ("_listener", VNone)] : gmap string pyval) !! a).
    { intros a Hne. unfold w4. rewrite attr_of_with_attr_ne by (right; congruence).
      unfold w3. rewrite attr_of_with_obj_old by lia.
      unfold w2. rewrite attr_of_with_attr_ne by (left; unfold sk; lia).
      apply attr_of_with_obj_new. }
    assert (Htab : attr_of w4 h "_socketv" = Some (VList (<[k := VRef sk]> socketv))).
    { unfold w4. rewrite attr_of_with_attr_ne by (left; unfold sk; lia).
      unfold w3. rewrite attr_of_with_obj_old by lia.
      unfold w2. apply attr_of_with_attr_eq. lia. }
    assert (Hat : (<[k := VRef sk]> socketv) !! k = Some (VRef sk))
      by (apply list_lookup_insert_eq; lia).
    exists w4. cbv zeta. replace (length socketv - 1)%nat with k by lia.
    repeat split; try assumption.
    + now rewrite Hsk.
    + unfold w4. apply attr_of_with_attr_eq. lia.
    + unfold table_ok. rewrite Htab.
      apply (forallb_false_at _ _ k (k, VRef sk)).
      * rewrite list_lookup_imap, Hat. reflexivity.
      * cbn [fst snd slot_ok]. unfold socket_ok. rewrite (Hsk "_port") by discriminate.
        change ((list_to_map [("_host", VRef h); ("_port", VInt (-1)); ("_conn", VNone);
                  ("_listener", VNone)] : gmap string pyval) !! "_port")
          with (Some (VInt (-1))).
        destruct (attr_of w4 sk "_conn"); [|apply andb_false_r].
        destruct (attr_of w4 sk "_listener"); [|apply andb_false_r].
        replace (-1 =? Z.of_nat k)%Z with false by (symmetry; apply Z.eqb_neq; lia).
        apply andb_false_r.
Qed.

End NegativePort.

Lemma listen_negative_port_witness :
  Host_listen 5%nat ":-1" listening_world
  = (Raise (Error "listen lonetX :-1" (Some ErrAddrAlreadyUsed)), listening_world)
  /\ exists w' : world,
       Host_listen 5%nat ":-1" refused_world = (Ok 11%nat, w')
       /\ attr_of w' 5%nat "_socketv" = Some (VList [VNone; VRef 6%nat; VRef 10%nat])
       /\ attr_of w' 10%nat "_port" = Some (VInt (-1))
       /\ table_ok w' 5%nat = false.
Proof.
  split.
  - apply (listen_negative_port listening_world 5%nat 2%nat "lonetX" "a"
             [VNone; VRef 6%nat] eq_refl eq_refl eq_refl eq_refl eq_refl
             (VRef 6%nat) eq_refl).
    discriminate.
  - destruct (listen_negative_port refused_world 5%nat 2%nat "lonetX" "a"
                [VNone; VRef 6%nat; VNone] eq_refl eq_refl eq_refl eq_refl eq_refl
                VNone eq_refl) as (_ & _ & H).
    destruct (H eq_refl) as (w' & H1 & H2 & _ & H4 & _ & H6).
    exists w'. repeat split; assumption.
Defined.

(** ** Close *)

(** C2: [Host.close] on the only open host of a subnetwork raises
    [AttributeError]: the deferred function reads [n._nopenHosts], while
    the count that [__init__] sets and [new_host] increments is
    [n._nopenhosts].  The host is shut down by then, but the count of
    open hosts stays 1; a second [close]
    finds the once done and returns, the count still 1.  [autoclose]
    reads the same missing attribute. *)
Theorem Host_close_raises :
  let r1 := Host_close 5%nat one_host_world in
  let r2 := Host_close 5%nat (snd r1) in
  attr_of one_host_world 2%nat "_nopenhosts" = Some (VInt 1)
  /\ fst r1 = Raise (AttributeError "_SubNetwork" "_nopenHosts")
  /\ attr_of (snd r1) 5%nat "_down" = Some (VChan true)
  /\ attr_of (snd r1) 2%nat "_nopenhosts" = Some (VInt 1)
  /\ fst r2 = Ok tt
  /\ attr_of (snd r2) 2%nat "_nopenhosts" = Some (VInt 1)
  /\ fst (VirtSubNetwork_autoclose 2%nat one_host_world)
     = Raise (AttributeError "_SubNetwork" "_nopenHosts").
Proof. vm_compute. repeat split. Qed.

(** C5: the first [close] of a listener sets [socket._listener] to
    [None] and then raises [AttributeError]: the socket is now empty and
    the slot to clear is looked up as [sk.port], while the attribute is
    [sk._port] (as [conn.close] reads it).  The slot keeps the empty
    socket.  A second [close] changes nothing and returns. *)
Theorem listener_close_raises :
  let r1 := listener_close 7%nat listening_world in
  let r2 := listener_close 7%nat (snd r1) in
  attr_of listening_world 5%nat "_socketv" = Some (VList [VNone; VRef 6%nat])
  /\ attr_of listening_world 6%nat "_listener" = Some (VRef 7%nat)
  /\ fst r1 = Raise (AttributeError "socket" "port")
  /\ attr_of (snd r1) 6%nat "_listener" = Some VNone
  /\ attr_of (snd r1) 6%nat "_conn" = Some VNone
  /\ attr_of (snd r1) 5%nat "_socketv" = Some (VList [VNone; VRef 6%nat])
  /\ table_ok (snd r1) 5%nat = false
  /\ r2 = (Ok tt, snd r1).
Proof. vm_compute. repeat split. Qed.

(** C1: the table of a listening host is in order; after [accept] has
    returned the connection, the socket it allocated sits in slot 2 with
    [_conn] and [_listener] both [None], because [accept] stores the
    connection under [sk.conn] where [dial] stores it under [sk._conn],
    and the invariant of the table no longer holds. *)
Theorem accept_leaves_socket_empty :
  let r := accept_one listening_world in
  table_ok listening_world 5%nat = true
  /\ fst r = Ok 10%nat
  /\ attr_of (snd r) 5%nat "_socketv" = Some (VList [VNone; VRef 6%nat; VRef 9%nat])
  /\ attr_of (snd r) 10%nat "_socket" = Some (VRef 9%nat)
  /\ attr_of (snd r) 9%nat "_port" = Some (VInt 2)
  /\ attr_of (snd r) 9%nat "_conn" = Some VNone
  /\ attr_of (snd r) 9%nat "_listener" = Some VNone
  /\ attr_of (snd r) 9%nat "conn" = Some (VRef 10%nat)
  /\ table_ok (snd r) 5%nat = false.
Proof. vm_compute. repeat split. Qed.

(** ** The scenario of the test suite *)

(** The model gives what [lonet_test.py] asserts: the dials before and
    after the first [listen] are refused with source ports 1 and 2, the
    listeners get [a:1] and [a:4], and the connections join [b:1] with
    [a:2] and [b:2] with [a:3]; nothing is logged as an error. *)
Lemma test_virtnet_basic_passes :
  let a := mkAddr "lonetX" "a" in
  let b := mkAddr "lonetX" "b" in
  let r := test_virtnet_basic empty_world in
  fst r = Ok ([Some (Error "dial lonetX a:1->a:0" (Some ErrConnRefused));
               Some (Error "dial lonetX a:2->a:0" (Some ErrConnRefused))],
              [a 1; a 4],
              [(b 1, a 2); (a 2, b 1); (b 2, a 3); (a 3, b 2)])
  /\ xerr.cause (Error "dial lonetX a:1->a:0" (Some ErrConnRefused)) = ErrConnRefused
  /\ xerr.Error_str (Error "dial lonetX a:1->a:0" (Some ErrConnRefused))
     = Some "dial lonetX a:1->a:0: [Errno 111] connection refused"
  /\ errlog (snd r) = [].
Proof. vm_compute. repeat split. Qed.

(** * More properties *)

(** ** xerr *)

(** The cause of an error is the end of its chain of contexts: it is not
    an [Error] that has a cause itself, taking the cause again changes
    nothing, and a context put around an error leaves its cause as it
    was. *)
Theorem cause_is_deepest (e : exc) :
  (forall err c, xerr.cause e <> Error err (Some c))
  /\ xerr.cause (xerr.cause e) = xerr.cause e
  /\ (forall errprefix, xerr.cause (Error errprefix (Some e)) = xerr.cause e).
Proof.
  split; [|split]; [| |reflexivity].
  - revert e. fix IH 1. intros e err c.
    destruct e as [| | | | | | | | | | | | | | | | | | err' [c'|] |]; try discriminate.
    exact (IH c' err c).
  - revert e. fix IH 1. intros e.
    destruct e as [| | | | | | | | | | | | | | | | | | err' [c'|] |]; try reflexivity.
    exact (IH c').
Qed.

(** [with errctx(prefix)] wraps an exception in an [Error] that is well
    defined and has the same cause; over a well-defined cause its text is
    the prefix, [": "] and the text of what it wraps. *)
Theorem errctx_keeps_cause {S A} (errprefix : string) (m : M S A) (s s' : S) (e : exc) :
  m s = (Raise e, s') ->
  exists e' : exc,
    errctx errprefix m s = (Raise e', s')
    /\ xerr.cause e' = xerr.cause e
    /\ xerr.well_defined e' = true
    /\ (forall text, xerr.well_defined (xerr.cause e) = true ->
          xerr.Error_str e = Some text ->
          xerr.Error_str e' = Some (errprefix +:+ ": " +:+ text)).
Proof.
  intros H. exists (Error errprefix (Some e)).
  unfold errctx, try_except. rewrite H. repeat split.
  intros text _ Ht. cbn [xerr.Error_str]. now rewrite Ht.
Qed.

Lemma errctx_keeps_cause_witness :
  exists e' : exc,
    errctx "listen lonetX :1" (raise (S := unit) (A := unit) ErrAddrAlreadyUsed) tt
    = (Raise e', tt)
    /\ xerr.cause e' = ErrAddrAlreadyUsed
    /\ xerr.Error_str e' = Some "listen lonetX :1: [Errno 98] address already in use".
Proof.
  destruct (errctx_keeps_cause "listen lonetX :1"
              (raise (S := unit) (A := unit) ErrAddrAlreadyUsed) tt tt
              ErrAddrAlreadyUsed eq_refl) as (e' & H1 & H2 & _ & H4).
  exists e'. repeat split; [exact H1 | exact H2 | now apply H4].
Defined.

(** ** The handshake between dialer and acceptor *)

Section Lines.

Lemma has_char_app (c : ascii) (a b : string) :
  has_char c (a +:+ b) = has_char c a || has_char c b.
Proof.
  induction a as [|x a IH]; [reflexivity|].
  rewrite str_app_cons. cbn [has_char]. now rewrite IH, orb_assoc.
Qed.

Lemma qq_byte_no_newline (c : ascii) : has_char nl (qq_byte c) = false.
Proof. destruct c as [[] [] [] [] [] [] [] []]; reflexivity. Qed.

Lemma qq_body_no_newline (s : string) : has_char nl (qq_body s) = false.
Proof.
  induction s as [|c s IH]; [reflexivity|].
  now rewrite qq_body_cons, has_char_app, qq_byte_no_newline, IH.
Qed.

Lemma qq_no_newline (s : string) : has_char nl (qq s) = false.
Proof.
  unfold qq. cbn [has_char]. rewrite has_char_app, qq_body_no_newline. reflexivity.
Qed.

Lemma last_char_app (a b : string) :
  b <> EmptyString -> last_char (a +:+ b) = last_char b.
Proof.
  intros Hb. induction a as [|x a IH]; [reflexivity|].
  rewrite str_app_cons. cbn [last_char]. rewrite IH.
  destruct (a +:+ b) eqn:E; [|reflexivity].
  destruct a; [now destruct b | discriminate].
Qed.

Lemma last_char_in (c : ascii) (s : string) :
  last_char s = Some c -> has_char c s = true.
Proof.
  induction s as [|x s IH]; [discriminate|]. cbn [last_char has_char].
  destruct s as [|y s].
  - intros [= ->]. now rewrite Ascii.eqb_refl.
  - intros H. rewrite (IH H). apply orb_true_r.
Qed.

Lemma uint_no_backslash (u : Decimal.uint) :
  has_char bs (NilEmpty.string_of_uint u) = false.
Proof. induction u; simpl; auto. Qed.

Lemma fmt_d_no_backslash (z : Z) : has_char bs (fmt_d z) = false.
Proof.
  unfold fmt_d. destruct z as [|p|p]; cbn [Z.to_int NilZero.string_of_int];
    try reflexivity; unfold NilZero.string_of_uint.
  - destruct (Pos.to_uint p) eqn:E; try reflexivity; rewrite <- E; apply uint_no_backslash.
  - cbn [has_char]. change (Ascii.eqb "-" bs) with false. cbn [orb].
    destruct (Pos.to_uint p) eqn:E; try reflexivity; rewrite <- E; apply uint_no_backslash.
Qed.

Lemma fmt_d_nonempty (z : Z) : fmt_d z <> EmptyString.
Proof.
  unfold fmt_d. destruct z as [|p|p]; cbn [Z.to_int NilZero.string_of_int];
    try discriminate.
  unfold NilZero.string_of_uint. destruct (Pos.to_uint p); discriminate.
Qed.

(** The text of an address is never empty and ends in a digit. *)
Lemma addrstr4_plain (h : string) (p : Z) : plain (addrstr4 h p).
Proof.
  unfold addrstr4. split.
  - destruct h; discriminate.
  - rewrite last_char_app by discriminate.
    change (":" +:+ fmt_d p) with (String ":" (fmt_d p)).
    change (String ":" (fmt_d p)) with (":" +:+ fmt_d p).
    rewrite last_char_app by apply fmt_d_nonempty.
    intros H%last_char_in. now rewrite fmt_d_no_backslash in H.
Qed.

(** [skreadline] on a stream that starts with a whole line within the
    bound. *)
Lemma skreadline_line (maxlen : Z) (pre rest : string) :
  has_char nl pre = false ->
  Z.of_nat (String.length (pre +:+ eol)) <= maxlen ->
  skreadline maxlen ((pre +:+ eol) +:+ rest) = (Ok (pre +:+ eol), rest).
Proof.
  intros Hnl Hlen. rewrite str_length_app in Hlen. cbn [String.length eol] in Hlen.
  unfold skreadline. rewrite str_app_assoc.
  change (eol +:+ rest) with (String nl rest).
  rewrite loop_newline; [reflexivity | assumption | simpl; lia | lia].
Qed.

Lemma dial_line_split (network src dst : string) :
  dial_line network src dst
  = ("> lonet " +:+ qq network +:+ " dial " +:+ qq src +:+ " " +:+ qq dst) +:+ eol
  /\ has_char nl ("> lonet " +:+ qq network +:+ " dial " +:+ qq src +:+ " " +:+ qq dst)
     = false.
Proof.
  split.
  - unfold dial_line. now rewrite !str_app_assoc.
  - now rewrite !has_char_app, !qq_no_newline.
Qed.

Lemma reply_line_split (network verb arg : string) :
  has_char nl verb = false ->
  reply_line network (verb +:+ " " +:+ qq arg)
  = ("< lonet " +:+ qq network +:+ " " +:+ verb +:+ " " +:+ qq arg) +:+ eol
  /\ has_char nl ("< lonet " +:+ qq network +:+ " " +:+ verb +:+ " " +:+ qq arg) = false.
Proof.
  intros Hv. split.
  - unfold reply_line. now rewrite !str_app_assoc.
  - now rewrite !has_char_app, !qq_no_newline, Hv.
Qed.

End Lines.
Section Dialer.

Variables (network : string) (src dst : Addr).
Hypothesis Hnet : plain network.

Lemma loconnect_reply_E_run (network' arg : string) (rest : stream) :
  plain network' -> plain arg ->
  Z.of_nat (String.length (E_reply network' arg)) <= 1024 ->
  _SubNetwork___loconnect network src dst (E_reply network' arg +:+ rest)
  = (Raise (if String.eqb arg "connection refused" then ErrConnRefused
            else Error arg None), rest).
Proof.
  intros Hn' Ha Hlen. unfold E_reply in *.
  change ("E " +:+ qq arg) with ("E" +:+ " " +:+ qq arg) in *.
  pose proof (match_reply_line network' "E" arg Hn' Ha ltac:(discriminate) eq_refl) as Hm.
  destruct (reply_line_split network' "E" arg eq_refl) as [Hl Hnl].
  rewrite Hl in *.
  unfold _SubNetwork___loconnect. unfold bind at 1.
  rewrite skreadline_line by assumption. rewrite Hm.
  cbn [re.group String.eqb Ascii.eqb Bool.eqb].
  unfold bind, lift. rewrite !decode_qq_body.
  now destruct (String.eqb arg "connection refused").
Qed.

Lemma loconnect_reply_connected_run (arg : string) (rest : stream) :
  plain arg ->
  Z.of_nat (String.length (connected_reply network arg)) <= 1024 ->
  _SubNetwork___loconnect network src dst (connected_reply network arg +:+ rest)
  = match Addr_parse network arg with
    | Ok acceptAddr =>
        if String.eqb (host acceptAddr) (host dst) then (Ok acceptAddr, rest)
        else (Raise (protocolError
                ("connected, but accept address is for different host: "
                 +:+ qq (host acceptAddr))), rest)
    | Raise _ => (Raise (UnboundLocalError "acceptAddr"), rest)
    | Stuck y => (Stuck y, rest)
    end.
Proof.
  intros Ha Hlen. unfold connected_reply in *.
  change ("connected " +:+ qq arg) with ("connected" +:+ " " +:+ qq arg) in *.
  pose proof (match_reply_line network "connected" arg Hnet Ha ltac:(discriminate) eq_refl) as Hm.
  destruct (reply_line_split network "connected" arg eq_refl) as [Hl Hnl].
  rewrite Hl in *.
  unfold _SubNetwork___loconnect. unfold bind at 1.
  rewrite skreadline_line by assumption. rewrite Hm.
  cbn [re.group String.eqb Ascii.eqb Bool.eqb].
  unfold bind, lift. rewrite !decode_qq_body.
  cbn [negb]. rewrite String.eqb_refl. cbn [negb].
  unfold try_except, raise, ret.
  destruct (Addr_parse network arg) as [a| |]; try reflexivity.
  now destruct (String.eqb (host a) (host dst)).
Qed.

End Dialer.

Section Acceptor.

Variables (network : string) (vnet_accept : Addr -> Addr -> outcome Addr).
Hypothesis Hnet : plain network.

(** The request of a dialer on [network'] for [src] and [dst], as it
    arrives at the acceptor. *)
Lemma loaccept_request_run (network' src dst : string) (rest : stream) (c : wire) :
  plain network' -> plain src -> plain dst ->
  Z.of_nat (String.length (dial_line network' src dst)) <= 1024 ->
  wire_rx c = dial_line network' src dst +:+ rest ->
  wire_readline 1024 c
  = (Ok (dial_line network' src dst),
     mkWire rest (wire_tx c) (wire_tx_error c) (wire_closed c) (wire_acked c))
  /\ re.match_ _lodial_re (dial_line network' src dst)
     = Some [("dst", qq_body dst); ("src", qq_body src); ("network", qq_body network')].
Proof.
  intros Hn Hs Hd Hlen Hrx. split; [|now apply match_dial_line].
  unfold wire_readline. rewrite Hrx.
  destruct (dial_line_split network' src dst) as [Hl Hnl]. rewrite Hl in *.
  now rewrite skreadline_line.
Qed.

Lemma loaccept_run (src dst : Addr) (rest : stream) (c : wire) :
  has_char ":" (host src) = false -> has_char ":" (host dst) = false ->
  Z.of_nat (String.length (dial_line network (Addr_str src) (Addr_str dst))) <= 1024 ->
  wire_rx c = dial_line network (Addr_str src) (Addr_str dst) +:+ rest ->
  _SubNetwork___loaccept network vnet_accept c
  = errctx (Addr_str dst +:+ " <- " +:+ Addr_str src)
      (let* accept :=
         try_except
           (lift (vnet_accept (mkAddr network (host src) (port src))
                              (mkAddr network (host dst) (port dst))))
           (loaccept_ereply network) in
       try_except (loaccept_reply network ("connected " +:+ qq (Addr_str accept)))
         (fun e => ack_send (AckErr e) ;;; raise e) ;;;
       ack_send AckNone)
      (mkWire rest (wire_tx c) (wire_tx_error c) (wire_closed c) (wire_acked c)).
Proof.
  intros Hs Hd Hlen Hrx.
  destruct (loaccept_request_run network (Addr_str src) (Addr_str dst) rest c
              Hnet (addrstr4_plain _ _) (addrstr4_plain _ _) Hlen Hrx) as [Hread Hm].
  unfold _SubNetwork___loaccept. unfold bind at 1. rewrite Hread, Hm.
  cbn [re.group String.eqb Ascii.eqb Bool.eqb].
  unfold bind at 1. unfold lift at 1. rewrite decode_qq_body.
  unfold bind at 1. rewrite decode_qq_body.
  unfold bind at 1. rewrite decode_qq_body.
  rewrite String.eqb_refl. cbn [negb].
  unfold Addr_str. 
  unfold bind at 1. unfold try_except at 1. unfold lift at 1. rewrite Addr_parse_fmt by assumption.
  unfold bind at 1. unfold try_except at 1. unfold lift at 1. rewrite Addr_parse_fmt by assumption.
  reflexivity.
Qed.

End Acceptor.

Section Handshake.

Variables (network : string) (vnet_accept : Addr -> Addr -> outcome Addr).
Variables (src dst : Addr) (rest rest' : stream).
Hypothesis Hnet : plain network.
Hypothesis Hsrc : has_char ":" (host src) = false.
Hypothesis Hdst : has_char ":" (host dst) = false.
Hypothesis Hline :
  Z.of_nat (String.length (dial_line network (Addr_str src) (Addr_str dst))) <= 1024.

Let request : stream := dial_line network (Addr_str src) (Addr_str dst) +:+ rest.
Let asrc : Addr := mkAddr network (host src) (port src).
Let adst : Addr := mkAddr network (host dst) (port dst).

(** When the virtual network accepts the request that the dialer wrote,
    the acceptor answers and acknowledges with [None], and what it
    answered gives the dialer the accepting address, on the dialer's
    network, provided that address is on the host that was dialed;
    otherwise the dialer raises a protocol error although the acceptor
    has acknowledged. *)
Theorem handshake_accepted (accept : Addr) :
  has_char ":" (host accept) = false ->
  Z.of_nat (String.length (connected_reply network (Addr_str accept))) <= 1024 ->
  vnet_accept asrc adst = Ok accept ->
  exists reply,
    _SubNetwork__loaccept network vnet_accept (fresh_wire request)
    = (Ok tt, mkWire rest reply None false (Some AckNone))
    /\ _SubNetwork___loconnect network src dst (reply +:+ rest')
       = if String.eqb (host accept) (host dst)
         then (Ok (mkAddr network (host accept) (port accept)), rest')
         else (Raise (protocolError
                 ("connected, but accept address is for different host: "
                  +:+ qq (host accept))), rest').
Proof.
  intros Ha Hlen Hacc. exists (connected_reply network (Addr_str accept)). split.
  - unfold _SubNetwork__loaccept, errctx at 1. unfold try_except at 1 2.
    rewrite (loaccept_run network vnet_accept Hnet src dst rest) by (assumption || reflexivity).
    fold asrc adst. unfold errctx, try_except at 1, bind at 1, try_except at 1, lift.
    rewrite Hacc. reflexivity.
  - rewrite (loconnect_reply_connected_run network src dst Hnet (Addr_str accept) rest'
               (addrstr4_plain _ _) Hlen).
    unfold Addr_str. rewrite Addr_parse_fmt by assumption. reflexivity.
Qed.

(** When the virtual network refuses the request with [err], the acceptor
    answers with the text of [err], closes the connection without any
    acknowledgement and raises [err] in the context of the request ([err]
    itself under "BUG" when it is not well defined); from that answer the
    dialer raises [ErrConnRefused] for "connection refused" and an
    [Error] with the text otherwise. *)
Theorem handshake_refused (err : exc) (text : string) :
  vnet_accept asrc adst = Raise err ->
  ereply_text err = Some text ->
  plain text ->
  Z.of_nat (String.length (E_reply network text)) <= 1024 ->
  exists reply,
    _SubNetwork__loaccept network vnet_accept (fresh_wire request)
    = (Raise (Error "loaccept"
               (Some (Error (Addr_str dst +:+ " <- " +:+ Addr_str src)
                  (Some (if xerr.well_defined err then err
                         else Error "BUG" (Some err)))))),
       mkWire rest reply None true None)
    /\ _SubNetwork___loconnect network src dst (reply +:+ rest')
       = (Raise (if String.eqb text "connection refused" then ErrConnRefused
                 else Error text None), rest').
Proof.
  intros Hacc Htext Hplain Hlen. exists (E_reply network text). split.
  - unfold _SubNetwork__loaccept, errctx at 1. unfold try_except at 1 2.
    rewrite (loaccept_run network vnet_accept Hnet src dst rest) by (assumption || reflexivity).
    fold asrc adst. unfold errctx, try_except at 1, bind at 1, try_except at 1, lift.
    rewrite Hacc. unfold loaccept_ereply. rewrite Htext.
    unfold bind at 1. unfold ret at 1. unfold bind at 1.
    unfold loaccept_reply, sendall. cbn [wire_tx_error wire_tx wire_rx wire_closed wire_acked fresh_wire].
    unfold raise, wire_close, bind. cbn.
    now destruct (xerr.well_defined err).
  - now apply loconnect_reply_E_run.
Qed.

End Handshake.

Section AcceptorOutcome.

Variables (network : string) (vnet_accept : Addr -> Addr -> outcome Addr).




End AcceptorOutcome.

Lemma handshake_accepted_witness :
  exists reply,
    _SubNetwork__loaccept "net1" (accept_on 2)
      (fresh_wire (dial_line "net1" "a:1" "b:1" +:+ EmptyString))
    = (Ok tt, mkWire EmptyString reply None false (Some AckNone))
    /\ _SubNetwork___loconnect "net1" (mkAddr "net1" "a" 1) (mkAddr "net1" "b" 1)
         (reply +:+ EmptyString)
       = (Ok (mkAddr "net1" "b" 2), EmptyString).
Proof.
  apply (handshake_accepted "net1" (accept_on 2) (mkAddr "net1" "a" 1)
           (mkAddr "net1" "b" 1) EmptyString EmptyString
           ltac:(split; discriminate) eq_refl eq_refl ltac:(now vm_compute)
           (mkAddr "net1" "b" 2));
    try reflexivity; try (split; discriminate); now vm_compute.
Defined.

Lemma handshake_refused_witness :
  exists reply,
    _SubNetwork__loaccept "net1" (refuse_with ErrConnRefused)
      (fresh_wire (dial_line "net1" "a:1" "b:1" +:+ EmptyString))
    = (Raise (Error "loaccept" (Some (Error "b:1 <- a:1" (Some ErrConnRefused)))),
       mkWire EmptyString reply None true None)
    /\ _SubNetwork___loconnect "net1" (mkAddr "net1" "a" 1) (mkAddr "net1" "b" 1)
         (reply +:+ EmptyString)
       = (Raise ErrConnRefused, EmptyString).
Proof.
  apply (handshake_refused "net1" (refuse_with ErrConnRefused) (mkAddr "net1" "a" 1)
           (mkAddr "net1" "b" 1) EmptyString EmptyString
           ltac:(split; discriminate) eq_refl eq_refl ltac:(now vm_compute)
           ErrConnRefused "connection refused");
    try reflexivity; try (split; discriminate); now vm_compute.
Defined.

(** A request from a dialer on another network is answered with a
    protocol error, without asking the virtual network, and the
    connection is closed; the dialer, which does not compare the network
    of an error answer, raises an [Error] with that text. *)
Theorem loaccept_network_mismatch (network network' src dst : string)
  (vnet_accept : Addr -> Addr -> outcome Addr) (rest rest' : stream) :
  plain network -> plain network' -> network' <> network ->
  plain src -> plain dst ->
  Z.of_nat (String.length (dial_line network' src dst)) <= 1024 ->
  Z.of_nat (String.length (E_reply network "protocol error: network mismatch")) <= 1024 ->
  exists reply,
    _SubNetwork__loaccept network vnet_accept
      (fresh_wire (dial_line network' src dst +:+ rest))
    = (Raise (Error "loaccept"
               (Some (protocolError ("network mismatch: " +:+ qq network')))),
       mkWire rest reply None true None)
    /\ forall asrc adst,
         _SubNetwork___loconnect network' asrc adst (reply +:+ rest')
         = (Raise (Error "protocol error: network mismatch" None), rest').
Proof.
  intros Hn Hn' Hne Hs Hd Hlen Hlen'.
  exists (E_reply network "protocol error: network mismatch"). split.
  - destruct (loaccept_request_run network' src dst rest
                (fresh_wire (dial_line network' src dst +:+ rest)) Hn' Hs Hd Hlen eq_refl)
      as [Hread Hm].
    unfold _SubNetwork__loaccept, errctx at 1. unfold try_except at 1 2.
    unfold _SubNetwork___loaccept. unfold bind at 1. rewrite Hread, Hm.
    cbn [re.group String.eqb Ascii.eqb Bool.eqb].
    unfold bind at 1. unfold lift at 1. rewrite decode_qq_body.
    unfold bind at 1. rewrite decode_qq_body.
    unfold bind at 1. rewrite decode_qq_body.
    destruct (String.eqb_spec network' network) as [|_]; [contradiction|]. cbn [negb].
    reflexivity.
  - intros asrc adst.
    now rewrite (loconnect_reply_E_run network' asrc adst network
                   "protocol error: network mismatch" rest' Hn ltac:(split; discriminate) Hlen').
Qed.

Lemma loaccept_network_mismatch_witness :
  exists reply,
    _SubNetwork__loaccept "net1" (accept_on 2)
      (fresh_wire (dial_line "net2" "a:1" "b:1" +:+ EmptyString))
    = (Raise (Error "loaccept"
               (Some (protocolError ("network mismatch: " +:+ qq "net2")))),
       mkWire EmptyString reply None true None)
    /\ forall asrc adst,
         _SubNetwork___loconnect "net2" asrc adst (reply +:+ EmptyString)
         = (Raise (Error "protocol error: network mismatch" None), EmptyString).
Proof.
  apply (loaccept_network_mismatch "net1" "net2" "a:1" "b:1" (accept_on 2)
           EmptyString EmptyString);
    try (split; discriminate); try discriminate; now vm_compute.
Defined.

(** A "connected" answer whose address does not parse makes the dialer
    raise [UnboundLocalError]: the handler of the [ValueError] quotes
    [acceptAddr], which has no value then. *)
Theorem loconnect_invalid_accept_address (network : string) (src dst : Addr)
  (arg : string) (rest : stream) (e : exc) :
  plain network -> plain arg ->
  Z.of_nat (String.length (connected_reply network arg)) <= 1024 ->
  Addr_parse network arg = Raise e ->
  _SubNetwork___loconnect network src dst (connected_reply network arg +:+ rest)
  = (Raise (UnboundLocalError "acceptAddr"), rest).
Proof.
  intros Hn Ha Hlen Hp.
  now rewrite (loconnect_reply_connected_run network src dst Hn arg rest Ha Hlen), Hp.
Qed.

Lemma loconnect_invalid_accept_address_witness :
  _SubNetwork___loconnect "net1" (mkAddr "net1" "a" 1) (mkAddr "net1" "b" 1)
    (connected_reply "net1" "b" +:+ EmptyString)
  = (Raise (UnboundLocalError "acceptAddr"), EmptyString).
Proof.
  apply (loconnect_invalid_accept_address "net1" (mkAddr "net1" "a" 1)
           (mkAddr "net1" "b" 1) "b" EmptyString (invalid_addr "b"));
    try (split; discriminate); now vm_compute.
Defined.

Lemma handshake_roundtrip_witness :
  loaccept_parse (dial_line "net1" "a:1" "b:1") = Ok ("net1", "a:1", "b:1")
  /\ loconnect_parse (connected_reply "net1" "b:2") = Ok ("net1", "connected", "b:2")
  /\ loconnect_parse (E_reply "net1" "b:2") = Ok ("net1", "E", "b:2").
Proof.
  apply (handshake_roundtrip "net1" "a:1" "b:1" "b:2"); split; discriminate.
Defined.


(** ** Registry: opening and closing *)

Section RegistryOpen.

Implicit Types (w : world) (o r pool : loc) (name : string) (v : pyval).

Lemma cls_of_with_attr w o name v o' :
  cls_of (with_attr o name v w) o' = cls_of w o'.
Proof.
  unfold with_attr, cls_of. destruct (heap w !! o) as [ob|] eqn:E; [|reflexivity].
  simpl. destruct (decide (o = o')) as [<-|Ho].
  - rewrite list_lookup_insert_eq by (now apply lookup_lt_Some in E). now rewrite E.
  - now rewrite list_lookup_insert_ne.
Qed.

Lemma cls_of_with_obj_new w c items :
  cls_of (with_obj c items w) (length (heap w)) = Some c.
Proof.
  unfold with_obj, cls_of. simpl. rewrite lookup_app_r by lia.
  now rewrite Nat.sub_diag.
Qed.

Lemma cls_of_with_obj_old w c items o :
  (o < length (heap w))%nat -> cls_of (with_obj c items w) o = cls_of w o.
Proof. intros H. unfold with_obj, cls_of. simpl. now rewrite lookup_app_l. Qed.

Lemma cls_of_set_file w d o : cls_of (set_file d w) o = cls_of w o.
Proof. reflexivity. Qed.

Lemma attr_of_set_file w d o name : attr_of (set_file d w) o name = attr_of w o name.
Proof. reflexivity. Qed.

(** An attribute that the class statement defines, read through an
    instance that does not set it. *)
Lemma getattr_class_run w o c name v :
  cls_of w o = Some c -> attr_of w o name = None -> class_attr c name = Some v ->
  getattr o name w = (Ok v, w).
Proof.
  unfold cls_of, attr_of, getattr. destruct (heap w !! o) as [ob|]; [|discriminate].
  simpl. intros [= <-] -> ->. reflexivity.
Qed.

Lemma config_run w r conn name :
  SQLiteRegistry._config r conn name w = (Ok (stored (file w) name), w).
Proof.
  unfold SQLiteRegistry._config, errctx, try_except, bind, select_meta_value, stored.
  now destruct (meta (file w) !! name).
Qed.

Lemma stored_stamped (d : database) (name value : string) :
  stored (stamped name value d) name
  = if String.eqb (stored d name) EmptyString then value else stored d name.
Proof.
  unfold stamped. destruct (String.eqb (stored d name) EmptyString) eqn:E; [|reflexivity].
  unfold stored. cbn [meta]. now rewrite lookup_insert_eq.
Qed.

Lemma stored_stamped_ne (d : database) (name name' value : string) :
  name <> name' -> stored (stamped name value d) name' = stored d name'.
Proof.
  intros Hne. unfold stamped. destruct (String.eqb (stored d name) EmptyString); [|reflexivity].
  unfold stored. cbn [meta]. now rewrite lookup_insert_ne.
Qed.

(** [ver = r._config(conn, name); if ver == "": ...set_config(name, value)] *)
Lemma config_or_set_run w r conn name value :
  (let* ver := SQLiteRegistry._config r conn name in
   if String.eqb ver EmptyString then
     SQLiteRegistry._set_config r conn name value ;;; ret value
   else ret ver) w
  = (Ok (stored (stamped name value (file w)) name),
     set_file (stamped name value (file w)) w).
Proof.
  unfold bind at 1. rewrite config_run, stored_stamped. unfold stamped.
  destruct (String.eqb (stored (file w) name) EmptyString); [reflexivity|].
  unfold ret. now rewrite set_file_id.
Qed.

End RegistryOpen.
Section RegistryNew.

Variables (w : world) (dburi network : string).

Let r : loc := length (heap w).
Let pool : loc := S (length (heap w)).
Let w4 : world :=
  with_attr r "_dbpool" (VRef pool)
    (with_obj "DBPool"
       [("_factory", VOpaque "factory"); ("_lock", VOpaque "Lock"); ("_connv", VList [])]
       (with_attr r "uri" (VStr dburi) (with_obj "SQLiteRegistry" [] w))).

Lemma new_world_facts :
  (r < length (heap w4))%nat /\ (pool < length (heap w4))%nat
  /\ cls_of w4 r = Some "SQLiteRegistry"
  /\ attr_of w4 r "uri" = Some (VStr dburi)
  /\ attr_of w4 r "_dbpool" = Some (VRef pool)
  /\ attr_of w4 r "schema_ver" = None
  /\ attr_of w4 pool "_factory" = Some (VOpaque "factory")
  /\ attr_of w4 pool "_connv" = Some (VList [])
  /\ file w4 = file w
  /\ old_attrs_kept w w4.
Proof.
  unfold w4.
  set (w1 := with_obj "SQLiteRegistry" [] w).
  set (w2 := with_attr r "uri" (VStr dburi) w1).
  set (w3 := with_obj "DBPool" _ w2).
  assert (L1 : length (heap w1) = S r) by apply heap_with_obj_length.
  assert (L2 : length (heap w2) = S r) by (unfold w2; now rewrite heap_with_attr_length).
  assert (L3 : length (heap w3) = S (S r)) by (unfold w3; now rewrite heap_with_obj_length, L2).
  assert (L4 : length (heap (with_attr r "_dbpool" (VRef pool) w3)) = S (S r))
    by now rewrite heap_with_attr_length.
  assert (P : pool = length (heap w2)) by (now rewrite L2).
  repeat split.
  - lia.
  - unfold pool, r in *. lia.
  - rewrite cls_of_with_attr. unfold w3. rewrite cls_of_with_obj_old by lia.
    unfold w2. rewrite cls_of_with_attr. apply cls_of_with_obj_new.
  - rewrite attr_of_with_attr_ne by (right; discriminate).
    unfold w3. rewrite attr_of_with_obj_old by lia.
    apply attr_of_with_attr_eq. lia.
  - apply attr_of_with_attr_eq. lia.
  - rewrite attr_of_with_attr_ne by (right; discriminate).
    unfold w3. rewrite attr_of_with_obj_old by lia.
    unfold w2. rewrite attr_of_with_attr_ne by (right; discriminate).
    unfold w1, r. now rewrite attr_of_with_obj_new.
  - rewrite attr_of_with_attr_ne by (left; unfold pool, r; lia).
    unfold w3. rewrite P. now rewrite attr_of_with_obj_new.
  - rewrite attr_of_with_attr_ne by (left; unfold pool, r; lia).
    unfold w3. rewrite P. now rewrite attr_of_with_obj_new.
  - rewrite file_with_attr. unfold w3, with_obj. cbn [file set_heap].
    unfold w2. now rewrite file_with_attr.
  - intros o name Ho.
    rewrite attr_of_with_attr_ne by (left; unfold r; lia).
    unfold w3. rewrite attr_of_with_obj_old by lia.
    unfold w2. rewrite attr_of_with_attr_ne by (left; unfold r; lia).
    unfold w1. now rewrite attr_of_with_obj_old.
Qed.

Let d : database :=
  stamped "network" network (stamped "schemaver" "lonet.1" (file w)).
Let w5 : world :=
  with_attr pool "_connv" (VList [VOpaque "sqlite3.Connection"]) (set_file d w4).

Lemma get_fresh_run : DBPool.get pool w4 = (Ok (VOpaque "sqlite3.Connection"), w4).
Proof.
  destruct new_world_facts as (_ & _ & _ & _ & _ & _ & Hf & Hc & _).
  unfold DBPool.get, bind. rewrite (getattr_run _ _ _ _ Hf). cbn [is_None].
  now rewrite (getattr_list_run _ _ _ _ Hc).
Qed.

Lemma put_fresh_run (d' : database) :
  DBPool.put pool (VOpaque "sqlite3.Connection") (set_file d' w4)
  = (Ok tt, with_attr pool "_connv" (VList [VOpaque "sqlite3.Connection"]) (set_file d' w4)).
Proof.
  destruct new_world_facts as (_ & Hp & _ & _ & _ & _ & Hf & Hc & _).
  unfold DBPool.put, bind.
  rewrite (getattr_run (set_file d' w4) _ _ _ Hf). cbn [is_None negb].
  unfold list_append, bind. rewrite (getattr_list_run (set_file d' w4) _ _ _ Hc).
  now rewrite setattr_run.
Qed.

Lemma schema_ver_run (d' : database) :
  getattr_str r "schema_ver" (set_file d' w4) = (Ok "lonet.1", set_file d' w4).
Proof.
  destruct new_world_facts as (_ & _ & Hcls & _ & _ & Hsv & _).
  unfold getattr_str, bind.
  now rewrite (getattr_class_run (set_file d' w4) r "SQLiteRegistry" "schema_ver"
                 (VStr "lonet.1") Hcls Hsv eq_refl).
Qed.

Lemma setup_run :
  stored (file w) "schemaver" = EmptyString \/ stored (file w) "schemaver" = "lonet.1" ->
  SQLiteRegistry._setup r network w4
  = (if String.eqb (stored d "network") network then Ok tt
     else Raise (Error ("setup " +:+ qq network)
                   (Some (Error ("network name mismatch: want " +:+ qq network
                                 +:+ "; have " +:+ qq (stored d "network")) None))),
     w5).
Proof.
  intros Hver.
  destruct new_world_facts as (_ & Hp & Hcls & _ & Hpool & Hsv & Hf & Hc & Hfile & _).
  unfold SQLiteRegistry._setup, errctx. unfold try_except at 1. unfold bind at 1.
  rewrite (getattr_ref_run _ _ _ _ Hpool).
  unfold DBPool.with_xget. unfold bind at 1. rewrite get_fresh_run. unfold defer.
  set (d1 := stamped "schemaver" "lonet.1" (file w)).
  assert (Hw4 : w4 = set_file (file w) w4) by (now rewrite <- Hfile, set_file_id).
  assert (H1 : (let* ver := SQLiteRegistry._config r (VOpaque "sqlite3.Connection") "schemaver" in
                if String.eqb ver EmptyString then
                  let* ver0 := getattr_str r "schema_ver" in
                  SQLiteRegistry._set_config r (VOpaque "sqlite3.Connection") "schemaver" ver0 ;;;
                  ret ver0
                else ret ver) w4 = (Ok "lonet.1", set_file d1 w4)).
  { unfold bind at 1. rewrite config_run, Hfile. unfold d1, stamped.
    destruct Hver as [-> | ->]; cbn [String.eqb Ascii.eqb Bool.eqb].
    - unfold bind at 1. rewrite Hw4 at 1. rewrite schema_ver_run. rewrite <- Hw4.
      unfold SQLiteRegistry._set_config, errctx, try_except, bind, insert_or_replace_meta, ret.
      now rewrite Hfile.
    - unfold ret. now rewrite <- Hw4. }
  unfold bind at 1.
  unfold bind at 1 in H1. unfold bind at 1.
  destruct (SQLiteRegistry._config r (VOpaque "sqlite3.Connection") "schemaver" w4)
    as [[ver| |] w'] eqn:Hcfg; try discriminate.
  rewrite H1. clear H1 Hcfg.
  unfold bind at 1. rewrite schema_ver_run. cbn [String.eqb Ascii.eqb Bool.eqb negb].
  unfold bind at 1. unfold ret at 1.
  unfold bind at 1. rewrite config_run. cbn [file set_file].
  unfold bind at 1.
  assert (H2 : (if String.eqb (stored d1 "network") EmptyString
                then SQLiteRegistry._set_config r (VOpaque "sqlite3.Connection")
                       "network" network ;;; ret network
                else ret (stored d1 "network")) (set_file d1 w4)
               = (Ok (stored d "network"), set_file d w4)).
  { unfold d. fold d1. rewrite stored_stamped. unfold stamped.
    destruct (String.eqb (stored d1 "network") EmptyString) eqn:E.
    - unfold SQLiteRegistry._set_config, errctx, try_except, bind, insert_or_replace_meta, ret.
      reflexivity.
    - unfold ret. now destruct w4. }
  rewrite H2. clear H2.
  destruct (String.eqb (stored d "network") network); cbn [negb];
    unfold raise, ret; now rewrite put_fresh_run.
Qed.

Lemma new_run :
  stored (file w) "schemaver" = EmptyString \/ stored (file w) "schemaver" = "lonet.1" ->
  SQLiteRegistry.new dburi network w
  = (if String.eqb (stored d "network") network then Ok r
     else Raise (RegistryError
                   (Error ("setup " +:+ qq network)
                      (Some (Error ("network name mismatch: want " +:+ qq network
                                    +:+ "; have " +:+ qq (stored d "network")) None)))
                   dburi "__init__" [dburi; network]),
     w5).
Proof.
  intros Hver.
  destruct new_world_facts as (Hr & Hp & _ & Huri & _).
  unfold SQLiteRegistry.new. unfold bind at 1. rewrite new_obj_run. fold r.
  unfold bind at 1. unfold _regerr. unfold try_except at 1. unfold bind at 1.
  rewrite setattr_run by (rewrite heap_with_obj_length; unfold r; lia).
  unfold bind at 1. unfold DBPool.new. rewrite new_obj_run.
  assert (Hpool : length (heap (with_attr r "uri" (VStr dburi)
                                  (with_obj "SQLiteRegistry" [] w))) = pool)
    by (now rewrite heap_with_attr_length, heap_with_obj_length).
  rewrite Hpool. unfold bind at 1.
  rewrite setattr_run
    by (rewrite heap_with_obj_length, heap_with_attr_length, heap_with_obj_length;
        unfold r; lia).
  fold w4. rewrite (setup_run Hver).
  destruct (String.eqb (stored d "network") network); [reflexivity|].
  cbn [xerr.well_defined negb]. unfold bind.
  assert (Hu : attr_of w5 r "uri" = Some (VStr dburi)).
  { unfold w5. rewrite attr_of_with_attr_ne by (right; discriminate). exact Huri. }
  now rewrite (getattr_str_run _ _ _ _ Hu).
Qed.

Lemma new_world_open : registry_open w5 r dburi /\ file w5 = d /\ old_attrs_kept w w5.
Proof.
  destruct new_world_facts as (Hr & Hp & _ & Huri & Hpool & _ & Hf & Hc & _ & Hold).
  unfold w5. repeat split.
  - exists pool. repeat split.
    + rewrite attr_of_with_attr_ne by (right; discriminate). exact Huri.
    + rewrite attr_of_with_attr_ne by (right; discriminate). exact Hpool.
    + exists (VOpaque "factory"), [VOpaque "sqlite3.Connection"]. repeat split.
      * rewrite attr_of_with_attr_ne by (right; discriminate). exact Hf.
      * now apply attr_of_with_attr_eq.
  - now rewrite file_with_attr.
  - intros o name Ho. rewrite attr_of_with_attr_ne by (left; unfold pool; lia).
    now apply Hold.
Qed.

End RegistryNew.

Lemma stored_after_setup (d : database) (network : string) :
  stored (stamped "network" network (stamped "schemaver" "lonet.1" d)) "network"
  = if String.eqb (stored d "network") EmptyString then network else stored d "network".
Proof. now rewrite stored_stamped, stored_stamped_ne. Qed.

(** Opening a registry on a file with no schema version or the current one:
    the version and, when no network name is stored, the name given are
    written; the open succeeds when the name then stored is the one given,
    and raises [RegistryError] with the network name mismatch otherwise.
    The hosts in the file and the objects that exist are left as they
    were. *)
Theorem registry_new_checks_network (w : world) (dburi network : string) :
  stored (file w) "schemaver" = EmptyString \/ stored (file w) "schemaver" = "lonet.1" ->
  let have := stored (file w) "network" in
  let ok := String.eqb have EmptyString || String.eqb have network in
  exists w',
    SQLiteRegistry.new dburi network w
    = (if ok then Ok (length (heap w))
       else Raise (RegistryError
                     (Error ("setup " +:+ qq network)
                        (Some (Error ("network name mismatch: want " +:+ qq network
                                      +:+ "; have " +:+ qq have) None)))
                     dburi "__init__" [dburi; network]),
       w')
    /\ file w' = stamped "network" network (stamped "schemaver" "lonet.1" (file w))
    /\ hosts (file w') = hosts (file w)
    /\ old_attrs_kept w w'
    /\ (ok = true -> registry_open w' (length (heap w)) dburi).
Proof.
  intros Hver have ok.
  destruct (new_world_open w dburi network) as (Hopen & Hfile & Hold).
  eexists. split; [|split; [exact Hfile|split; [|split; [exact Hold|intros _; exact Hopen]]]].
  - rewrite (new_run w dburi network Hver), stored_after_setup. fold have.
    unfold ok. destruct (String.eqb_spec have EmptyString) as [E|E]; cbn [orb].
    + now rewrite String.eqb_refl.
    + reflexivity.
  - rewrite Hfile. unfold stamped.
    now repeat match goal with |- context [if ?b then _ else _] => destruct b end.
Qed.

Lemma registry_new_checks_network_witness :
  exists w',
    SQLiteRegistry.new "/tmp/lonet/Y/registry.db" "Y" registry_world
    = (Raise (RegistryError
                (Error ("setup " +:+ qq "Y")
                   (Some (Error ("network name mismatch: want " +:+ qq "Y"
                                 +:+ "; have " +:+ qq "X") None)))
                "/tmp/lonet/Y/registry.db" "__init__" ["/tmp/lonet/Y/registry.db"; "Y"]),
       w')
    /\ file w' = file registry_world.
Proof.
  destruct (registry_new_checks_network registry_world "/tmp/lonet/Y/registry.db" "Y")
    as (w' & Hrun & Hfile & _); [right; reflexivity|].
  exists w'. split; [exact Hrun | exact Hfile].
Defined.

Section RegistryClosed.

Variables (w : world) (r : loc) (uri : string).
Hypothesis Hopen : registry_open w r uri.

Lemma close_run :
  exists pool w',
    SQLiteRegistry.close r w = (Ok tt, w')
    /\ file w' = file w
    /\ attr_of w' r "uri" = Some (VStr uri)
    /\ attr_of w' r "_dbpool" = Some (VRef pool)
    /\ attr_of w' pool "_factory" = Some VNone
    /\ attr_of w' pool "_connv" = Some (VList []).
Proof.
  destruct Hopen as (pool & Hu & Hp & factory & connv & Hf & _ & Hc).
  pose proof (attr_of_lt _ _ _ _ Hf) as Hlt.
  exists pool, (with_attr pool "_connv" (VList []) (with_attr pool "_factory" VNone w)).
  repeat split.
  - unfold SQLiteRegistry.close, bind. rewrite (getattr_ref_run _ _ _ _ Hp).
    unfold DBPool.close, bind. rewrite setattr_run by assumption.
    now rewrite setattr_run by (now rewrite heap_with_attr_length).
  - now rewrite !file_with_attr.
  - now rewrite !attr_of_with_attr_ne by (right; discriminate).
  - now rewrite !attr_of_with_attr_ne by (right; discriminate).
  - rewrite attr_of_with_attr_ne by (right; discriminate).
    now apply attr_of_with_attr_eq.
  - apply attr_of_with_attr_eq. now rewrite heap_with_attr_length.
Qed.

End RegistryClosed.

Section ClosedPool.

Variables (w : world) (r pool : loc) (uri : string).
Hypothesis Huri : attr_of w r "uri" = Some (VStr uri).
Hypothesis Hpool : attr_of w r "_dbpool" = Some (VRef pool).
Hypothesis Hfactory : attr_of w pool "_factory" = Some VNone.
Hypothesis Hconnv : attr_of w pool "_connv" = Some (VList []).

Lemma closed_xget_run {A} (fname : string) (argv : list string)
  (body : pyval -> M world A) :
  _regerr r fname argv
    (let* pool := getattr_ref r "_dbpool" in DBPool.with_xget pool body) w
  = (Raise (RegistryError
              (Error "BUG" (Some (RuntimeError "sqlite: pool: get on closed pool")))
              uri fname argv), w).
Proof.
  unfold _regerr. unfold try_except at 1. unfold bind at 1.
  rewrite (getattr_ref_run _ _ _ _ Hpool).
  unfold DBPool.with_xget. unfold bind at 1. unfold DBPool.get. unfold bind at 1.
  rewrite (getattr_run _ _ _ _ Hfactory). cbn [is_None]. unfold raise at 1.
  cbn [xerr.well_defined negb]. unfold bind.
  now rewrite (getattr_str_run _ _ _ _ Huri).
Qed.

Lemma closed_close_run : SQLiteRegistry.close r w = (Ok tt, w).
Proof.
  pose proof (attr_of_lt _ _ _ _ Hfactory) as Hlt.
  unfold SQLiteRegistry.close, bind. rewrite (getattr_ref_run _ _ _ _ Hpool).
  unfold DBPool.close, bind. rewrite setattr_run by assumption.
  rewrite (with_attr_id _ _ _ _ Hfactory).
  rewrite setattr_run by assumption.
  now rewrite (with_attr_id _ _ _ _ Hconnv).
Qed.

End ClosedPool.

(** After [close], [announce] and [query] raise [RegistryError] around the
    pool's [RuntimeError], marked "BUG" since it is not a well-defined
    error, and leave the file and the store alone; a second [close] does
    nothing. *)
Theorem registry_closed (w : world) (r : loc) (uri h x : string) :
  registry_open w r uri ->
  exists w',
    SQLiteRegistry.close r w = (Ok tt, w')
    /\ file w' = file w
    /\ SQLiteRegistry.announce r h x w'
       = (Raise (RegistryError
                   (Error "BUG" (Some (RuntimeError "sqlite: pool: get on closed pool")))
                   uri "announce" [h; x]), w')
    /\ SQLiteRegistry.query r h w'
       = (Raise (RegistryError
                   (Error "BUG" (Some (RuntimeError "sqlite: pool: get on closed pool")))
                   uri "query" [h]), w')
    /\ SQLiteRegistry.close r w' = (Ok tt, w').
Proof.
  intros Hopen.
  destruct (close_run w r uri Hopen) as (pool & w' & Hclose & Hfile & Hu & Hp & Hf & Hc).
  exists w'. repeat split; try assumption.
  - apply (closed_xget_run w' r pool uri Hu Hp Hf).
  - apply (closed_xget_run w' r pool uri Hu Hp Hf).
  - apply (closed_close_run w' r pool Hp Hf Hc).
Qed.

Lemma registry_closed_witness :
  exists w',
    SQLiteRegistry.close 0%nat registry_world = (Ok tt, w')
    /\ file w' = file registry_world
    /\ SQLiteRegistry.announce 0%nat "a" "127.0.0.1:4000" w'
       = (Raise (RegistryError
                   (Error "BUG" (Some (RuntimeError "sqlite: pool: get on closed pool")))
                   "/tmp/lonet/X/registry.db" "announce" ["a"; "127.0.0.1:4000"]), w')
    /\ SQLiteRegistry.query 0%nat "a" w'
       = (Raise (RegistryError
                   (Error "BUG" (Some (RuntimeError "sqlite: pool: get on closed pool")))
                   "/tmp/lonet/X/registry.db" "query" ["a"]), w')
    /\ SQLiteRegistry.close 0%nat w' = (Ok tt, w').
Proof.
  apply (registry_closed registry_world 0%nat "/tmp/lonet/X/registry.db" "a" "127.0.0.1:4000").
  exists 1%nat. repeat split.
  exists (VOpaque "factory"), [VOpaque "sqlite3.Connection"]. repeat split.
Defined.

(** A connection put back into an open pool is the one that the next
    [get] hands out, and the pool is then as it was before; a closed pool
    takes nothing back and [get] raises. *)
Theorem pool_put_get (w : world) (pool : loc) (conn factory : pyval) (connv : list pyval) :
  attr_of w pool "_factory" = Some factory ->
  attr_of w pool "_connv" = Some (VList connv) ->
  if is_None factory then
    DBPool.put pool conn w = (Ok tt, w)
    /\ DBPool.get pool w = (Raise (RuntimeError "sqlite: pool: get on closed pool"), w)
  else
    exists w1,
      DBPool.put pool conn w = (Ok tt, w1)
      /\ attr_of w1 pool "_connv" = Some (VList (connv ++ [conn])%list)
      /\ DBPool.get pool w1 = (Ok conn, w).
Proof.
  intros Hf Hc. pose proof (attr_of_lt _ _ _ _ Hf) as Hlt.
  destruct (is_None factory) eqn:Hn.
  - unfold DBPool.put, DBPool.get, bind. rewrite (getattr_run _ _ _ _ Hf), Hn. now split.
  - exists (with_attr pool "_connv" (VList (connv ++ [conn])%list) w).
    assert (Hc1 : attr_of (with_attr pool "_connv" (VList (connv ++ [conn])%list) w)
                    pool "_connv" = Some (VList (connv ++ [conn])%list))
      by now apply attr_of_with_attr_eq.
    assert (Hf1 : attr_of (with_attr pool "_connv" (VList (connv ++ [conn])%list) w)
                    pool "_factory" = Some factory)
      by (now rewrite attr_of_with_attr_ne by (right; discriminate)).
    repeat split.
    + unfold DBPool.put, bind. rewrite (getattr_run _ _ _ _ Hf), Hn. cbn [negb].
      unfold list_append, bind. rewrite (getattr_list_run _ _ _ _ Hc).
      now rewrite setattr_run.
    + exact Hc1.
    + unfold DBPool.get, bind. rewrite (getattr_run _ _ _ _ Hf1), Hn.
      rewrite (getattr_list_run _ _ _ _ Hc1).
      replace (0 <? len (connv ++ [conn])%list)%Z with true
        by (symmetry; apply Z.ltb_lt; unfold len; rewrite length_app; simpl; lia).
      rewrite setattr_run by (now rewrite heap_with_attr_length).
      rewrite removelast_last, last_last, with_attr_twice.
      now rewrite (with_attr_id _ _ _ _ Hc).
Qed.

Lemma pool_put_get_witness :
  exists w1,
    DBPool.put 1%nat (VOpaque "c2") registry_world = (Ok tt, w1)
    /\ attr_of w1 1%nat "_connv"
       = Some (VList [VOpaque "sqlite3.Connection"; VOpaque "c2"])
    /\ DBPool.get 1%nat w1 = (Ok (VOpaque "c2"), registry_world).
Proof.
  apply (pool_put_get registry_world 1%nat (VOpaque "c2") (VOpaque "factory")
           [VOpaque "sqlite3.Connection"]); reflexivity.
Defined.

(** [announce] of a new host changes what [query] gives for no other
    host, and neither touches the configuration of the file. *)
Theorem announce_keeps_other_hosts (w : world) (r : loc) (uri h x h' : string) :
  registry_open w r uri ->
  hosts (file w) !! h = None ->
  h' <> h ->
  exists (before : option string) (w0 w1 w2 : world),
    SQLiteRegistry.query r h' w = (Ok before, w0)
    /\ SQLiteRegistry.announce r h x w0 = (Ok tt, w1)
    /\ SQLiteRegistry.query r h' w1 = (Ok before, w2)
    /\ meta (file w2) = meta (file w)
    /\ registry_open w2 r uri.
Proof.
  intros Hr Hh Hne.
  destruct (query_run w r uri h' Hr) as (w0 & Hq0 & Hf0 & Hr0).
  assert (Hh0 : hosts (file w0) !! h = None) by now rewrite Hf0.
  destruct (announce_new w0 r uri h x Hr0 Hh0) as (w1 & Ha & Hf1 & Hr1).
  destruct (query_run w1 r uri h' Hr1) as (w2 & Hq2 & Hf2 & Hr2).
  exists (hosts (file w) !! h'), w0, w1, w2. repeat split; try assumption.
  - rewrite Hq2, Hf1. cbn [hosts]. rewrite lookup_insert_ne by congruence.
    now rewrite Hf0.
  - now rewrite Hf2, Hf1, Hf0.
Qed.

Lemma announce_keeps_other_hosts_witness :
  exists (before : option string) (w0 w1 w2 : world),
    SQLiteRegistry.query 0%nat "a" registry_world = (Ok before, w0)
    /\ SQLiteRegistry.announce 0%nat "b" "127.0.0.1:4000" w0 = (Ok tt, w1)
    /\ SQLiteRegistry.query 0%nat "a" w1 = (Ok before, w2)
    /\ meta (file w2) = meta (file registry_world)
    /\ registry_open w2 0%nat "/tmp/lonet/X/registry.db".
Proof.
  apply (announce_keeps_other_hosts registry_world 0%nat "/tmp/lonet/X/registry.db"
           "b" "127.0.0.1:4000" "a").
  - exists 1%nat. repeat split.
    exists (VOpaque "factory"), [VOpaque "sqlite3.Connection"]. repeat split.
  - reflexivity.
  - discriminate.
Defined.


(** ** virtnet: the port table, listen *)

Section Table.

Implicit Types (w : world) (h o sk : loc) (socketv : list pyval) (p : nat).

Lemma grown_length socketv p : length (grown socketv p) = Nat.max (length socketv) (p + 1).
Proof. unfold grown. rewrite length_app, length_replicate. lia. Qed.

Lemma grown_lookup_old socketv p i :
  (i < length socketv)%nat -> grown socketv p !! i = socketv !! i.
Proof. intros H. unfold grown. now apply lookup_app_l. Qed.

Lemma grown_lookup_new socketv p i :
  (length socketv <= i < length (grown socketv p))%nat -> grown socketv p !! i = Some VNone.
Proof.
  intros [H1 H2]. rewrite grown_length in H2. unfold grown.
  rewrite lookup_app_r by lia. apply lookup_replicate_2. lia.
Qed.

Lemma grown_id socketv p : (p < length socketv)%nat -> grown socketv p = socketv.
Proof.
  intros H. unfold grown. replace (p + 1 - length socketv)%nat with 0%nat by lia.
  apply app_nil_r.
Qed.

Lemma grown_vacant socketv p : vacant socketv p -> grown socketv p !! p = Some VNone.
Proof.
  intros [H|H].
  - apply lookup_ge_None in H. apply grown_lookup_new. rewrite grown_length. lia.
  - rewrite grown_lookup_old; [assumption|]. now apply lookup_lt_Some in H.
Qed.

Lemma grow_to_run w h socketv p :
  attr_of w h "_socketv" = Some (VList socketv) ->
  grow_to h (Z.of_nat p) w = (Ok tt, with_attr h "_socketv" (VList (grown socketv p)) w).
Proof.
  intros Hl. unfold grow_to, bind. rewrite (getattr_list_run _ _ _ _ Hl).
  rewrite (grow_spec h _ _ w socketv Hl) by lia.
  unfold grown, len.
  now replace (Z.to_nat (Z.of_nat p + 1 - Z.of_nat (length socketv)))
    with (p + 1 - length socketv)%nat by lia.
Qed.

(** What the world with the new socket holds. *)
Lemma with_socket_facts w h socketv p port :
  attr_of w h "_socketv" = Some (VList socketv) ->
  let sk := length (heap w) in
  let w' := with_socket h socketv p port w in
  length (heap w') = S (length (heap w))
  /\ file w' = file w /\ errlog w' = errlog w
  /\ attr_of w' h "_socketv" = Some (VList (<[p := VRef sk]> (grown socketv p)))
  /\ attr_of w' sk "_host" = Some (VRef h)
  /\ attr_of w' sk "_port" = Some (VInt port)
  /\ attr_of w' sk "_conn" = Some VNone
  /\ attr_of w' sk "_listener" = Some VNone
  /\ (forall name, name <> "_host" -> name <> "_port" -> name <> "_conn" ->
        name <> "_listener" -> attr_of w' sk name = None)
  /\ kept_but h "_socketv" w w'.
Proof.
  intros Hl sk w'. pose proof (attr_of_lt _ _ _ _ Hl) as Hh.
  set (w1 := with_attr h "_socketv" (VList (grown socketv p)) w).
  set (w2 := with_obj "socket"
               [("_host", VRef h); ("_port", VInt port); ("_conn", VNone);
                ("_listener", VNone)] w1).
  assert (Hlen1 : length (heap w1) = length (heap w)) by apply heap_with_attr_length.
  assert (Hlen2 : length (heap w2) = S (length (heap w)))
    by (unfold w2; now rewrite heap_with_obj_length, Hlen1).
  assert (Hsk : forall name,
    attr_of w' sk name
    = (list_to_map [("_host", VRef h); ("_port", VInt port); ("_conn", VNone);
                    ("_listener", VNone)] : gmap string pyval) !! name).
  { intros name. unfold w', with_socket. fold w1 w2.
    rewrite attr_of_with_attr_ne by (left; unfold sk; lia).
    unfold w2, sk. rewrite <- Hlen1. apply attr_of_with_obj_new. }
  repeat split.
  - unfold w', with_socket. fold w1 w2. now rewrite heap_with_attr_length.
  - unfold w', with_socket. rewrite file_with_attr. unfold with_obj. cbn [file set_heap].
    now rewrite file_with_attr.
  - unfold w', with_socket, with_attr, with_obj.
    repeat match goal with |- context [match ?x with _ => _ end] => destruct x end;
      reflexivity.
  - unfold w', with_socket. fold w1 w2. apply attr_of_with_attr_eq. lia.
  - now rewrite Hsk.
  - now rewrite Hsk.
  - now rewrite Hsk.
  - now rewrite Hsk.
  - intros name H1 H2 H3 H4. rewrite Hsk. cbn [list_to_map foldr uncurry fst snd].
    now rewrite !lookup_insert_ne by congruence.
  - intros o name Ho Hne. unfold w', with_socket. fold w1 w2.
    rewrite attr_of_with_attr_ne by (destruct Hne; [left|right]; congruence).
    unfold w2. rewrite attr_of_with_obj_old by lia.
    unfold w1. apply attr_of_with_attr_ne. destruct Hne; [left|right]; congruence.
Qed.

(** [socket(h, port)] put into slot [p] of the table. *)
Lemma install_socket_run w h socketv p port :
  attr_of w h "_socketv" = Some (VList socketv) ->
  (let* sk := socket_new h port in
   setitem h "_socketv" (Z.of_nat p) (VRef sk) ;;; ret sk)
    (with_attr h "_socketv" (VList (grown socketv p)) w)
  = (Ok (length (heap w)), with_socket h socketv p port w).
Proof.
  intros Hl. pose proof (attr_of_lt _ _ _ _ Hl) as Hh.
  unfold bind at 1. unfold socket_new. rewrite new_obj_run.
  rewrite heap_with_attr_length. unfold bind.
  rewrite (setitem_nat _ h "_socketv" (grown socketv p) p).
  - reflexivity.
  - rewrite attr_of_with_obj_old by (now rewrite heap_with_attr_length).
    now apply attr_of_with_attr_eq.
  - rewrite grown_length. lia.
Qed.

Lemma alloc_run w h socketv :
  attr_of w h "_socketv" = Some (VList socketv) ->
  exists p,
    Host__allocFreeSocket h w
    = (Ok (length (heap w)), with_socket h socketv p (Z.of_nat p) w)
    /\ (1 <= p)%nat /\ vacant socketv p
    /\ (forall i, (1 <= i < p)%nat -> occupied socketv i).
Proof.
  intros Hl.
  destruct (scan_free_spec h (length socketv) w socketv 1 Hl)
    as (p & Hscan & Hp & Hvac & Hocc); [lia|].
  exists p. repeat split; try assumption.
  unfold Host__allocFreeSocket. unfold bind at 1. rewrite (getattr_list_run _ _ _ _ Hl).
  unfold bind at 1. change 1%Z with (Z.of_nat 1). rewrite Hscan.
  unfold bind at 1. rewrite (grow_to_run _ _ _ _ Hl).
  now apply install_socket_run.
Qed.

Lemma ready_run w o ch b :
  attr_of w o ch = Some (VChan b) -> ready o ch w = (Ok b, w).
Proof. intros H. unfold ready, bind. now rewrite (getattr_run _ _ _ _ H). Qed.

End Table.
Section TableOk.

Implicit Types (w : world) (h o sk : loc) (socketv : list pyval) (p : nat).

Lemma table_ok_iff w h :
  table_ok w h = true
  <-> exists socketv, attr_of w h "_socketv" = Some (VList socketv)
        /\ forall i v, socketv !! i = Some v -> slot_ok w i v = true.
Proof.
  unfold table_ok. split.
  - destruct (attr_of w h "_socketv") as [[| | | | |l| | |]|]; try discriminate.
    intros H. exists l. split; [reflexivity|]. intros i v Hv.
    rewrite forallb_forall in H. apply (H (i, v)).
    apply list_elem_of_In, elem_of_lookup_imap. eauto.
  - intros (l & -> & H). apply forallb_forall. intros [i v] Hin.
    apply list_elem_of_In, elem_of_lookup_imap in Hin as (i' & v' & [= -> ->] & Hv).
    now apply H.
Qed.

Lemma slot_ok_kept w w' p v :
  (forall o name, (o < length (heap w))%nat -> name <> "_socketv" -> name <> "_connv" ->
     attr_of w' o name = attr_of w o name) ->
  slot_ok w p v = true -> slot_ok w' p v = true.
Proof.
  intros H. destruct v as [| | | |o| | | |]; try easy. cbn [slot_ok].
  intros [Hp Hs]%andb_true_iff. rewrite Hp. cbn [andb].
  assert (Ho : (o < length (heap w))%nat).
  { unfold socket_ok in Hs. destruct (attr_of w o "_port") eqn:E; [|discriminate].
    now apply attr_of_lt in E. }
  unfold socket_ok in *. now rewrite !H by (assumption || discriminate).
Qed.

(** The table stays in order when a slot at a positive index takes a
    socket that is in order, and the other slots keep what they held or
    are new and vacant. *)
Lemma table_ok_install w w' h socketv p sk :
  table_ok w h = true ->
  attr_of w h "_socketv" = Some (VList socketv) ->
  attr_of w' h "_socketv" = Some (VList (<[p := VRef sk]> (grown socketv p))) ->
  (forall o name, (o < length (heap w))%nat -> name <> "_socketv" -> name <> "_connv" ->
     attr_of w' o name = attr_of w o name) ->
  (0 < p)%nat -> socket_ok w' p sk = true ->
  table_ok w' h = true.
Proof.
  intros Hok Hl Hl' Hkept Hp Hsk.
  apply table_ok_iff in Hok as (l0 & Hl0 & Hslots).
  rewrite Hl in Hl0. injection Hl0 as <-.
  apply table_ok_iff. eexists. split; [exact Hl'|]. intros i v Hv.
  destruct (decide (i = p)) as [->|Hi].
  - rewrite list_lookup_insert_eq in Hv by (rewrite grown_length; lia).
    injection Hv as <-. cbn [slot_ok]. rewrite Hsk.
    now replace (0 <? p)%nat with true by (symmetry; apply Nat.ltb_lt; lia).
  - rewrite list_lookup_insert_ne in Hv by congruence.
    destruct (Nat.lt_ge_cases i (length socketv)) as [Hlt|Hge].
    + rewrite grown_lookup_old in Hv by assumption.
      apply (slot_ok_kept w); [assumption|]. now apply Hslots.
    + rewrite grown_lookup_new in Hv
        by (split; [assumption | now apply lookup_lt_Some in Hv]).
      now injection Hv as <-.
Qed.

(** The table stays in order when every slot keeps what it held or is
    vacant. *)
Lemma table_ok_release w w' h socketv socketv' :
  table_ok w h = true ->
  attr_of w h "_socketv" = Some (VList socketv) ->
  attr_of w' h "_socketv" = Some (VList socketv') ->
  (forall o name, (o < length (heap w))%nat -> name <> "_socketv" -> name <> "_connv" ->
     attr_of w' o name = attr_of w o name) ->
  (forall i v, socketv' !! i = Some v -> v = VNone \/ socketv !! i = Some v) ->
  table_ok w' h = true.
Proof.
  intros Hok Hl Hl' Hkept Hsub.
  apply table_ok_iff in Hok as (l0 & Hl0 & Hslots).
  rewrite Hl in Hl0. injection Hl0 as <-.
  apply table_ok_iff. eexists. split; [exact Hl'|]. intros i v Hv.
  destruct (Hsub i v Hv) as [-> | Hold]; [reflexivity|].
  apply (slot_ok_kept w); [assumption|]. now apply Hslots.
Qed.

End TableOk.

Section Listen.

Variables (w : world) (h n : loc) (network name : string) (socketv : list pyval).
Hypothesis Hsubnet : attr_of w h "_subnet" = Some (VRef n).
Hypothesis Hnetwork : attr_of w n "_network" = Some (VStr network).
Hypothesis Hname : attr_of w h "_name" = Some (VStr name).
Hypothesis Hsocketv : attr_of w h "_socketv" = Some (VList socketv).

Lemma addrstr4_not_empty (hostpart : string) (z : Z) :
  String.eqb (addrstr4 hostpart z) EmptyString = false.
Proof. unfold addrstr4. now destruct hostpart. Qed.

Lemma parseAddr_run (hostpart : string) (z : Z) :
  has_char ":" hostpart = false ->
  Host__parseAddr h (addrstr4 hostpart z) w
  = (Ok (mkAddr network (if String.eqb hostpart EmptyString then name else hostpart) z),
     w).
Proof.
  intros Hc. unfold Host__parseAddr, bind.
  rewrite (Host_network_run w h n network Hsubnet Hnetwork).
  unfold lift. rewrite Addr_parse_fmt by assumption. cbn [host net port].
  destruct (String.eqb hostpart EmptyString); [|reflexivity].
  now rewrite (getattr_str_run _ _ _ _ Hname).
Qed.

(** [listener(sk)] and [sk._listener = l] after the socket was put into
    the table. *)
Lemma listener_on_socket_run (p : nat) :
  exists w',
    let sk := length (heap w) in
    let l := S sk in
    (let* l := listener_new sk in setattr sk "_listener" (VRef l) ;;; ret l)
      (with_socket h socketv p (Z.of_nat p) w) = (Ok l, w')
    /\ attr_of w' h "_socketv" = Some (VList (<[p := VRef sk]> (grown socketv p)))
    /\ attr_of w' sk "_host" = Some (VRef h)
    /\ attr_of w' sk "_port" = Some (VInt (Z.of_nat p))
    /\ attr_of w' sk "_conn" = Some VNone
    /\ attr_of w' sk "_listener" = Some (VRef l)
    /\ attr_of w' l "_socket" = Some (VRef sk)
    /\ attr_of w' l "_down" = Some (VChan false)
    /\ kept_but h "_socketv" w w'.
Proof.
  destruct (with_socket_facts w h socketv p (Z.of_nat p) Hsocketv)
    as (Hlen & _ & _ & Htab & Hhost & Hport & Hconn & _ & _ & Hkept).
  pose proof (attr_of_lt _ _ _ _ Hsocketv) as Hh.
  set (ws := with_socket h socketv p (Z.of_nat p) w) in *.
  set (items := [("_socket", VRef (length (heap w))); ("_dialq", VOpaque "chan");
                 ("_down", VChan false); ("_down_once", VBool false);
                 ("_close_once", VBool false)]).
  exists (with_attr (length (heap w)) "_listener" (VRef (S (length (heap w))))
            (with_obj "listener" items ws)).
  cbv zeta.
  assert (Hlen' : length (heap (with_obj "listener" items ws)) = S (S (length (heap w))))
    by (now rewrite heap_with_obj_length, Hlen).
  assert (Hold : forall o a, (o < length (heap ws))%nat ->
            o <> length (heap w) \/ a <> "_listener" ->
            attr_of (with_attr (length (heap w)) "_listener" (VRef (S (length (heap w))))
                       (with_obj "listener" items ws)) o a
            = attr_of ws o a).
  { intros o a Ho Hne.
    rewrite attr_of_with_attr_ne by (destruct Hne; [left|right]; congruence).
    now apply attr_of_with_obj_old. }
  repeat split.
  - unfold bind at 1. unfold listener_new. rewrite new_obj_run, Hlen. fold items.
    unfold bind. now rewrite setattr_run by lia.
  - rewrite Hold; [assumption | lia | right; discriminate].
  - rewrite Hold; [assumption | lia | right; discriminate].
  - rewrite Hold; [assumption | lia | right; discriminate].
  - rewrite Hold; [assumption | lia | right; discriminate].
  - apply attr_of_with_attr_eq. lia.
  - rewrite attr_of_with_attr_ne by (left; lia). rewrite <- Hlen.
    now rewrite attr_of_with_obj_new.
  - rewrite attr_of_with_attr_ne by (left; lia). rewrite <- Hlen.
    now rewrite attr_of_with_obj_new.
  - intros o a Ho Hne. rewrite Hold by lia. now apply Hkept.
Qed.

End Listen.
Section ListenTheorems.

Variables (w : world) (h n : loc) (network name : string) (socketv : list pyval).
Hypothesis Hsubnet : attr_of w h "_subnet" = Some (VRef n).
Hypothesis Hnetwork : attr_of w n "_network" = Some (VStr network).
Hypothesis Hname : attr_of w h "_name" = Some (VStr name).
Hypothesis Hsocketv : attr_of w h "_socketv" = Some (VList socketv).

Lemma socket_with_listener_ok (w' : world) (p : nat) (sk l : loc) :
  attr_of w' sk "_port" = Some (VInt (Z.of_nat p)) ->
  attr_of w' sk "_conn" = Some VNone ->
  attr_of w' sk "_listener" = Some (VRef l) ->
  socket_ok w' p sk = true.
Proof. intros H1 H2 H3. unfold socket_ok. rewrite H1, H2, H3. cbn. now rewrite Z.eqb_refl. Qed.

(** [listen] on an explicit port [p >= 1] of a host that is up: when slot
    [p] is occupied it raises "address already in use" and changes
    nothing; when it is vacant, the table is grown to hold slot [p], a new
    socket for port [p] with a new listener is put there, no other
    attribute of an existing object changes, and a table that was in
    order stays in order. *)
Theorem listen_on_port (hostpart : string) (p : nat) :
  attr_of w h "_down" = Some (VChan false) ->
  has_char ":" name = false ->
  hostpart = EmptyString \/ hostpart = name ->
  (1 <= p)%nat ->
  let laddr := addrstr4 hostpart (Z.of_nat p) in
  (occupied socketv p ->
   Host_listen h laddr w
   = (Raise (Error ("listen " +:+ network +:+ " " +:+ laddr) (Some ErrAddrAlreadyUsed)), w))
  /\ (vacant socketv p ->
      exists w' : world,
        let sk := length (heap w) in
        let l := S sk in
        Host_listen h laddr w = (Ok l, w')
        /\ attr_of w' h "_socketv" = Some (VList (<[p := VRef sk]> (grown socketv p)))
        /\ attr_of w' sk "_host" = Some (VRef h)
        /\ attr_of w' sk "_port" = Some (VInt (Z.of_nat p))
        /\ attr_of w' sk "_conn" = Some VNone
        /\ attr_of w' sk "_listener" = Some (VRef l)
        /\ attr_of w' l "_socket" = Some (VRef sk)
        /\ attr_of w' l "_down" = Some (VChan false)
        /\ kept_but h "_socketv" w w'
        /\ (table_ok w h = true -> table_ok w' h = true)).
Proof.
  intros Hdown Hcolon Hhost Hp laddr. subst laddr.
  set (laddr := addrstr4 hostpart (Z.of_nat p)).
  assert (Hc : has_char ":" hostpart = false) by (destruct Hhost as [-> | ->]; auto).
  assert (Hrun :
    Host_listen h laddr w
    = errctx ("listen " +:+ network +:+ " " +:+ laddr)
        (let* sk :=
           grow_to h (Z.of_nat p) ;;;
           let* socketv := getattr_list h "_socketv" in
           let* v := getitem socketv (Z.of_nat p) in
           if negb (is_None v) then raise ErrAddrAlreadyUsed
           else
             let* sk := socket_new h (Z.of_nat p) in
             setitem h "_socketv" (Z.of_nat p) (VRef sk) ;;; ret sk in
         let* l := listener_new sk in
         setattr sk "_listener" (VRef l) ;;; ret l) w).
  { unfold Host_listen.
    replace (String.eqb laddr EmptyString) with false
      by (symmetry; apply addrstr4_not_empty).
    unfold bind at 1. rewrite (Host_network_run w h n network Hsubnet Hnetwork).
    unfold errctx, try_except. unfold bind at 1.
    replace (Host__parseAddr h laddr w)
      with (Ok (mkAddr network (if String.eqb hostpart EmptyString then name else hostpart)
                  (Z.of_nat p)), w)
      by (symmetry; now apply (parseAddr_run w h n network name Hsubnet Hnetwork Hname)).
    cbn [host port]. unfold bind at 1. rewrite (getattr_str_run _ _ _ _ Hname).
    replace (String.eqb (if String.eqb hostpart EmptyString then name else hostpart) name)
      with true
      by (destruct Hhost as [-> | ->]; cbn [String.eqb];
          [now rewrite String.eqb_refl
          |destruct (String.eqb name EmptyString); now rewrite String.eqb_refl]).
    cbn [negb]. unfold bind at 1. rewrite (ready_run _ _ _ _ Hdown).
    unfold bind at 1. unfold ret at 1.
    replace (Z.of_nat p =? 0)%Z with false by (symmetry; apply Z.eqb_neq; lia).
    reflexivity. }
  rewrite Hrun. clear Hrun.
  pose proof (attr_of_lt _ _ _ _ Hsocketv) as Hh.
  assert (Hg : attr_of (with_attr h "_socketv" (VList (grown socketv p)) w) h "_socketv"
               = Some (VList (grown socketv p))) by now apply attr_of_with_attr_eq.
  split.
  - intros (v & Hv & Hne).
    unfold errctx, try_except. unfold bind at 1. unfold bind at 1.
    rewrite (grow_to_run _ _ _ _ Hsocketv).
    rewrite grown_id in * by (now apply lookup_lt_Some in Hv).
    rewrite (with_attr_id _ _ _ _ Hsocketv).
    unfold bind at 1. rewrite (getattr_list_run _ _ _ _ Hsocketv).
    unfold bind at 1. rewrite (getitem_nat _ _ _ _ Hv).
    now destruct v.
  - intros Hvac. apply grown_vacant in Hvac.
    destruct (listener_on_socket_run w h socketv Hsocketv p)
      as (w' & Hl & Htab & Hhost' & Hport & Hconn & Hlis & Hsock & Hld & Hkept).
    exists w'. cbv zeta in *. split; [|repeat split; try assumption].
    + unfold errctx, try_except. unfold bind at 1. unfold bind at 1.
      rewrite (grow_to_run _ _ _ _ Hsocketv).
      unfold bind at 1. rewrite (getattr_list_run _ _ _ _ Hg).
      unfold bind at 1. rewrite (getitem_nat _ _ _ _ Hvac). cbn [is_None negb].
      rewrite (install_socket_run _ _ _ _ _ Hsocketv).
      unfold bind at 1 in Hl. unfold bind at 1. 
      destruct (listener_new (length (heap w)) (with_socket h socketv p (Z.of_nat p) w))
        as [[l1| |] w1]; try discriminate.
      now rewrite Hl.
    + intros Hok.
      apply (table_ok_install w w' h socketv p (length (heap w))); try assumption.
      * intros o a Ho Ha _. apply Hkept; [assumption | now right].
      * now apply (socket_with_listener_ok w' p _ (S (length (heap w)))).
Qed.

(** [listen] without a port (the empty address stands for [":0"]) on a
    host that is up takes the first vacant slot from 1 on, as
    [_allocFreeSocket] finds it, and puts a new socket with a new
    listener there; a table that was in order stays in order. *)
Theorem listen_auto_port :
  attr_of w h "_down" = Some (VChan false) ->
  exists (p : nat) (w' : world),
    let sk := length (heap w) in
    let l := S sk in
    Host_listen h EmptyString w = (Ok l, w')
    /\ (1 <= p)%nat /\ vacant socketv p
    /\ (forall i, (1 <= i < p)%nat -> occupied socketv i)
    /\ attr_of w' h "_socketv" = Some (VList (<[p := VRef sk]> (grown socketv p)))
    /\ attr_of w' sk "_port" = Some (VInt (Z.of_nat p))
    /\ attr_of w' sk "_listener" = Some (VRef l)
    /\ attr_of w' l "_socket" = Some (VRef sk)
    /\ kept_but h "_socketv" w w'
    /\ (table_ok w h = true -> table_ok w' h = true).
Proof.
  intros Hdown.
  destruct (alloc_run w h socketv Hsocketv) as (p & Halloc & Hp & Hvac & Hocc).
  destruct (listener_on_socket_run w h socketv Hsocketv p)
    as (w' & Hl & Htab & Hhost' & Hport & Hconn & Hlis & Hsock & Hld & Hkept).
  exists p, w'. cbv zeta in *. split; [|repeat split; try assumption].
  - unfold Host_listen. cbn [String.eqb].
    unfold bind at 1. rewrite (Host_network_run w h n network Hsubnet Hnetwork).
    unfold errctx, try_except. unfold bind at 1.
    change ":0" with (addrstr4 EmptyString 0).
    rewrite (parseAddr_run w h n network name Hsubnet Hnetwork Hname) by reflexivity.
    cbn [host port String.eqb]. unfold bind at 1. rewrite (getattr_str_run _ _ _ _ Hname).
    rewrite String.eqb_refl. cbn [negb].
    unfold bind at 1. rewrite (ready_run _ _ _ _ Hdown).
    unfold bind at 1. unfold ret at 1. cbn [Z.eqb].
    unfold bind at 1. rewrite Halloc.
    unfold bind at 1 in Hl. unfold bind at 1.
    destruct (listener_new (length (heap w)) (with_socket h socketv p (Z.of_nat p) w))
      as [[l1| |] w1]; try discriminate.
    now rewrite Hl.
  - intros Hok.
    apply (table_ok_install w w' h socketv p (length (heap w))); try assumption.
    + intros o a Ho Ha _. apply Hkept; [assumption | now right].
    + now apply (socket_with_listener_ok w' p _ (S (length (heap w)))).
Qed.

(** What [listen] refuses, in the order in which it checks, each time
    with the error in the context of the call and nothing changed: an
    address that does not parse, an address for another host, a host that
    is down (the error then tells whether the whole network is down). *)
Theorem listen_refused (laddr : string) (hdown ndown : bool) (e : exc) :
  laddr <> EmptyString ->
  attr_of w h "_down" = Some (VChan hdown) ->
  attr_of w n "_down" = Some (VChan ndown) ->
  match Addr_parse network laddr with
  | Raise e' => Some e'
  | Ok a =>
      if negb (String.eqb (host a) EmptyString) && negb (String.eqb (host a) name)
      then Some ErrAddrNoListen
      else if hdown then Some (if ndown then ErrNetDown else ErrHostDown)
      else None
  | Stuck _ => None
  end = Some e ->
  Host_listen h laddr w
  = (Raise (Error ("listen " +:+ network +:+ " " +:+ laddr) (Some e)), w).
Proof.
  intros Hne Hhd Hnd Href.
  unfold Host_listen.
  destruct (String.eqb_spec laddr EmptyString) as [|_]; [contradiction|].
  unfold bind at 1. rewrite (Host_network_run w h n network Hsubnet Hnetwork).
  unfold errctx, try_except. unfold bind at 1.
  unfold Host__parseAddr. unfold bind at 1.
  rewrite (Host_network_run w h n network Hsubnet Hnetwork).
  unfold bind at 1. unfold lift at 1.
  destruct (Addr_parse network laddr) as [a|e'|y]; [|now injection Href as <-|discriminate].
  assert (Hparse : (if String.eqb (host a) EmptyString
                    then let* name0 := getattr_str h "_name" in
                         ret (mkAddr (net a) name0 (port a))
                    else ret a) w
                   = (Ok (mkAddr (net a)
                            (if String.eqb (host a) EmptyString then name else host a)
                            (port a)), w)).
  { destruct (String.eqb (host a) EmptyString).
    - unfold bind. now rewrite (getattr_str_run _ _ _ _ Hname).
    - now destruct a. }
  rewrite Hparse. cbn [host]. unfold bind at 1. rewrite (getattr_str_run _ _ _ _ Hname).
  destruct (String.eqb (host a) EmptyString); cbn [negb andb] in Href.
  - rewrite String.eqb_refl. cbn [negb].
    unfold bind at 1. rewrite (ready_run _ _ _ _ Hhd).
    destruct hdown; [|discriminate]. injection Href as <-.
    unfold bind at 1. unfold Host__excDown. unfold bind at 1.
    rewrite (getattr_ref_run _ _ _ _ Hsubnet). unfold bind at 1.
    rewrite (ready_run _ _ _ _ Hnd). now destruct ndown.
  - destruct (String.eqb (host a) name); cbn [negb] in *.
    + unfold bind at 1. rewrite (ready_run _ _ _ _ Hhd).
      destruct hdown; [|discriminate]. injection Href as <-.
      unfold bind at 1. unfold Host__excDown. unfold bind at 1.
      rewrite (getattr_ref_run _ _ _ _ Hsubnet). unfold bind at 1.
      rewrite (ready_run _ _ _ _ Hnd). now destruct ndown.
    + now injection Href as <-.
Qed.

End ListenTheorems.

Lemma listen_on_port_witness :
  Host_listen 5%nat "a:1" listening_world
  = (Raise (Error "listen lonetX a:1" (Some ErrAddrAlreadyUsed)), listening_world)
  /\ exists w' : world,
       Host_listen 5%nat ":2" listening_world = (Ok 9%nat, w')
       /\ attr_of w' 5%nat "_socketv" = Some (VList [VNone; VRef 6%nat; VRef 8%nat])
       /\ table_ok w' 5%nat = true.
Proof.
  split.
  - destruct (listen_on_port listening_world 5%nat 2%nat "lonetX" "a" [VNone; VRef 6%nat]
                eq_refl eq_refl eq_refl eq_refl "a" 1%nat eq_refl eq_refl
                (or_intror eq_refl) (le_n 1)) as [Hocc _].
    apply Hocc. exists (VRef 6%nat). now split.
  - destruct (listen_on_port listening_world 5%nat 2%nat "lonetX" "a" [VNone; VRef 6%nat]
                eq_refl eq_refl eq_refl eq_refl EmptyString 2%nat eq_refl eq_refl
                (or_introl eq_refl) (le_S 1 1 (le_n 1))) as [_ Hvac].
    destruct (Hvac (or_introl eq_refl)) as (w' & Hrun & Htab & _ & _ & _ & _ & _ & _ & _ & Hok).
    exists w'. split; [exact Hrun|]. split; [exact Htab|]. now apply Hok.
Defined.

Lemma listen_auto_port_witness :
  exists (p : nat) (w' : world),
    Host_listen 5%nat EmptyString listening_world = (Ok 9%nat, w')
    /\ vacant [VNone; VRef 6%nat] p
    /\ attr_of w' 8%nat "_port" = Some (VInt (Z.of_nat p)).
Proof.
  destruct (listen_auto_port listening_world 5%nat 2%nat "lonetX" "a" [VNone; VRef 6%nat]
              eq_refl eq_refl eq_refl eq_refl eq_refl)
    as (p & w' & Hrun & _ & Hvac & _ & _ & Hport & _).
  exists p, w'. auto.
Defined.

Lemma listen_refused_witness :
  Host_listen 5%nat "b:1" one_host_world
  = (Raise (Error "listen lonetX b:1" (Some ErrAddrNoListen)), one_host_world).
Proof.
  apply (listen_refused one_host_world 5%nat 2%nat "lonetX" "a"
           eq_refl eq_refl eq_refl "b:1" false false ErrAddrNoListen);
    [discriminate | reflexivity | reflexivity | reflexivity].
Defined.


(** ** virtnet: dial *)

Section Dial.

Implicit Types (w : world) (h n r sk pool : loc).

Lemma host_of_kept w w' h n network name :
  host_of w h n network name ->
  (forall o a, (o < length (heap w))%nat -> a <> "_socketv" -> a <> "_connv" ->
     attr_of w' o a = attr_of w o a) ->
  host_of w' h n network name.
Proof.
  intros (H1 & H2 & H3) Hk. repeat split.
  - rewrite Hk; [assumption | now apply attr_of_lt in H1 | discriminate | discriminate].
  - rewrite Hk; [assumption | now apply attr_of_lt in H2 | discriminate | discriminate].
  - rewrite Hk; [assumption | now apply attr_of_lt in H3 | discriminate | discriminate].
Qed.

Lemma host_of_network_run w h n network name :
  host_of w h n network name -> Host_network h w = (Ok network, w).
Proof. intros (H1 & H2 & _). now apply (Host_network_run w h n network). Qed.

(** [query] leaves the world as it was, but for the free connections of
    the pool. *)
Lemma query_closed_form w r uri hostname :
  registry_open w r uri ->
  exists pool connv',
    SQLiteRegistry.query r hostname w
    = (Ok (hosts (file w) !! hostname), with_attr pool "_connv" (VList connv') w)
    /\ (pool < length (heap w))%nat.
Proof.
  intros (pool & Hu & Hp & factory & connv & Hf & Hn & Hc).
  pose proof (attr_of_lt _ _ _ _ Hf) as Hlt.
  assert (Hbody : forall w1,
    (let* rowv := select_hosts_osladdr hostname in
     match rowv with
     | [] => ret None
     | [osladdr] => ret (Some osladdr)
     | _ => raise (Error "registry broken: duplicate host entries" None)
     end) w1 = (Ok (hosts (file w1) !! hostname), w1)).
  { intros w1. unfold bind, select_hosts_osladdr.
    now destruct (hosts (file w1) !! hostname). }
  unfold SQLiteRegistry.query, _regerr. unfold try_except at 1. unfold bind at 1.
  rewrite (getattr_ref_run _ _ _ _ Hp).
  unfold DBPool.with_xget. unfold bind at 1. unfold DBPool.get. unfold bind at 1.
  rewrite (getattr_run _ _ _ _ Hf), Hn. unfold bind at 1.
  rewrite (getattr_list_run _ _ _ _ Hc).
  destruct (0 <? len connv)%Z.
  - unfold bind at 1. rewrite setattr_run by assumption. unfold ret at 1.
    unfold defer. rewrite Hbody.
    set (w1 := with_attr pool "_connv" (VList (removelast connv)) w).
    assert (Hf1 : attr_of w1 pool "_factory" = Some factory)
      by (unfold w1; now rewrite attr_of_with_attr_ne by (right; discriminate)).
    assert (Hc1 : attr_of w1 pool "_connv" = Some (VList (removelast connv)))
      by (unfold w1; now apply attr_of_with_attr_eq).
    unfold DBPool.put, bind. rewrite (getattr_run _ _ _ _ Hf1), Hn. cbn [negb].
    unfold list_append, bind. rewrite (getattr_list_run _ _ _ _ Hc1).
    rewrite setattr_run by (unfold w1; now rewrite heap_with_attr_length).
    unfold w1. rewrite with_attr_twice, file_with_attr. eauto.
  - unfold ret at 1. unfold defer. rewrite Hbody.
    unfold DBPool.put, bind. rewrite (getattr_run _ _ _ _ Hf), Hn. cbn [negb].
    unfold list_append, bind. rewrite (getattr_list_run _ _ _ _ Hc).
    rewrite setattr_run by assumption. eauto.
Qed.

Lemma socket_addr_run w sk h n network name port :
  attr_of w sk "_host" = Some (VRef h) ->
  attr_of w sk "_port" = Some (VInt port) ->
  host_of w h n network name ->
  socket_addr sk w = (Ok (mkAddr network name port), w).
Proof.
  intros Hh Hp Hhost. pose proof Hhost as (_ & _ & Hname).
  unfold socket_addr, bind. rewrite (getattr_ref_run _ _ _ _ Hh).
  rewrite (host_of_network_run _ _ _ _ _ Hhost).
  unfold Host_name. rewrite (getattr_str_run _ _ _ _ Hname).
  now rewrite (getattr_int_run _ _ _ _ Hp).
Qed.

(** The [except] clause of [dial]. *)
Lemma dial_failed_run {A} w h n network name sk (p : nat) (l : list pyval)
  (dst : string) (err : exc) :
  host_of w h n network name ->
  attr_of w sk "_host" = Some (VRef h) ->
  attr_of w sk "_port" = Some (VInt (Z.of_nat p)) ->
  attr_of w h "_socketv" = Some (VList l) ->
  (p < length l)%nat ->
  Host_dial_failed (A := A) h sk dst err w
  = (Raise (Error ("dial " +:+ network +:+ " " +:+ addrstr4 name (Z.of_nat p)
                   +:+ "->" +:+ dst) (Some err)),
     with_attr h "_socketv" (VList (<[p := VNone]> l)) w).
Proof.
  intros Hhost Hh Hp Hl Hlt.
  set (w1 := with_attr h "_socketv" (VList (<[p := VNone]> l)) w).
  assert (Hhost1 : host_of w1 h n network name).
  { destruct Hhost as (H1 & H2 & H3). unfold w1.
    repeat split; now rewrite attr_of_with_attr_ne by (right; discriminate). }
  assert (Hh1 : attr_of w1 sk "_host" = Some (VRef h))
    by (unfold w1; now rewrite attr_of_with_attr_ne by (right; discriminate)).
  assert (Hp1 : attr_of w1 sk "_port" = Some (VInt (Z.of_nat p)))
    by (unfold w1; now rewrite attr_of_with_attr_ne by (right; discriminate)).
  unfold Host_dial_failed. unfold bind at 1. unfold bind at 1.
  rewrite (getattr_int_run _ _ _ _ Hp).
  rewrite (setitem_nat _ _ _ _ _ _ Hl Hlt). fold w1.
  unfold bind at 1. rewrite (host_of_network_run _ _ _ _ _ Hhost1).
  unfold bind at 1. rewrite (socket_addr_run _ _ _ _ _ _ _ Hh1 Hp1 Hhost1).
  reflexivity.
Qed.

End Dial.
Section VnetDial.

Variables (w1 : world) (n : loc) (network : string) (rx : stream).
Hypothesis Hnetwork : attr_of w1 n "_network" = Some (VStr network).

Let osconn : loc := length (heap w1).




End VnetDial.
Section DialRun.

Variables (w : world) (h n r : loc) (network name uri : string) (socketv : list pyval).
Hypothesis Hhost : host_of w h n network name.
Hypothesis Hsocketv : attr_of w h "_socketv" = Some (VList socketv).
Hypothesis Hreg : attr_of w n "_registry" = Some (VRef r).
Hypothesis Hopen : registry_open w r uri.

Let sk : loc := length (heap w).

(** The world while a dial from port [p] is under way: the new socket is
    in slot [p], and nothing else of what [w] held has changed, the free
    connections of the pool apart. *)
Let dialing (w1 : world) (p : nat) : Prop :=
  host_of w1 h n network name
  /\ attr_of w1 sk "_host" = Some (VRef h)
  /\ attr_of w1 sk "_port" = Some (VInt (Z.of_nat p))
  /\ attr_of w1 sk "_conn" = Some VNone
  /\ attr_of w1 sk "_listener" = Some VNone
  /\ attr_of w1 h "_socketv" = Some (VList (<[p := VRef sk]> (grown socketv p)))
  /\ file w1 = file w
  /\ (sk < length (heap w1))%nat
  /\ (forall o a, (o < sk)%nat -> a <> "_socketv" -> a <> "_connv" ->
        attr_of w1 o a = attr_of w o a).


(** [dial] up to the answer of the registry. *)
Lemma dial_query_run (rx : stream) (hostpart : string) (port : Z) :
  has_char ":" hostpart = false ->
  let dsthost := if String.eqb hostpart EmptyString then name else hostpart in
  let dst := mkAddr network dsthost port in
  exists (p : nat) (wq : world),
    (1 <= p)%nat /\ vacant socketv p
    /\ (forall i, (1 <= i < p)%nat -> occupied socketv i)
    /\ dialing wq p
    /\ length (heap wq) = S sk
    /\ Host_dial rx h (addrstr4 hostpart port) w
       = try_except
           (match hosts (file w) !! dsthost with
            | None => raise ErrNoHost
            | Some dstdata =>
                let* src := socket_addr sk in
                let* r := _SubNetwork__vnet_dial rx n src dst dstdata in
                let* c := conn_new sk (snd r) (fst r) in
                setattr sk "_conn" (VRef c) ;;;
                ret c
            end)
           (Host_dial_failed h sk (Addr_str dst)) wq.
Proof.
  intros Hc dsthost dst.
  destruct (alloc_run w h socketv Hsocketv) as (p & Halloc & Hp & Hvac & Hocc).
  destruct (with_socket_facts w h socketv p (Z.of_nat p) Hsocketv)
    as (Hlen & Hfile & _ & Htab & Hskh & Hskp & Hskc & Hskl & _ & Hkept).
  set (ws := with_socket h socketv p (Z.of_nat p) w) in *.
  assert (Hold : forall o a v, attr_of w o a = Some v -> a <> "_socketv" ->
            attr_of ws o a = Some v).
  { intros o a v Hv Ha. rewrite Hkept; [assumption | now apply attr_of_lt in Hv | now right]. }
  assert (Hhost_s : host_of ws h n network name).
  { destruct Hhost as (H1 & H2 & H3).
    repeat split; (apply Hold; [assumption | discriminate]). }
  assert (Hopen_s : registry_open ws r uri).
  { destruct Hopen as (pool & Hu & Hpl & factory & connv & Hf & Hn & Hcv).
    exists pool. repeat split; try (apply Hold; [assumption | discriminate]).
    exists factory, connv. repeat split; try assumption;
      (apply Hold; [assumption | discriminate]). }
  destruct (query_closed_form ws r uri dsthost Hopen_s) as (pool & connv' & Hq & Hpool).
  set (wq := with_attr pool "_connv" (VList connv') ws) in *.
  assert (Hstep : forall o a, a <> "_connv" -> attr_of wq o a = attr_of ws o a)
    by (intros o a Ha; unfold wq; apply attr_of_with_attr_ne; right; congruence).
  pose proof Hhost_s as (Hs1 & Hs2 & Hs3).
  exists p, wq. repeat split; try assumption;
    try (rewrite Hstep by discriminate; assumption).
  - unfold wq. now rewrite file_with_attr.
  - unfold wq. rewrite heap_with_attr_length, Hlen. unfold sk. lia.
  - intros o a Ho Ha1 Ha2. rewrite Hstep by assumption.
    apply Hkept; [exact Ho | now right].
  - unfold wq. now rewrite heap_with_attr_length.
  - destruct Hhost_s as (H1 & H2 & H3).
    unfold Host_dial. unfold bind at 1. rewrite Halloc. fold ws sk.
    unfold bind at 1. unfold try_except at 1.
    rewrite (parseAddr_run ws h n network name H1 H2 H3) by assumption.
    fold dsthost.
    unfold try_except at 1. unfold bind at 1. rewrite (getattr_ref_run _ _ _ _ H1).
    unfold bind at 1.
    rewrite (getattr_ref_run ws n "_registry" r) by (apply Hold; [assumption|discriminate]).
    unfold bind at 1. cbn [host]. rewrite Hq. rewrite Hfile.
    reflexivity.
Qed.

(** The [except] clause of [dial] while the dial is under way: the slot
    is vacant again, and a table that was in order before the dial is in
    order after it. *)
Lemma dialing_release {A} (w1 : world) (p : nat) (dst : string) (err : exc) :
  dialing w1 p -> vacant socketv p ->
  exists wf,
    Host_dial_failed (A := A) h sk dst err w1
    = (Raise (Error ("dial " +:+ network +:+ " " +:+ addrstr4 name (Z.of_nat p)
                     +:+ "->" +:+ dst) (Some err)), wf)
    /\ attr_of wf h "_socketv" = Some (VList (grown socketv p))
    /\ file wf = file w
    /\ (forall o a, (o < length (heap w1))%nat -> o <> h \/ a <> "_socketv" ->
          attr_of wf o a = attr_of w1 o a)
    /\ (table_ok w h = true -> table_ok wf h = true).
Proof.
  intros (Hh1 & H1 & H2 & H3 & H4 & H5 & Hf & Hlen & Hk) Hvac.
  pose proof (attr_of_lt _ _ _ _ H5) as Hhlt.
  pose proof (attr_of_lt _ _ _ _ Hsocketv) as Hhlt0.
  assert (Hp : (p < length (<[p := VRef sk]> (grown socketv p)))%nat)
    by (rewrite length_insert, grown_length; lia).
  exists (with_attr h "_socketv"
            (VList (<[p := VNone]> (<[p := VRef sk]> (grown socketv p)))) w1).
  assert (Hlist : <[p := VNone]> (<[p := VRef sk]> (grown socketv p)) = grown socketv p).
  { rewrite list_insert_insert_eq. apply list_insert_id. now apply grown_vacant. }
  split; [|split; [|split; [|split]]].
  - now apply (dial_failed_run w1 h n network name sk p).
  - rewrite Hlist. now apply attr_of_with_attr_eq.
  - now rewrite file_with_attr.
  - intros o a Ho Hne. apply attr_of_with_attr_ne. destruct Hne; [left|right]; congruence.
  - intros Hok.
    apply (table_ok_release w _ h socketv (grown socketv p)); try assumption.
    + rewrite Hlist. now apply attr_of_with_attr_eq.
    + intros o a Ho Ha1 Ha2. rewrite attr_of_with_attr_ne by (right; congruence).
      apply Hk; assumption.
    + intros i v Hv. destruct (Nat.lt_ge_cases i (length socketv)) as [Hlt|Hge].
      * right. now rewrite grown_lookup_old in Hv.
      * left. rewrite grown_lookup_new in Hv
          by (split; [assumption | now apply lookup_lt_Some in Hv]).
        now injection Hv.
Qed.

(** [dial] to a host that the registry does not know raises "no such
    host" in the context of the dial, from the port that was reserved
    for it; the slot reserved is vacant again, and a table that was in
    order is in order. *)
Theorem dial_unknown_host (rx : stream) (hostpart : string) (port : Z) :
  has_char ":" hostpart = false ->
  let dsthost := if String.eqb hostpart EmptyString then name else hostpart in
  hosts (file w) !! dsthost = None ->
  exists (p : nat) (w' : world),
    Host_dial rx h (addrstr4 hostpart port) w
    = (Raise (Error ("dial " +:+ network +:+ " " +:+ addrstr4 name (Z.of_nat p)
                     +:+ "->" +:+ addrstr4 dsthost port) (Some ErrNoHost)), w')
    /\ (1 <= p)%nat /\ vacant socketv p
    /\ (forall i, (1 <= i < p)%nat -> occupied socketv i)
    /\ attr_of w' h "_socketv" = Some (VList (grown socketv p))
    /\ file w' = file w
    /\ (table_ok w h = true -> table_ok w' h = true).
Proof.
  intros Hc dsthost Hnone.
  destruct (dial_query_run rx hostpart port Hc)
    as (p & wq & Hp & Hvac & Hocc & Hdial & Hlen & Hrun).
  fold dsthost in Hrun. rewrite Hnone in Hrun.
  destruct (dialing_release (A := loc) wq p (addrstr4 dsthost port) ErrNoHost Hdial Hvac)
    as (wf & Hfail & Htab & Hfile & _ & Hok).
  exists p, wf. repeat split; try assumption.
  rewrite Hrun. unfold try_except, raise. exact Hfail.
Qed.


End DialRun.

Lemma dial_unknown_host_witness :
  exists (p : nat) (w' : world),
    Host_dial EmptyString 5%nat "b:1" listening_world
    = (Raise (Error ("dial lonetX " +:+ addrstr4 "a" (Z.of_nat p) +:+ "->" +:+ "b:1")
                (Some ErrNoHost)), w')
    /\ vacant [VNone; VRef 6%nat] p
    /\ attr_of w' 5%nat "_socketv" = Some (VList (grown [VNone; VRef 6%nat] p)).
Proof.
  assert (Hopen : registry_open listening_world 0%nat "/tmp/lonet/X/registry.db").
  { exists 1%nat. repeat split.
    exists (VOpaque "factory"), [VOpaque "sqlite3.Connection"]. repeat split. }
  destruct (dial_unknown_host listening_world 5%nat 2%nat 0%nat "lonetX" "a"
              "/tmp/lonet/X/registry.db" [VNone; VRef 6%nat]
              (conj eq_refl (conj eq_refl eq_refl)) eq_refl eq_refl Hopen
              EmptyString "b" 1 eq_refl eq_refl)
    as (p & w' & Hrun & _ & Hvac & _ & Htab & _).
  exists p, w'. repeat split; assumption.
Defined.

